(** * Client-component lifecycle of the Firestore handles

    A shallow embedding of
      - packages/firestore/exp/src/api/components.ts   (full SDK registry)
      - packages/firestore/lite/src/api/components.ts  (lite SDK registry)
      - packages/firestore/exp/src/api/database.ts     (handle facade)
    The module-level [Map]s, the fields of the [Firestore] objects and the
    promise heap are threaded through an explicit [State]; functions that can
    throw live in a small state-and-exception monad.  Promises are heap
    cells; a pending cell records what will settle it, so that the code after
    an [await] or inside a [.then] callback is a continuation run by a later
    step of the event loop. *)

From Stdlib Require Import ZArith Lia.
From stdpp Require Import base option list functions gmap strings pretty.

Open Scope string_scope.
Open Scope list_scope.

(** ** Errors (util/error) *)

Inductive Code := INVALID_ARGUMENT | FAILED_PRECONDITION | UNAVAILABLE | UNKNOWN.

Record FirestoreError := mkFirestoreError { code : Code; message : string }.

#[global] Instance Code_eq_dec : EqDecision Code.
Proof. solve_decision. Defined.

#[global] Instance FirestoreError_eq_dec : EqDecision FirestoreError.
Proof. solve_decision. Defined.

(** ** Identities of JavaScript objects *)

(** A [Firestore] object, used as key of the registries. *)
Abbreviation handle := nat (only parsing).
(** A [Promise] object: index of its cell in the promise heap. *)
Abbreviation pid := nat (only parsing).

(** ** Settings and DatabaseInfo *)

Module Settings.
Record t := mk { host : option string; ssl : option bool; cacheSizeBytes : option Z }.
(** The object literal [{}]. *)
Definition empty : t := mk None None None.
End Settings.

Record DatabaseId := mkDatabaseId { projectId : string; database : string }.

Module DatabaseInfo.
Record t := mk {
  databaseId : DatabaseId;
  persistenceKey : string;
  host : string;
  ssl : bool;
  forceLongPolling : bool }.
End DatabaseInfo.

Inductive ComponentProvider :=
  | MemoryComponentProvider
  | IndexedDbComponentProvider
  | MultiTabIndexedDbComponentProvider.

Record PersistenceSettings := mkPersistenceSettings {
  durable : bool;
  ps_cacheSizeBytes : option Z;
  synchronizeTabs : option bool }.

(** The literal [{ durable: false }]. *)
Definition not_durable : PersistenceSettings := mkPersistenceSettings false None None.

(** Fields of a [Firestore] object that the registries read. *)
Record Firestore := mkFirestore {
  _databaseId : DatabaseId;
  _persistenceKey : string;
  _credentials : nat;
  _queue : nat;
  _settings : option Settings.t;
  _terminated : bool }.

(** ** Promises *)

Inductive Value :=
  | VUndefined
  | VClient (c : nat)
  | VDatastore (d : nat)
  | VConnection (n : nat).

(** [if (x)] on a value: objects are truthy, [undefined] is not. *)
Definition truthy (v : Value) : bool :=
  match v with VUndefined => false | _ => true end.

(** What an [await] waits for: a plain value or a promise. *)
Inductive Awaited := AwValue (v : Value) | AwPromise (p : pid).

Inductive ClientOp := WaitForPendingWrites | EnableNetwork | DisableNetwork.

(** The storage-clearing callback handed to [_clearPersistence]. *)
Abbreviation Delegate := nat (only parsing).

(** Code that runs once an awaited value is available. *)
Inductive Cont :=
  | KThenReturn (v : Value)
  | KThenNewDatastore (firestore : handle) (databaseInfo : DatabaseInfo.t)
  | KThenClientOp (op : ClientOp)
  | KRemoveFirestoreClient (firestore : handle)
  | KRemoveDatastore (firestore : handle)
  | KReturnPromise
  | KClearPersistenceDone.

(** Who produced a promise that the SDK code only consumes. *)
Inductive Origin :=
  | OStart (c : nat)
  | OTerminate (c : nat)
  | OClientOp (c : nat) (op : ClientOp)
  | ONewConnection
  | OTerminateDatastore (d : nat)
  | ODelegate (delegate : Delegate).

(** A task sitting on an [AsyncQueue]. *)
Inductive Task := TClearPersistence (delegate : Delegate) (firestore : handle).

(** Why a promise is still pending. *)
Inductive Pend :=
  | ByCollaborator (o : Origin)
  | Suspended (aw : Awaited) (k : Cont)
  | Queued (t : Task).

Inductive PromiseState :=
  | Pending (w : Pend)
  | Fulfilled (v : Value)
  | Rejected (e : FirestoreError).

Definition is_settled (st : PromiseState) : bool :=
  match st with Pending _ => false | _ => true end.

#[global] Instance DatabaseId_eq_dec : EqDecision DatabaseId.
Proof. solve_decision. Defined.
#[global] Instance DatabaseInfo_eq_dec : EqDecision DatabaseInfo.t.
Proof. solve_decision. Defined.
#[global] Instance Value_eq_dec : EqDecision Value.
Proof. solve_decision. Defined.
#[global] Instance ClientOp_eq_dec : EqDecision ClientOp.
Proof. solve_decision. Defined.
#[global] Instance Cont_eq_dec : EqDecision Cont.
Proof. solve_decision. Defined.

(** ** The client runtime and the datastore *)

Inductive RuntimeState := Unstarted | Starting | Running | Terminating | Terminated.

Record FirestoreClient := mkFirestoreClient {
  fc_credentials : nat;
  fc_queue : nat;
  fc_state : RuntimeState }.

Record Datastore := mkDatastore {
  ds_connection : Value;
  ds_credentials : nat;
  ds_serializer : DatabaseId }.

(** Calls made to collaborators, in program order. *)
Inductive Event :=
  | EvNewFirestoreClient (c : nat) (credentials queue : nat)
  | EvStart (c : nat) (databaseInfo : DatabaseInfo.t)
      (componentProvider : ComponentProvider) (persistenceSettings : PersistenceSettings)
  | EvTerminate (c : nat)
  | EvClientOp (c : nat) (op : ClientOp)
  | EvNewConnection (databaseInfo : DatabaseInfo.t)
  | EvNewDatastore (d : nat)
  | EvTerminateDatastore (d : nat)
  | EvEnqueueAndForgetEvenAfterShutdown (queue : nat) (deferred : pid)
  | EvDelegate (delegate : Delegate) (databaseId : DatabaseId) (persistenceKey : string)
      (returned : pid + FirestoreError).

(** ** Program state *)

Record State := mkState {
  firestoreClientInstances : gmap handle pid;
  datastoreInstances : gmap handle pid;
  objects : handle -> Firestore;
  promises : list PromiseState;
  clients : list FirestoreClient;
  datastores : list Datastore;
  tasks : list (nat * pid);
  shuttingDown : gset nat;
  calls : list Event }.

Definition set_firestoreClientInstances (f : gmap handle pid -> gmap handle pid) (s : State) : State :=
  mkState (f (firestoreClientInstances s)) (datastoreInstances s) (objects s) (promises s)
    (clients s) (datastores s) (tasks s) (shuttingDown s) (calls s).

Definition set_datastoreInstances (f : gmap handle pid -> gmap handle pid) (s : State) : State :=
  mkState (firestoreClientInstances s) (f (datastoreInstances s)) (objects s) (promises s)
    (clients s) (datastores s) (tasks s) (shuttingDown s) (calls s).

Definition set_objects (f : (handle -> Firestore) -> handle -> Firestore) (s : State) : State :=
  mkState (firestoreClientInstances s) (datastoreInstances s) (f (objects s)) (promises s)
    (clients s) (datastores s) (tasks s) (shuttingDown s) (calls s).

Definition set_promises (f : list PromiseState -> list PromiseState) (s : State) : State :=
  mkState (firestoreClientInstances s) (datastoreInstances s) (objects s) (f (promises s))
    (clients s) (datastores s) (tasks s) (shuttingDown s) (calls s).

Definition set_clients (f : list FirestoreClient -> list FirestoreClient) (s : State) : State :=
  mkState (firestoreClientInstances s) (datastoreInstances s) (objects s) (promises s)
    (f (clients s)) (datastores s) (tasks s) (shuttingDown s) (calls s).

Definition set_datastores (f : list Datastore -> list Datastore) (s : State) : State :=
  mkState (firestoreClientInstances s) (datastoreInstances s) (objects s) (promises s)
    (clients s) (f (datastores s)) (tasks s) (shuttingDown s) (calls s).

Definition set_tasks (f : list (nat * pid) -> list (nat * pid)) (s : State) : State :=
  mkState (firestoreClientInstances s) (datastoreInstances s) (objects s) (promises s)
    (clients s) (datastores s) (f (tasks s)) (shuttingDown s) (calls s).

Definition set_shuttingDown (f : gset nat -> gset nat) (s : State) : State :=
  mkState (firestoreClientInstances s) (datastoreInstances s) (objects s) (promises s)
    (clients s) (datastores s) (tasks s) (f (shuttingDown s)) (calls s).

Definition set_calls (f : list Event -> list Event) (s : State) : State :=
  mkState (firestoreClientInstances s) (datastoreInstances s) (objects s) (promises s)
    (clients s) (datastores s) (tasks s) (shuttingDown s) (f (calls s)).

(** ** A state monad with exceptions *)

Inductive Res (A : Type) := Return (a : A) | Throw (e : FirestoreError).
Arguments Return {A} a.
Arguments Throw {A} e.

Definition M (A : Type) : Type := State -> Res A * State.

Definition ret {A} (a : A) : M A := fun s => (Return a, s).
Definition throw {A} (e : FirestoreError) : M A := fun s => (Throw e, s).
Definition bind {A B} (m : M A) (k : A -> M B) : M B :=
  fun s => match m s with
           | (Return a, s') => k a s'
           | (Throw e, s') => (Throw e, s')
           end.
Definition gets {A} (f : State -> A) : M A := fun s => (Return (f s), s).
Definition modify (f : State -> State) : M unit := fun s => (Return tt, f s).

Notation "x <- m ;; k" := (bind m (fun x => k))
  (at level 100, m at next level, right associativity).
Notation "m ;;; k" := (bind m (fun _ => k))
  (at level 100, right associativity).

(** ** Promise heap primitives *)

(** [new Promise(...)]: a fresh cell at the end of the heap. *)
Definition newPromise (w : Pend) : M pid :=
  fun s => (Return (length (promises s)), set_promises (fun ps => ps ++ [Pending w]) s).

(** Overwrite the cell of a promise the running code owns. *)
Definition setPromise (p : pid) (st : PromiseState) : M unit :=
  modify (set_promises (fun ps => <[p := st]> ps)).

(** [src.then(callback)] and the suspension of an [async] function at an
    [await]: the new promise waits for [aw] and is settled by [k]. *)
Definition suspend (aw : Awaited) (k : Cont) : M pid := newPromise (Suspended aw k).

Definition record (e : Event) : M unit := modify (set_calls (fun es => es ++ [e])).

(** The result an [await] delivers, once there is one. *)
Definition awaited_result (s : State) (aw : Awaited) : option (Value + FirestoreError) :=
  match aw with
  | AwValue v => Some (inl v)
  | AwPromise p =>
      match promises s !! p with
      | Some (Fulfilled v) => Some (inl v)
      | Some (Rejected e) => Some (inr e)
      | _ => None
      end
  end.

(** ** Collaborators: FirestoreClient (core/firestore_client) *)

Definition update_runtime (c : nat) (f : RuntimeState -> RuntimeState)
    (cs : list FirestoreClient) : list FirestoreClient :=
  match cs !! c with
  | Some cl => <[c := mkFirestoreClient (fc_credentials cl) (fc_queue cl) (f (fc_state cl))]> cs
  | None => cs
  end.

Definition set_runtime (c : nat) (f : RuntimeState -> RuntimeState) : M unit :=
  modify (set_clients (update_runtime c f)).

Definition runtime (s : State) (c : nat) : option RuntimeState := fc_state <$> clients s !! c.

(** [new FirestoreClient(credentials, queue)]: a new runtime object, not
    started yet. *)
Definition new_FirestoreClient (credentials queue : nat) : M nat :=
  fun s =>
    let c := length (clients s) in
    (Return c,
     set_calls (fun es => es ++ [EvNewFirestoreClient c credentials queue])
       (set_clients (fun cs => cs ++ [mkFirestoreClient credentials queue Unstarted]) s)).

(** Modelled from the spec: [FirestoreClient.start] is not among the files.
    "start(databaseInfo, persistenceProvider, persistenceSettings) ->
    future<void>: ... transitions Unstarted->Starting->Running",
    "Unstarted->Starting on first provisioning request"; the call itself
    moves an unstarted runtime to Starting and hands back a future that the
    runtime settles later. *)
Definition FirestoreClient_start (c : nat) (databaseInfo : DatabaseInfo.t)
    (componentProvider : ComponentProvider) (persistenceSettings : PersistenceSettings) : M pid :=
  record (EvStart c databaseInfo componentProvider persistenceSettings) ;;;
  set_runtime c (fun st => match st with Unstarted => Starting | _ => st end) ;;;
  newPromise (ByCollaborator (OStart c)).

(** Modelled from the spec: [FirestoreClient.terminate] is not among the
    files.  "terminate() -> future<void>: Running->Terminating->Terminated";
    "Terminal state is absorbing". *)
Definition FirestoreClient_terminate (c : nat) : M pid :=
  record (EvTerminate c) ;;;
  set_runtime c (fun st => match st with Terminated => Terminated | _ => Terminating end) ;;;
  newPromise (ByCollaborator (OTerminate c)).

(** Modelled from the spec: the operational methods of [FirestoreClient]
    are not among the files.  "enableNetwork()/disableNetwork() ->
    future<void>", "waitForPendingWrites() -> future<void>": each call hands
    back a future that the runtime settles later. *)
Definition FirestoreClient_op (c : nat) (op : ClientOp) : M pid :=
  record (EvClientOp c op) ;;;
  newPromise (ByCollaborator (OClientOp c op)).

(** ** exp/src/api/database.ts: the fields and [_getSettings] *)

Definition getObject (firestore : handle) : M Firestore := gets (fun s => objects s firestore).

Definition with_settings (o : Firestore) (st : option Settings.t) : Firestore :=
  mkFirestore (_databaseId o) (_persistenceKey o) (_credentials o) (_queue o) st (_terminated o).

Definition with_terminated (o : Firestore) (b : bool) : Firestore :=
  mkFirestore (_databaseId o) (_persistenceKey o) (_credentials o) (_queue o) (_settings o) b.

Definition _getSettings (this : handle) : M Settings.t :=
  o <- getObject this ;;
  match _settings o with
  | Some settings => ret settings
  | None =>
      modify (set_objects (fun os => <[this := with_settings o (Some Settings.empty)]> os)) ;;;
      ret Settings.empty
  end.

(** ** exp/src/api/components.ts *)

Definition DEFAULT_HOST : string := "firestore.googleapis.com".
Definition DEFAULT_SSL : bool := true.

Definition already_terminated : FirestoreError :=
  mkFirestoreError FAILED_PRECONDITION "The client has already been terminated.".

Definition already_started : FirestoreError :=
  mkFirestoreError FAILED_PRECONDITION
    ("Firestore has already been started and persistence can no longer " +:+
     "be enabled. You can only enable persistence before calling " +:+
     "any other methods on a Firestore object.").

Definition hasFirestoreClient (firestore : handle) (s : State) : bool :=
  bool_decide (is_Some (firestoreClientInstances s !! firestore)).

Definition initializeFirestoreClient (firestore : handle)
    (componentProvider : ComponentProvider) (persistenceSettings : PersistenceSettings) : M pid :=
  o <- getObject firestore ;;
  has <- gets (hasFirestoreClient firestore) ;;
  if _terminated o || has then throw already_started
  else
    settings <- _getSettings firestore ;;
    let databaseInfo :=
      DatabaseInfo.mk (_databaseId o) (_persistenceKey o)
        (default DEFAULT_HOST (Settings.host settings))
        (default DEFAULT_SSL (Settings.ssl settings))
        false in
    firestoreClient <- new_FirestoreClient (_credentials o) (_queue o) ;;
    initializationPromise <-
      FirestoreClient_start firestoreClient databaseInfo componentProvider persistenceSettings ;;
    stored <- suspend (AwPromise initializationPromise) (KThenReturn (VClient firestoreClient)) ;;
    modify (set_firestoreClientInstances (fun m => <[firestore := stored]> m)) ;;;
    ret initializationPromise.

Definition getFirestoreClient (firestore : handle) : M (option pid) :=
  o <- getObject firestore ;;
  if _terminated o then throw already_terminated
  else
    has <- gets (hasFirestoreClient firestore) ;;
    (if negb has
     then initializeFirestoreClient firestore MemoryComponentProvider not_durable ;;; ret tt
     else ret tt) ;;;
    gets (fun s => firestoreClientInstances s !! firestore).

(** [removeFirestoreClient] up to its [await]: the stored promise (or
    [undefined]) is read and the call returns its own pending promise. *)
Definition removeFirestoreClient (firestore : handle) : M pid :=
  stored <- gets (fun s => firestoreClientInstances s !! firestore) ;;
  suspend (match stored with Some p => AwPromise p | None => AwValue VUndefined end)
    (KRemoveFirestoreClient firestore).

(** A method call on something that is not a client object. *)
Definition not_a_function : FirestoreError :=
  mkFirestoreError UNKNOWN "TypeError: not a function".

(** [removeFirestoreClient] after its [await]; [result] is the promise the
    call returned.  A rejected await rethrows out of the function body.  The
    method [terminate] of the runtime is a parameter, so that what the
    function does before calling it can be told from what it does after. *)
Definition removeFirestoreClient_after_await (terminate : nat -> M pid)
    (firestore : handle) (result : pid) (awaited : Value + FirestoreError) : M unit :=
  match awaited with
  | inr e => setPromise result (Rejected e)
  | inl firestoreClient =>
      if truthy firestoreClient then
        modify (set_firestoreClientInstances (fun m => delete firestore m)) ;;;
        match firestoreClient with
        | VClient c =>
            terminated <- terminate c ;;
            setPromise result (Pending (Suspended (AwPromise terminated) KReturnPromise))
        | _ => setPromise result (Rejected not_a_function)
        end
      else setPromise result (Fulfilled VUndefined)
  end.

Definition removeFirestoreClient_resume (firestore : handle) (result : pid)
    (awaited : Value + FirestoreError) : M unit :=
  removeFirestoreClient_after_await FirestoreClient_terminate firestore result awaited.

(** ** lite/src/api/components.ts *)

(** [datastoreInstances.has(firestore)]. *)
Definition hasDatastore (firestore : handle) (s : State) : bool :=
  bool_decide (is_Some (datastoreInstances s !! firestore)).

(** Modelled from the spec: [newConnection] (platform/connection) is not
    among the files.  "openConnection(databaseInfo) -> future<Connection>". *)
Definition newConnection (databaseInfo : DatabaseInfo.t) : M pid :=
  record (EvNewConnection databaseInfo) ;;;
  newPromise (ByCollaborator ONewConnection).

(** [newDatastore(connection, credentials, serializer)] (remote/datastore). *)
Definition newDatastore (connection : Value) (credentials : nat) (serializer : DatabaseId) : M nat :=
  fun s =>
    let d := length (datastores s) in
    (Return d,
     set_calls (fun es => es ++ [EvNewDatastore d])
       (set_datastores (fun ds => ds ++ [mkDatastore connection credentials serializer]) s)).

(** Modelled from the spec: [terminateDatastore] (remote/datastore) is not
    among the files; its result is taken as a future of the collaborator,
    like the runtime's "terminate() -> future<void>". *)
Definition terminateDatastore (d : nat) : M pid :=
  record (EvTerminateDatastore d) ;;;
  newPromise (ByCollaborator (OTerminateDatastore d)).

Definition getDatastore (firestore : handle) : M (option pid) :=
  has <- gets (hasDatastore firestore) ;;
  (if negb has then
     settings <- _getSettings firestore ;;
     o <- getObject firestore ;;
     let databaseInfo :=
       DatabaseInfo.mk (_databaseId o) (_persistenceKey o)
         (default DEFAULT_HOST (Settings.host settings))
         (default DEFAULT_SSL (Settings.ssl settings))
         false in
     connection <- newConnection databaseInfo ;;
     datastorePromise <- suspend (AwPromise connection) (KThenNewDatastore firestore databaseInfo) ;;
     modify (set_datastoreInstances (fun m => <[firestore := datastorePromise]> m))
   else ret tt) ;;;
  gets (fun s => datastoreInstances s !! firestore).

(** The callback [connection => newDatastore(connection, firestore._credentials,
    newSerializer(databaseInfo.databaseId))]. *)
Definition getDatastore_then (firestore : handle) (databaseInfo : DatabaseInfo.t) (result : pid)
    (awaited : Value + FirestoreError) : M unit :=
  match awaited with
  | inr e => setPromise result (Rejected e)
  | inl connection =>
      o <- getObject firestore ;;
      d <- newDatastore connection (_credentials o) (DatabaseInfo.databaseId databaseInfo) ;;
      setPromise result (Fulfilled (VDatastore d))
  end.

Definition removeDatastore (firestore : handle) : M pid :=
  stored <- gets (fun s => datastoreInstances s !! firestore) ;;
  suspend (match stored with Some p => AwPromise p | None => AwValue VUndefined end)
    (KRemoveDatastore firestore).

(** [removeDatastore] after its [await], with [terminateDatastore] as a
    parameter. *)
Definition removeDatastore_after_await (terminateDatastore : nat -> M pid)
    (firestore : handle) (result : pid) (awaited : Value + FirestoreError) : M unit :=
  match awaited with
  | inr e => setPromise result (Rejected e)
  | inl datastore =>
      if truthy datastore then
        modify (set_datastoreInstances (fun m => delete firestore m)) ;;;
        match datastore with
        | VDatastore d =>
            terminated <- terminateDatastore d ;;
            setPromise result (Pending (Suspended (AwPromise terminated) KReturnPromise))
        | _ => setPromise result (Rejected not_a_function)
        end
      else setPromise result (Fulfilled VUndefined)
  end.

Definition removeDatastore_resume (firestore : handle) (result : pid)
    (awaited : Value + FirestoreError) : M unit :=
  removeDatastore_after_await terminateDatastore firestore result awaited.

(** ** exp/src/api/database.ts: the handle facade *)

Definition clear_precondition : FirestoreError :=
  mkFirestoreError FAILED_PRECONDITION
    ("Persistence can only be cleared before a Firestore instance is " +:+
     "initialized or after it is terminated.").

(** Modelled from the spec: [AsyncQueue] (util/async_queue) is not among the
    files.  "Two submission modes: normal enqueue (rejected after shutdown)
    and enqueue even after shutdown": this one appends the task to the queue
    whether or not shutdown was requested.  A task is named by the promise it
    settles. *)
Definition enqueueAndForgetEvenAfterShutdown (queue : nat) (task : pid) : M unit :=
  record (EvEnqueueAndForgetEvenAfterShutdown queue task) ;;;
  modify (set_tasks (fun ts => ts ++ [(queue, task)])).

(** [deferred.promise] starts out waiting for the queued closure that will
    resolve or reject it. *)
Definition _clearPersistence (this : handle) (delegate : Delegate) : M pid :=
  has <- gets (hasFirestoreClient this) ;;
  if has then throw clear_precondition
  else
    deferred <- newPromise (Queued (TClearPersistence delegate this)) ;;
    o <- getObject this ;;
    enqueueAndForgetEvenAfterShutdown (_queue o) deferred ;;;
    ret deferred.

(** The queued closure up to its [await]: [delegate] is called with the
    handle's database id and persistence key; [threw] is what the call did
    (a synchronous throw lands in the [catch]). *)
Definition clearPersistence_task (delegate : Delegate) (this : handle) (deferred : pid)
    (threw : option FirestoreError) : M unit :=
  o <- getObject this ;;
  match threw with
  | Some e =>
      record (EvDelegate delegate (_databaseId o) (_persistenceKey o) (inr e)) ;;;
      setPromise deferred (Rejected e)
  | None =>
      returned <- newPromise (ByCollaborator (ODelegate delegate)) ;;
      record (EvDelegate delegate (_databaseId o) (_persistenceKey o) (inl returned)) ;;;
      setPromise deferred (Pending (Suspended (AwPromise returned) KClearPersistenceDone))
  end.

(** The queued closure after its [await]: [deferred.resolve()] or
    [deferred.reject(e)]. *)
Definition clearPersistence_done (deferred : pid) (awaited : Value + FirestoreError) : M unit :=
  match awaited with
  | inl _ => setPromise deferred (Fulfilled VUndefined)
  | inr e => setPromise deferred (Rejected e)
  end.

(** [indexedDbClearPersistence(indexedDbStoragePrefix(databaseId,
    persistenceKey))] as a delegate. *)
Definition indexedDbClearPersistence : Delegate := 0.

Definition clearIndexedDbPersistence (firestore : handle) : M pid :=
  _clearPersistence firestore indexedDbClearPersistence.

(** [waitForPendingWrites], [enableNetwork], [disableNetwork]:
    [getFirestoreClient(firestoreImpl).then(firestoreClient => firestoreClient.op())]. *)
Definition clientOperation (op : ClientOp) (firestore : handle) : M pid :=
  stored <- getFirestoreClient firestore ;;
  match stored with
  | Some p => suspend (AwPromise p) (KThenClientOp op)
  | None => throw not_a_function
  end.

Definition waitForPendingWrites : handle -> M pid := clientOperation WaitForPendingWrites.
Definition enableNetwork : handle -> M pid := clientOperation EnableNetwork.
Definition disableNetwork : handle -> M pid := clientOperation DisableNetwork.

Definition clientOperation_then (op : ClientOp) (result : pid)
    (awaited : Value + FirestoreError) : M unit :=
  match awaited with
  | inr e => setPromise result (Rejected e)
  | inl (VClient c) =>
      returned <- FirestoreClient_op c op ;;
      setPromise result (Pending (Suspended (AwPromise returned) KReturnPromise))
  | inl _ => setPromise result (Rejected not_a_function)
  end.

Section InitializeFirestore.

(** [LruParams.MINIMUM_CACHE_SIZE_BYTES] (local/lru_garbage_collector) and
    [CACHE_SIZE_UNLIMITED] (api/database) are imported constants; byte counts
    are integers. *)
Variable MINIMUM_CACHE_SIZE_BYTES : Z.
Variable CACHE_SIZE_UNLIMITED : Z.
(** [_getProvider(app, 'firestore-exp').getImmediate()]. *)
Variable getImmediate : nat -> handle.
(** [_configureClient], inherited from the lite handle. *)
Variable _configureClient : handle -> Settings.t -> M unit.

Definition cacheSize_too_small : FirestoreError :=
  mkFirestoreError INVALID_ARGUMENT
    ("cacheSizeBytes must be at least " +:+ pretty MINIMUM_CACHE_SIZE_BYTES).

Definition cacheSize_invalid (settings : Settings.t) : bool :=
  match Settings.cacheSizeBytes settings with
  | None => false
  | Some n =>
      bool_decide (n ≠ CACHE_SIZE_UNLIMITED) && bool_decide (n < MINIMUM_CACHE_SIZE_BYTES)%Z
  end.

Definition initializeFirestore (app : nat) (settings : Settings.t) : M handle :=
  let firestore := getImmediate app in
  if cacheSize_invalid settings then throw cacheSize_too_small
  else
    _configureClient firestore settings ;;;
    ret firestore.

End InitializeFirestore.

(** ** The event loop and the collaborators *)

(** A promise that was resolved with another promise takes its outcome. *)
Definition adopt (result : pid) (awaited : Value + FirestoreError) : M unit :=
  match awaited with
  | inl v => setPromise result (Fulfilled v)
  | inr e => setPromise result (Rejected e)
  end.

(** [.then(() => v)]: the value on success, the same rejection otherwise. *)
Definition then_return (v : Value) (result : pid) (awaited : Value + FirestoreError) : M unit :=
  match awaited with
  | inl _ => setPromise result (Fulfilled v)
  | inr e => setPromise result (Rejected e)
  end.

Definition resume_cont (k : Cont) (result : pid) (awaited : Value + FirestoreError) : M unit :=
  match k with
  | KThenReturn v => then_return v result awaited
  | KThenNewDatastore firestore databaseInfo => getDatastore_then firestore databaseInfo result awaited
  | KThenClientOp op => clientOperation_then op result awaited
  | KRemoveFirestoreClient firestore => removeFirestoreClient_resume firestore result awaited
  | KRemoveDatastore firestore => removeDatastore_resume firestore result awaited
  | KReturnPromise => adopt result awaited
  | KClearPersistenceDone => clearPersistence_done result awaited
  end.

(** Modelled from the spec: how the collaborators settle the futures they
    handed out.  For the runtime: "Starting->Running on successful start",
    "failures surfacing during start() leave the runtime in Terminated",
    "Terminating->Terminated on completion", and terminate() "always ends in
    the Terminated state", so its future is never rejected. *)
Definition settle_collaborator (p : pid) (o : Origin) (failure : option FirestoreError)
    : option (M unit) :=
  match o, failure with
  | OStart c, None =>
      Some (set_runtime c (fun st => match st with Starting => Running | _ => st end) ;;;
            setPromise p (Fulfilled VUndefined))
  | OStart c, Some e =>
      Some (set_runtime c (fun st => match st with Starting => Terminated | _ => st end) ;;;
            setPromise p (Rejected e))
  | OTerminate c, None =>
      Some (set_runtime c (fun _ => Terminated) ;;; setPromise p (Fulfilled VUndefined))
  | OTerminate c, Some _ => None
  | ONewConnection, None => Some (setPromise p (Fulfilled (VConnection p)))
  | _, None => Some (setPromise p (Fulfilled VUndefined))
  | _, Some e => Some (setPromise p (Rejected e))
  end.

(** The first task of a queue, and the tasks that remain. *)
Fixpoint next_task (queue : nat) (ts : list (nat * pid)) : option (pid * list (nat * pid)) :=
  match ts with
  | [] => None
  | (q, t) :: rest =>
      if decide (q = queue) then Some (t, rest)
      else match next_task queue rest with
           | Some (t', rest') => Some (t', (q, t) :: rest')
           | None => None
           end
  end.

Inductive Label :=
  | CallGetFirestoreClient (firestore : handle)
  | CallInitializeFirestoreClient (firestore : handle)
      (componentProvider : ComponentProvider) (persistenceSettings : PersistenceSettings)
  | CallRemoveFirestoreClient (firestore : handle)
  | CallClientOperation (op : ClientOp) (firestore : handle)
  | CallClearPersistence (firestore : handle) (delegate : Delegate)
  | CallGetDatastore (firestore : handle)
  | CallRemoveDatastore (firestore : handle)
  | Resume (p : pid) (k : Cont)
  | RunTask (queue : nat) (threw : option FirestoreError)
  | Settle (p : pid) (failure : option FirestoreError)
  | SetTerminated (firestore : handle) (b : bool)
  | SetSettings (firestore : handle) (settings : option Settings.t)
  | Shutdown (queue : nat).

(** Run a call and keep the state it leaves; what it returned or threw goes
    to the caller. *)
Definition after {A} (m : M A) (s : State) : State := snd (m s).

(** One step of the program: a call into the SDK, a continuation or queued
    task run by the event loop, or a move of a collaborator (a future it
    handed out settles, the base class of the handle sets a field). *)
Definition step (l : Label) (s : State) : option State :=
  match l with
  | CallGetFirestoreClient h => Some (after (getFirestoreClient h) s)
  | CallInitializeFirestoreClient h cp ps => Some (after (initializeFirestoreClient h cp ps) s)
  | CallRemoveFirestoreClient h => Some (after (removeFirestoreClient h) s)
  | CallClientOperation op h => Some (after (clientOperation op h) s)
  | CallClearPersistence h delegate => Some (after (_clearPersistence h delegate) s)
  | CallGetDatastore h => Some (after (getDatastore h) s)
  | CallRemoveDatastore h => Some (after (removeDatastore h) s)
  | Resume p k =>
      match promises s !! p with
      | Some (Pending (Suspended aw k')) =>
          if decide (k' = k) then
            match awaited_result s aw with
            | Some r => Some (after (resume_cont k p r) s)
            | None => None
            end
          else None
      | _ => None
      end
  | RunTask queue threw =>
      match next_task queue (tasks s) with
      | Some (t, rest) =>
          match promises s !! t with
          | Some (Pending (Queued (TClearPersistence delegate h))) =>
              Some (after (clearPersistence_task delegate h t threw) (set_tasks (fun _ => rest) s))
          | _ => None
          end
      | None => None
      end
  | Settle p failure =>
      match promises s !! p with
      | Some (Pending (ByCollaborator o)) =>
          match settle_collaborator p o failure with
          | Some m => Some (after m s)
          | None => None
          end
      | _ => None
      end
  | SetTerminated h b =>
      Some (set_objects (fun os => <[h := with_terminated (os h) b]> os) s)
  | SetSettings h settings =>
      Some (set_objects (fun os => <[h := with_settings (os h) settings]> os) s)
  | Shutdown queue => Some (set_shuttingDown (fun qs => {[queue]} ∪ qs) s)
  end.

Fixpoint run (ls : list Label) (s : State) : option State :=
  match ls with
  | [] => Some s
  | l :: ls' =>
      match step l s with
      | Some s' => run ls' s'
      | None => None
      end
  end.

(** The part of [remove] for a handle that can take its entry out of the
    full registry, and likewise for the lite registry. *)
Definition is_remove (h : handle) (l : Label) : bool :=
  match l with
  | CallRemoveFirestoreClient h' => bool_decide (h' = h)
  | Resume _ (KRemoveFirestoreClient h') => bool_decide (h' = h)
  | _ => false
  end.

Definition is_removeDatastore (h : handle) (l : Label) : bool :=
  match l with
  | CallRemoveDatastore h' => bool_decide (h' = h)
  | Resume _ (KRemoveDatastore h') => bool_decide (h' = h)
  | _ => false
  end.

(** A call that may provision a runtime for a handle. *)
Definition is_provision (h : handle) (l : Label) : bool :=
  match l with
  | CallGetFirestoreClient h' => bool_decide (h' = h)
  | CallInitializeFirestoreClient h' _ _ => bool_decide (h' = h)
  | CallClientOperation _ h' => bool_decide (h' = h)
  | _ => false
  end.

(** The promise that a step of the event loop or of a collaborator settles. *)
Definition target (l : Label) (s : State) : option pid :=
  match l with
  | Resume p _ | Settle p _ => Some p
  | RunTask queue _ => fst <$> next_task queue (tasks s)
  | _ => None
  end.

(** The heaps only gained objects. *)
Definition extends (s s' : State) : Prop :=
  (exists extra, promises s' = promises s ++ extra) /\
  (exists extra, clients s' = clients s ++ extra) /\
  (exists extra, calls s' = calls s ++ extra).

(** [removeFirestoreClient] is past its [await] and waits for [terminate()]:
    [r] is the promise the removal returned, [t] the future of
    [terminate()] on runtime [c].  Either side is still waiting, or it is
    done and the runtime is Terminated. *)
Definition terminating (r t c : nat) (s : State) : Prop :=
  (promises s !! r = Some (Pending (Suspended (AwPromise t) KReturnPromise)) \/
   (promises s !! r = Some (Fulfilled VUndefined) /\ runtime s c = Some Terminated)) /\
  ((promises s !! t = Some (Pending (ByCollaborator (OTerminate c))) /\
    is_Some (runtime s c)) \/
   (promises s !! t = Some (Fulfilled VUndefined) /\ runtime s c = Some Terminated)).

(** What [deferred.resolve()] and [deferred.reject(e)] pass on from the
    promise the delegate returned. *)
Definition passes_on (returned deferred : PromiseState) : Prop :=
  match returned with
  | Fulfilled _ => deferred = Fulfilled VUndefined
  | Rejected e => deferred = Rejected e
  | Pending _ => False
  end.

(** The life of the promise [deferred] that [_clearPersistence] returned:
    its task is still queued; or the delegate threw and [deferred] is
    rejected with what it threw; or the delegate returned a promise, and
    [deferred] waits for it or has taken over its outcome. *)
Definition clearing (delegate : Delegate) (this : handle) (deferred : pid) (s : State) : Prop :=
  promises s !! deferred = Some (Pending (Queued (TClearPersistence delegate this))) \/
  (exists databaseId persistenceKey e,
     EvDelegate delegate databaseId persistenceKey (inr e) ∈ calls s /\
     promises s !! deferred = Some (Rejected e)) \/
  (exists databaseId persistenceKey returned st,
     EvDelegate delegate databaseId persistenceKey (inl returned) ∈ calls s /\
     promises s !! returned = Some st /\
     ((promises s !! deferred =
         Some (Pending (Suspended (AwPromise returned) KClearPersistenceDone)) /\
       (st = Pending (ByCollaborator (ODelegate delegate)) \/ is_settled st = true)) \/
      (exists st', promises s !! deferred = Some st' /\ passes_on st st'))).

(** A removal, of either SDK, that was called with stored promise [p] and
    returned promise [r]; [k] is the rest of the function.  It still waits
    for [p]; or [p] was rejected and [r] was rejected with the same error;
    or [p] has delivered a value. *)
Definition removal_waits (k : Cont) (r p : pid) (s : State) : Prop :=
  promises s !! r = Some (Pending (Suspended (AwPromise p) k)) \/
  (exists e, promises s !! p = Some (Rejected e) /\ promises s !! r = Some (Rejected e)) \/
  (exists v, promises s !! p = Some (Fulfilled v)).

(** The stored promise of runtime [c]: it waits for the start of [c], has
    delivered [c], or is rejected. *)
Definition delivers (c : nat) (st : PromiseState) : Prop :=
  (exists p0, st = Pending (Suspended (AwPromise p0) (KThenReturn (VClient c)))) \/
  st = Fulfilled (VClient c) \/
  (exists e, st = Rejected e).

(** The life of [removeFirestoreClient] for a handle whose stored promise
    [p] is the one of runtime [c]; [r] is the promise the removal returned.
    It waits for [p]; or it is past its [await] and waits for [terminate()];
    or the start failed and [r] is rejected with the start error. *)
Definition removing (h : handle) (r p c : nat) (s : State) : Prop :=
  (promises s !! r = Some (Pending (Suspended (AwPromise p) (KRemoveFirestoreClient h))) /\
   (exists st, promises s !! p = Some st /\ delivers c st) /\
   is_Some (runtime s c)) \/
  (exists t, terminating r t c s) \/
  (exists e, promises s !! p = Some (Rejected e) /\ promises s !! r = Some (Rejected e)).

(** The removal still waits, or it was rejected, or the entry is gone. *)
Definition waiting_or_removed (h : handle) (r p : pid) (s : State) : Prop :=
  promises s !! r = Some (Pending (Suspended (AwPromise p) (KRemoveFirestoreClient h))) \/
  (exists e, promises s !! r = Some (Rejected e)) \/
  firestoreClientInstances s !! h = None.

(** ** Concrete states used in examples *)

Definition app_object : Firestore :=
  mkFirestore (mkDatabaseId "my-project" "(default)") "[DEFAULT]" 0 0 None false.

(** Nothing provisioned yet; every handle looks like [app_object]. *)
Definition initial : State :=
  mkState ∅ ∅ (fun _ => app_object) [] [] [] [] ∅ [].

Definition transport_error : FirestoreError :=
  mkFirestoreError UNAVAILABLE "connection failed".

(** Handle 0 after its base class marked it terminated. *)
Definition terminated_handle : State :=
  set_objects (fun os => <[0 := with_terminated (os 0) true]> os) initial.

(** Handle 0 is provisioned and its runtime starts. *)
Definition provision_ok : list Label :=
  [CallGetFirestoreClient 0; Settle 0 None; Resume 1 (KThenReturn (VClient 0))].

(** Handle 0 is provisioned and the start of its runtime fails. *)
Definition provision_failed : list Label :=
  [CallGetFirestoreClient 0; Settle 0 (Some transport_error);
   Resume 1 (KThenReturn (VClient 0))].

(** [removeFirestoreClient] for handle 0, up to and after its [await], when
    the call returns promise [r]. *)
Definition remove_0 (r : pid) : list Label :=
  [CallRemoveFirestoreClient 0; Resume r (KRemoveFirestoreClient 0)].

(** ** exp/src/api/database.ts: enabling persistence *)

Section EnablePersistence.

(** [LruParams.DEFAULT_CACHE_SIZE_BYTES] (local/lru_garbage_collector), an
    imported constant. *)
Variable DEFAULT_CACHE_SIZE_BYTES : Z.

(** [x || d] on an optional number: [undefined] and [0] are falsy. *)
Definition or_default (x : option Z) (d : Z) : Z :=
  match x with
  | Some n => if bool_decide (n = 0%Z) then d else n
  | None => d
  end.

Definition enableIndexedDbPersistence (firestore : handle) : M pid :=
  settings <- _getSettings firestore ;;
  initializeFirestoreClient firestore IndexedDbComponentProvider
    (mkPersistenceSettings true
       (Some (or_default (Settings.cacheSizeBytes settings) DEFAULT_CACHE_SIZE_BYTES))
       None).

(** The returned promise is [initializeFirestoreClient(...).then(() => {})]. *)
Definition enableMultiTabIndexedDbPersistence (firestore : handle) : M pid :=
  settings <- _getSettings firestore ;;
  initialized <-
    initializeFirestoreClient firestore MultiTabIndexedDbComponentProvider
      (mkPersistenceSettings true
         (Some (or_default (Settings.cacheSizeBytes settings) DEFAULT_CACHE_SIZE_BYTES))
         (Some true)) ;;
  suspend (AwPromise initialized) (KThenReturn VUndefined).

End EnablePersistence.

(** ** What the full registry holds *)

(** The promise stored for a handle is [initializationPromise.then(() =>
    firestoreClient)]: it waits for a start future to deliver a client, or it
    has delivered that client, or it is rejected. *)
Definition stored_promise (s : State) (st : PromiseState) : Prop :=
  (exists p c, st = Pending (Suspended (AwPromise p) (KThenReturn (VClient c))) /\
               c < length (clients s)) \/
  (exists c, st = Fulfilled (VClient c) /\ c < length (clients s)) \/
  (exists e, st = Rejected e).


(** ** The analytics settings (packages/analytics) *)

Module Analytics.

Inductive AnalyticsError := ALREADY_INITIALIZED.

(** [SettingsOptions]: both names are optional. *)
Module SettingsOptions.
Record t := mk { dataLayerName : option string; gtagName : option string }.
End SettingsOptions.

(** The module-level variables that [settings] and [resetGlobalVars] use;
    the promises of [fidPromisesMap] are named by numbers. *)
Record Globals := mkGlobals {
  globalInitDone : bool;
  fidPromisesMap : gmap string nat;
  dataLayerName : string;
  gtagName : string }.

(** [if (x)] on an optional string: [undefined] and the empty string are
    falsy. *)
Definition truthy_name (x : option string) : option string :=
  match x with
  | Some "" => None
  | Some name => Some name
  | None => None
  end.

Definition settings (options : SettingsOptions.t) (g : Globals)
    : option AnalyticsError * Globals :=
  if globalInitDone g then (Some ALREADY_INITIALIZED, g)
  else
    let g1 :=
      match truthy_name (SettingsOptions.dataLayerName options) with
      | Some name => mkGlobals (globalInitDone g) (fidPromisesMap g) name (gtagName g)
      | None => g
      end in
    let g2 :=
      match truthy_name (SettingsOptions.gtagName options) with
      | Some name => mkGlobals (globalInitDone g1) (fidPromisesMap g1) (dataLayerName g1) name
      | None => g1
      end in
    (None, g2).


(** [getGlobalVars()]. *)
Definition getGlobalVars (g : Globals) : gmap string nat := fidPromisesMap g.

End Analytics.

(** * Properties *)

(** ** Lists used as heaps *)

Lemma lookup_snoc {A} (l : list A) (x : A) : (l ++ [x]) !! length l = Some x.
Proof. by rewrite lookup_app_r, Nat.sub_diag. Qed.

Lemma insert_snoc {A} (l : list A) (x y : A) : <[length l := y]> (l ++ [x]) = l ++ [y].
Proof. by rewrite insert_app_r_alt, Nat.sub_diag. Qed.

Lemma lookup_snoc_old {A} (l : list A) (x y : A) (i : nat) :
  l !! i = Some y -> (l ++ [x]) !! i = Some y.
Proof. intros H. by apply lookup_app_l_Some. Qed.

Lemma length_snoc {A} (l : list A) (x : A) : length (l ++ [x]) = S (length l).
Proof. rewrite length_app. simpl. lia. Qed.

(** ** The registry of the full SDK, call by call *)

Lemma hasFirestoreClient_true h s :
  hasFirestoreClient h s = true <-> is_Some (firestoreClientInstances s !! h).
Proof. unfold hasFirestoreClient. by rewrite bool_decide_eq_true. Qed.

Lemma hasFirestoreClient_false h s :
  hasFirestoreClient h s = false <-> firestoreClientInstances s !! h = None.
Proof.
  unfold hasFirestoreClient. rewrite bool_decide_eq_false. by rewrite eq_None_not_Some.
Qed.

Lemma hasFirestoreClient_Some h s p :
  firestoreClientInstances s !! h = Some p -> hasFirestoreClient h s = true.
Proof. intros H. apply hasFirestoreClient_true. eauto. Qed.

Lemma initializeFirestoreClient_throw h cp ps s :
  _terminated (objects s h) || hasFirestoreClient h s = true ->
  initializeFirestoreClient h cp ps s = (Throw already_started, s).
Proof.
  intros H. unfold initializeFirestoreClient, bind, getObject, gets. simpl.
  by rewrite H.
Qed.

Lemma getSettings_value h s :
  fst (_getSettings h s) = Return (default Settings.empty (_settings (objects s h))).
Proof.
  unfold _getSettings, bind, getObject, gets, modify, ret. simpl.
  by destruct (_settings (objects s h)).
Qed.

(** [_getSettings] only fills in a missing settings object. *)
Lemma getSettings_state h s :
  let s' := snd (_getSettings h s) in
  firestoreClientInstances s' = firestoreClientInstances s /\
  datastoreInstances s' = datastoreInstances s /\
  promises s' = promises s /\ clients s' = clients s /\ datastores s' = datastores s /\
  tasks s' = tasks s /\ shuttingDown s' = shuttingDown s /\ calls s' = calls s /\
  forall h', objects s' h' =
    if decide (h' = h) then with_settings (objects s h)
                              (Some (default Settings.empty (_settings (objects s h))))
    else objects s h'.
Proof.
  unfold _getSettings, bind, getObject, gets, modify, ret. simpl.
  destruct (_settings (objects s h)) eqn:E; simpl; repeat split; try done.
  - intros h'. case_decide; [subst|done]. unfold with_settings.
    destruct (objects s h); simpl in *. by subst.
  - intros h'. case_decide; [subst; by rewrite fn_lookup_insert|by rewrite fn_lookup_insert_ne].
Qed.

(** The [DatabaseInfo] both registries build for a handle. *)
Lemma initializeFirestoreClient_return h cp ps s :
  _terminated (objects s h) || hasFirestoreClient h s = false ->
  let o := objects s h in
  let settings := default Settings.empty (_settings o) in
  let c := length (clients s) in
  let p := length (promises s) in
  let s' := snd (initializeFirestoreClient h cp ps s) in
  fst (initializeFirestoreClient h cp ps s) = Return p /\
  firestoreClientInstances s' = <[h := S p]> (firestoreClientInstances s) /\
  datastoreInstances s' = datastoreInstances s /\
  promises s' = promises s ++
    [Pending (ByCollaborator (OStart c));
     Pending (Suspended (AwPromise p) (KThenReturn (VClient c)))] /\
  clients s' = clients s ++ [mkFirestoreClient (_credentials o) (_queue o) Starting] /\
  datastores s' = datastores s /\ tasks s' = tasks s /\ shuttingDown s' = shuttingDown s /\
  calls s' = calls s ++
    [EvNewFirestoreClient c (_credentials o) (_queue o);
     EvStart c
       (DatabaseInfo.mk (_databaseId o) (_persistenceKey o)
          (default DEFAULT_HOST (Settings.host settings))
          (default DEFAULT_SSL (Settings.ssl settings)) false)
       cp ps] /\
  objects s' = objects (snd (_getSettings h s)).
Proof.
  intros H.
  unfold initializeFirestoreClient, _getSettings, new_FirestoreClient, FirestoreClient_start,
    suspend, newPromise, record, set_runtime, update_runtime, getObject, bind, gets, modify, ret.
  simpl. rewrite H.
  destruct (_settings (objects s h)) eqn:E; simpl;
    rewrite lookup_snoc, insert_snoc, length_snoc; simpl;
    rewrite <- !app_assoc; simpl; done.
Qed.

Lemma getFirestoreClient_terminated h s :
  _terminated (objects s h) = true ->
  getFirestoreClient h s = (Throw already_terminated, s).
Proof.
  intros H. unfold getFirestoreClient, bind, getObject, gets. simpl. by rewrite H.
Qed.

Lemma getFirestoreClient_stored h s :
  _terminated (objects s h) = false -> hasFirestoreClient h s = true ->
  getFirestoreClient h s = (Return (firestoreClientInstances s !! h), s).
Proof.
  intros Ht Hh. unfold getFirestoreClient, bind, getObject, gets, ret. simpl.
  by rewrite Ht, Hh.
Qed.

Lemma getFirestoreClient_fresh h s :
  _terminated (objects s h) = false -> hasFirestoreClient h s = false ->
  getFirestoreClient h s =
    (Return (Some (S (length (promises s)))),
     snd (initializeFirestoreClient h MemoryComponentProvider not_durable s)).
Proof.
  intros Ht Hh.
  destruct (initializeFirestoreClient_return h MemoryComponentProvider not_durable s)
    as (Hr & Hm & _); [by rewrite Ht, Hh|].
  unfold getFirestoreClient, bind, getObject, gets, ret. simpl. rewrite Ht, Hh. simpl.
  destruct (initializeFirestoreClient h MemoryComponentProvider not_durable s) as [r s1].
  simpl in *. subst r. by rewrite Hm, lookup_insert_eq.
Qed.

Lemma removeFirestoreClient_eq h s :
  removeFirestoreClient h s =
    (Return (length (promises s)),
     set_promises (fun ps => ps ++
       [Pending (Suspended
          (match firestoreClientInstances s !! h with
           | Some p => AwPromise p
           | None => AwValue VUndefined
           end) (KRemoveFirestoreClient h))]) s).
Proof. reflexivity. Qed.

(** ** Calls into the SDK only add to the heaps *)

Lemma extends_refl s : extends s s.
Proof. repeat split; exists []; by rewrite app_nil_r. Qed.

Lemma extends_trans s1 s2 s3 : extends s1 s2 -> extends s2 s3 -> extends s1 s3.
Proof.
  intros ([p1 Hp1] & [c1 Hc1] & [e1 He1]) ([p2 Hp2] & [c2 Hc2] & [e2 He2]). repeat split.
  - exists (p1 ++ p2). by rewrite Hp2, Hp1, app_assoc.
  - exists (c1 ++ c2). by rewrite Hc2, Hc1, app_assoc.
  - exists (e1 ++ e2). by rewrite He2, He1, app_assoc.
Qed.

Lemma extends_promises s s' q st :
  extends s s' -> promises s !! q = Some st -> promises s' !! q = Some st.
Proof. intros [[e ->] _] H. by apply lookup_app_l_Some. Qed.

Lemma extends_clients s s' c cl :
  extends s s' -> clients s !! c = Some cl -> clients s' !! c = Some cl.
Proof. intros (_ & [e ->] & _) H. by apply lookup_app_l_Some. Qed.

Lemma initializeFirestoreClient_extends h cp ps s :
  extends s (after (initializeFirestoreClient h cp ps) s).
Proof.
  unfold after.
  destruct (_terminated (objects s h) || hasFirestoreClient h s) eqn:E.
  - rewrite initializeFirestoreClient_throw by done. apply extends_refl.
  - destruct (initializeFirestoreClient_return h cp ps s E)
      as (_ & _ & _ & Hp & Hc & _ & _ & _ & He & _).
    repeat split; eexists; eauto.
Qed.

Lemma getFirestoreClient_extends h s : extends s (after (getFirestoreClient h) s).
Proof.
  unfold after. destruct (_terminated (objects s h)) eqn:Ht.
  - rewrite getFirestoreClient_terminated by done. apply extends_refl.
  - destruct (hasFirestoreClient h s) eqn:Hh.
    + rewrite getFirestoreClient_stored by done. apply extends_refl.
    + rewrite getFirestoreClient_fresh by done. apply initializeFirestoreClient_extends.
Qed.

Lemma newPromise_extends w s : extends s (after (newPromise w) s).
Proof. repeat split; [by eexists|exists []; by rewrite app_nil_r..]. Qed.

Lemma clientOperation_extends op h s : extends s (after (clientOperation op h) s).
Proof.
  pose proof (getFirestoreClient_extends h s) as H.
  unfold after, clientOperation, bind in *.
  destruct (getFirestoreClient h s) as [[[p|]|e] s1]; simpl in *; try done.
  eapply extends_trans; [exact H|]. apply (newPromise_extends _ s1).
Qed.

Lemma removeFirestoreClient_extends h s : extends s (after (removeFirestoreClient h) s).
Proof. apply newPromise_extends. Qed.

Lemma removeDatastore_extends h s : extends s (after (removeDatastore h) s).
Proof. apply newPromise_extends. Qed.

Lemma clearPersistence_extends h d s : extends s (after (_clearPersistence h d) s).
Proof.
  unfold after, _clearPersistence, bind, gets. simpl.
  destruct (hasFirestoreClient h s); simpl; [apply extends_refl|].
  repeat split; simpl; [by eexists|exists []; by rewrite app_nil_r|by eexists].
Qed.

Lemma getDatastore_extends h s : extends s (after (getDatastore h) s).
Proof.
  unfold after, getDatastore, bind, gets. simpl.
  destruct (hasDatastore h s); simpl; [apply extends_refl|].
  pose proof (getSettings_value h s) as Hv. pose proof (getSettings_state h s) as Hs.
  simpl in Hs. destruct Hs as (_ & _ & Hp & Hc & _ & _ & _ & He & _).
  destruct (_getSettings h s) as [r s1]. simpl in *. subst r. simpl.
  repeat split; simpl;
    [rewrite Hp, <- app_assoc; by eexists|rewrite Hc; exists []; by rewrite app_nil_r
    |rewrite He; by eexists].
Qed.

(** ** Steps of the event loop: which promise cells they touch *)

Lemma insert_other_cell {A} (l extra : list A) (p q : nat) (x st : A) :
  p <> q -> l !! q = Some st -> <[p := x]> (l ++ extra) !! q = Some st.
Proof. intros Hne H. rewrite list_lookup_insert_ne by done. by apply lookup_app_l_Some. Qed.

Lemma resume_cont_promises k p r s :
  exists extra st, promises (after (resume_cont k p r) s) = <[p := st]> (promises s ++ extra).
Proof.
  unfold after.
  destruct r as [val|err], k; simpl;
    unfold then_return, getDatastore_then, clientOperation_then, removeFirestoreClient_resume,
      removeDatastore_resume, removeFirestoreClient_after_await, removeDatastore_after_await,
      adopt, clearPersistence_done, FirestoreClient_terminate,
      FirestoreClient_op, terminateDatastore, newDatastore, set_runtime, record, newPromise,
      setPromise, getObject, bind, gets, modify, ret; simpl;
    try destruct val; simpl;
    first [ by eexists [], _; rewrite app_nil_r | by eexists _, _ ].
Qed.

Lemma clearPersistence_task_promises d h t threw s :
  exists extra st,
    promises (after (clearPersistence_task d h t threw) s) = <[t := st]> (promises s ++ extra).
Proof.
  unfold after, clearPersistence_task, record, newPromise, setPromise, getObject, bind, gets,
    modify, ret.
  destruct threw; simpl; first [ by eexists [], _; rewrite app_nil_r | by eexists _, _ ].
Qed.

Lemma settle_collaborator_promises p o failure m s :
  settle_collaborator p o failure = Some m ->
  exists st, promises (after m s) = <[p := st]> (promises s).
Proof.
  unfold after. intros H.
  destruct o, failure; simpl in H; simplify_eq;
    unfold set_runtime, setPromise, bind, modify; simpl; by eexists.
Qed.

Lemma step_other_cell l s s' q st :
  step l s = Some s' -> target l s <> Some q ->
  promises s !! q = Some st -> promises s' !! q = Some st.
Proof.
  intros Hstep Ht Hq. destruct l; simpl in Hstep, Ht.
  - simplify_eq. eapply extends_promises; [apply getFirestoreClient_extends|done].
  - simplify_eq. eapply extends_promises; [apply initializeFirestoreClient_extends|done].
  - simplify_eq. eapply extends_promises; [apply removeFirestoreClient_extends|done].
  - simplify_eq. eapply extends_promises; [apply clientOperation_extends|done].
  - simplify_eq. eapply extends_promises; [apply clearPersistence_extends|done].
  - simplify_eq. eapply extends_promises; [apply getDatastore_extends|done].
  - simplify_eq. eapply extends_promises; [apply removeDatastore_extends|done].
  - repeat case_match; simplify_eq.
    destruct (resume_cont_promises k p s0 s) as (extra & x & ->).
    apply insert_other_cell; [congruence|done].
  - repeat case_match; simplify_eq.
    match goal with |- promises (after (clearPersistence_task ?d ?h ?t _) ?s0) !! _ = _ =>
      destruct (clearPersistence_task_promises d h t threw s0) as (extra & x & ->)
    end.
    simpl in *. apply insert_other_cell; [congruence|done].
  - repeat case_match; simplify_eq.
    match goal with H : settle_collaborator _ _ _ = Some _ |- _ =>
      destruct (settle_collaborator_promises _ _ _ _ s H) as (x & ->) end.
    rewrite list_lookup_insert_ne; [done|congruence].
  - by simplify_eq.
  - by simplify_eq.
  - by simplify_eq.
Qed.

Lemma step_target_pending l s s' q :
  step l s = Some s' -> target l s = Some q ->
  exists w, promises s !! q = Some (Pending w).
Proof.
  intros Hstep Ht. destruct l; simpl in Hstep, Ht; simplify_eq.
  - repeat case_match; simplify_eq. eauto.
  - repeat case_match; simplify_eq. simpl in *. simplify_eq. eauto.
  - repeat case_match; simplify_eq. eauto.
Qed.

(** A settled promise never changes again. *)
Lemma step_settled_stable l s s' q st :
  step l s = Some s' -> promises s !! q = Some st -> is_settled st = true ->
  promises s' !! q = Some st.
Proof.
  intros Hstep Hq Hst. eapply step_other_cell; eauto.
  intros Ht. destruct (step_target_pending _ _ _ _ Hstep Ht) as [w Hw].
  rewrite Hq in Hw. by simplify_eq.
Qed.

Lemma run_settled_stable ls s s' q st :
  run ls s = Some s' -> promises s !! q = Some st -> is_settled st = true ->
  promises s' !! q = Some st.
Proof.
  revert s. induction ls as [|l ls IH]; intros s Hrun Hq Hst; simpl in Hrun.
  - by simplify_eq.
  - destruct (step l s) as [s1|] eqn:E; [|done].
    eapply IH; eauto using step_settled_stable.
Qed.

(** ** Steps of the event loop: what they do to the registries *)

Ltac unfold_resume :=
  unfold then_return, getDatastore_then, clientOperation_then, removeFirestoreClient_resume,
    removeDatastore_resume, removeFirestoreClient_after_await, removeDatastore_after_await,
    adopt, clearPersistence_done, clearPersistence_task,
    FirestoreClient_terminate, FirestoreClient_op, terminateDatastore, newDatastore,
    set_runtime, record, newPromise, setPromise, getObject, bind, gets, modify, ret.

Lemma initializeFirestoreClient_fc_map h cp ps s :
  let m' := firestoreClientInstances (after (initializeFirestoreClient h cp ps) s) in
  m' = firestoreClientInstances s \/
  (firestoreClientInstances s !! h = None /\
   m' = <[h := S (length (promises s))]> (firestoreClientInstances s)).
Proof.
  simpl. unfold after.
  destruct (_terminated (objects s h) || hasFirestoreClient h s) eqn:E.
  - rewrite initializeFirestoreClient_throw by done. by left.
  - destruct (initializeFirestoreClient_return h cp ps s E) as (_ & Hm & _).
    right. split; [|done]. apply hasFirestoreClient_false.
    by apply orb_false_iff in E as [_ ?].
Qed.

Lemma getFirestoreClient_fc_map h s :
  let m' := firestoreClientInstances (after (getFirestoreClient h) s) in
  m' = firestoreClientInstances s \/
  (firestoreClientInstances s !! h = None /\
   m' = <[h := S (length (promises s))]> (firestoreClientInstances s)).
Proof.
  simpl. unfold after. destruct (_terminated (objects s h)) eqn:Ht.
  - rewrite getFirestoreClient_terminated by done. by left.
  - destruct (hasFirestoreClient h s) eqn:Hh.
    + rewrite getFirestoreClient_stored by done. by left.
    + rewrite getFirestoreClient_fresh by done.
      apply initializeFirestoreClient_fc_map.
Qed.

Lemma clientOperation_fc_map op h s :
  firestoreClientInstances (after (clientOperation op h) s) =
  firestoreClientInstances (after (getFirestoreClient h) s).
Proof.
  unfold after, clientOperation, bind.
  by destruct (getFirestoreClient h s) as [[[p|]|e] s1].
Qed.

Lemma getDatastore_fc_map h s :
  firestoreClientInstances (after (getDatastore h) s) = firestoreClientInstances s.
Proof.
  unfold after, getDatastore, bind, gets. simpl.
  destruct (hasDatastore h s); simpl; [done|].
  pose proof (getSettings_value h s) as Hv. pose proof (getSettings_state h s) as Hs.
  simpl in Hs. destruct Hs as (Hm & _).
  destruct (_getSettings h s) as [r s1]. simpl in *. by subst r.
Qed.

Lemma resume_cont_fc_map k p r s :
  let m' := firestoreClientInstances (after (resume_cont k p r) s) in
  m' = firestoreClientInstances s \/
  (exists h, k = KRemoveFirestoreClient h /\ m' = delete h (firestoreClientInstances s)).
Proof.
  simpl. unfold after.
  destruct r as [val|err], k; simpl; unfold_resume; simpl;
    try destruct val; simpl; eauto.
Qed.

Lemma step_fc_map l s s' :
  step l s = Some s' ->
  firestoreClientInstances s' = firestoreClientInstances s \/
  (exists h p, is_provision h l = true /\ firestoreClientInstances s !! h = None /\
     firestoreClientInstances s' = <[h := p]> (firestoreClientInstances s)) \/
  (exists h, is_remove h l = true /\
     firestoreClientInstances s' = delete h (firestoreClientInstances s)).
Proof.
  intros Hstep. destruct l; simpl in Hstep.
  - simplify_eq. destruct (getFirestoreClient_fc_map firestore s) as [H|[H1 H2]];
      [by left|right; left]. exists firestore, (S (length (promises s))).
    simpl. by rewrite bool_decide_eq_true.
  - simplify_eq.
    destruct (initializeFirestoreClient_fc_map firestore componentProvider
                persistenceSettings s) as [H|[H1 H2]]; [by left|right; left].
    exists firestore, (S (length (promises s))). simpl. by rewrite bool_decide_eq_true.
  - simplify_eq. by left.
  - simplify_eq. rewrite clientOperation_fc_map.
    destruct (getFirestoreClient_fc_map firestore s) as [H|[H1 H2]];
      [by left|right; left]. exists firestore, (S (length (promises s))).
    simpl. by rewrite bool_decide_eq_true.
  - simplify_eq. left. unfold after, _clearPersistence, bind, gets. simpl.
    by destruct (hasFirestoreClient firestore s).
  - simplify_eq. left. apply getDatastore_fc_map.
  - simplify_eq. by left.
  - repeat case_match; simplify_eq.
    destruct (resume_cont_fc_map k p s0 s) as [Hm|(h & -> & Hm)]; [by left|right; right].
    exists h. simpl. by rewrite bool_decide_eq_true.
  - repeat case_match; simplify_eq. left. unfold after. unfold_resume.
    by destruct threw.
  - repeat case_match; simplify_eq. left.
    match goal with H : settle_collaborator _ _ _ = Some _ |- _ =>
      unfold settle_collaborator in H; repeat case_match; simplify_eq end;
    unfold after; unfold_resume; done.
  - simplify_eq. by left.
  - simplify_eq. by left.
  - simplify_eq. by left.
Qed.

(** Only the part of [removeFirestoreClient] for a handle takes its entry
    out of the registry. *)
Lemma step_keeps_entry l s s' h p :
  step l s = Some s' -> is_remove h l = false ->
  firestoreClientInstances s !! h = Some p ->
  firestoreClientInstances s' !! h = Some p.
Proof.
  intros Hstep Hrm Hp.
  destruct (step_fc_map _ _ _ Hstep) as [->|[(h' & p' & _ & Hn & ->)|(h' & Hr & ->)]].
  - done.
  - rewrite lookup_insert_ne; [done|]. intros ->. congruence.
  - rewrite lookup_delete_ne; [done|]. intros ->. congruence.
Qed.

Lemma run_keeps_entry ls s s' h p :
  run ls s = Some s' -> Forall (fun l => is_remove h l = false) ls ->
  firestoreClientInstances s !! h = Some p ->
  firestoreClientInstances s' !! h = Some p.
Proof.
  revert s. induction ls as [|l ls IH]; intros s Hrun Hall Hp; simpl in Hrun.
  - by simplify_eq.
  - destruct (step l s) as [s1|] eqn:E; [|done].
    inversion Hall; subst. eapply IH; eauto using step_keeps_entry.
Qed.

(** Only a provisioning call for a handle puts an entry for it in. *)
Lemma step_keeps_no_entry l s s' h :
  step l s = Some s' -> is_provision h l = false ->
  firestoreClientInstances s !! h = None ->
  firestoreClientInstances s' !! h = None.
Proof.
  intros Hstep Hpr Hn.
  destruct (step_fc_map _ _ _ Hstep) as [->|[(h' & p' & Hp & _ & ->)|(h' & _ & ->)]].
  - done.
  - rewrite lookup_insert_ne; [done|]. intros ->. congruence.
  - by rewrite lookup_delete_None; right.
Qed.

Lemma run_keeps_no_entry ls s s' h :
  run ls s = Some s' -> Forall (fun l => is_provision h l = false) ls ->
  firestoreClientInstances s !! h = None ->
  firestoreClientInstances s' !! h = None.
Proof.
  revert s. induction ls as [|l ls IH]; intros s Hrun Hall Hn; simpl in Hrun.
  - by simplify_eq.
  - destruct (step l s) as [s1|] eqn:E; [|done].
    inversion Hall; subst. eapply IH; eauto using step_keeps_no_entry.
Qed.

(** ** The registry of the lite SDK *)

Lemma hasDatastore_false h s :
  hasDatastore h s = false <-> datastoreInstances s !! h = None.
Proof.
  unfold hasDatastore. rewrite bool_decide_eq_false. by rewrite eq_None_not_Some.
Qed.

Lemma hasDatastore_Some h s p :
  datastoreInstances s !! h = Some p -> hasDatastore h s = true.
Proof. intros H. unfold hasDatastore. rewrite bool_decide_eq_true. eauto. Qed.

Lemma getDatastore_stored h s :
  hasDatastore h s = true ->
  getDatastore h s = (Return (datastoreInstances s !! h), s).
Proof. intros H. unfold getDatastore, bind, gets, ret. simpl. by rewrite H. Qed.

Lemma getDatastore_fresh h s :
  hasDatastore h s = false ->
  let o := objects s h in
  let settings := default Settings.empty (_settings o) in
  let p := length (promises s) in
  let databaseInfo :=
    DatabaseInfo.mk (_databaseId o) (_persistenceKey o)
      (default DEFAULT_HOST (Settings.host settings))
      (default DEFAULT_SSL (Settings.ssl settings)) false in
  let s' := snd (getDatastore h s) in
  fst (getDatastore h s) = Return (Some (S p)) /\
  datastoreInstances s' = <[h := S p]> (datastoreInstances s) /\
  firestoreClientInstances s' = firestoreClientInstances s /\
  promises s' = promises s ++
    [Pending (ByCollaborator ONewConnection);
     Pending (Suspended (AwPromise p) (KThenNewDatastore h databaseInfo))] /\
  clients s' = clients s /\ datastores s' = datastores s /\
  calls s' = calls s ++ [EvNewConnection databaseInfo].
Proof.
  intros H.
  unfold getDatastore, _getSettings, newConnection, suspend, newPromise, record, getObject,
    bind, gets, modify, ret.
  simpl. rewrite H. simpl.
  destruct (_settings (objects s h)) eqn:E; simpl;
    rewrite ?fn_lookup_insert; simpl; rewrite length_snoc, lookup_insert_eq;
    rewrite <- !app_assoc; simpl; done.
Qed.

Lemma getDatastore_ds_map h s :
  let m' := datastoreInstances (after (getDatastore h) s) in
  m' = datastoreInstances s \/
  (datastoreInstances s !! h = None /\
   m' = <[h := S (length (promises s))]> (datastoreInstances s)).
Proof.
  simpl. unfold after. destruct (hasDatastore h s) eqn:E.
  - rewrite getDatastore_stored by done. by left.
  - destruct (getDatastore_fresh h s E) as (_ & Hm & _).
    right. split; [by apply hasDatastore_false|done].
Qed.

Lemma initializeFirestoreClient_ds_map h cp ps s :
  datastoreInstances (after (initializeFirestoreClient h cp ps) s) = datastoreInstances s.
Proof.
  unfold after. destruct (_terminated (objects s h) || hasFirestoreClient h s) eqn:E.
  - by rewrite initializeFirestoreClient_throw.
  - by destruct (initializeFirestoreClient_return h cp ps s E) as (_ & _ & Hm & _).
Qed.

Lemma getFirestoreClient_ds_map h s :
  datastoreInstances (after (getFirestoreClient h) s) = datastoreInstances s.
Proof.
  unfold after. destruct (_terminated (objects s h)) eqn:Ht.
  - by rewrite getFirestoreClient_terminated.
  - destruct (hasFirestoreClient h s) eqn:Hh.
    + by rewrite getFirestoreClient_stored.
    + rewrite getFirestoreClient_fresh by done. apply initializeFirestoreClient_ds_map.
Qed.

Lemma clientOperation_ds_map op h s :
  datastoreInstances (after (clientOperation op h) s) = datastoreInstances s.
Proof.
  rewrite <- (getFirestoreClient_ds_map h s).
  unfold after, clientOperation, bind.
  by destruct (getFirestoreClient h s) as [[[p|]|e] s1].
Qed.

Lemma resume_cont_ds_map k p r s :
  let m' := datastoreInstances (after (resume_cont k p r) s) in
  m' = datastoreInstances s \/
  (exists h, k = KRemoveDatastore h /\ m' = delete h (datastoreInstances s)).
Proof.
  simpl. unfold after.
  destruct r as [val|err], k; simpl; unfold_resume; simpl;
    try destruct val; simpl; eauto.
Qed.

Lemma step_ds_map l s s' :
  step l s = Some s' ->
  datastoreInstances s' = datastoreInstances s \/
  (exists h p, datastoreInstances s !! h = None /\
     datastoreInstances s' = <[h := p]> (datastoreInstances s)) \/
  (exists h, is_removeDatastore h l = true /\
     datastoreInstances s' = delete h (datastoreInstances s)).
Proof.
  intros Hstep. destruct l; simpl in Hstep.
  - simplify_eq. left. apply getFirestoreClient_ds_map.
  - simplify_eq. left. apply initializeFirestoreClient_ds_map.
  - simplify_eq. by left.
  - simplify_eq. left. apply clientOperation_ds_map.
  - simplify_eq. left. unfold after, _clearPersistence, bind, gets. simpl.
    by destruct (hasFirestoreClient firestore s).
  - simplify_eq. destruct (getDatastore_ds_map firestore s) as [Hm|[H1 H2]];
      [by left|right; left; eauto].
  - simplify_eq. by left.
  - repeat case_match; simplify_eq.
    destruct (resume_cont_ds_map k p s0 s) as [Hm|(h & -> & Hm)]; [by left|right; right].
    exists h. simpl. by rewrite bool_decide_eq_true.
  - repeat case_match; simplify_eq. left. unfold after. unfold_resume.
    by destruct threw.
  - repeat case_match; simplify_eq. left.
    match goal with H : settle_collaborator _ _ _ = Some _ |- _ =>
      unfold settle_collaborator in H; repeat case_match; simplify_eq end;
    unfold after; unfold_resume; done.
  - simplify_eq. by left.
  - simplify_eq. by left.
  - simplify_eq. by left.
Qed.

Lemma step_keeps_datastore_entry l s s' h p :
  step l s = Some s' -> is_removeDatastore h l = false ->
  datastoreInstances s !! h = Some p ->
  datastoreInstances s' !! h = Some p.
Proof.
  intros Hstep Hrm Hp.
  destruct (step_ds_map _ _ _ Hstep) as [->|[(h' & p' & Hn & ->)|(h' & Hr & ->)]].
  - done.
  - rewrite lookup_insert_ne; [done|]. intros ->. congruence.
  - rewrite lookup_delete_ne; [done|]. intros ->. congruence.
Qed.

Lemma run_keeps_datastore_entry ls s s' h p :
  run ls s = Some s' -> Forall (fun l => is_removeDatastore h l = false) ls ->
  datastoreInstances s !! h = Some p ->
  datastoreInstances s' !! h = Some p.
Proof.
  revert s. induction ls as [|l ls IH]; intros s Hrun Hall Hp; simpl in Hrun.
  - by simplify_eq.
  - destruct (step l s) as [s1|] eqn:E; [|done].
    inversion Hall; subst. eapply IH; eauto using step_keeps_datastore_entry.
Qed.

(** ** How a pending promise gets settled *)

(** A pending cell changes only through the step its own content names. *)
Lemma step_cell l s s' q w :
  step l s = Some s' -> promises s !! q = Some (Pending w) ->
  promises s' !! q = Some (Pending w) \/
  match w with
  | Suspended aw k =>
      l = Resume q k /\
      exists r, awaited_result s aw = Some r /\ s' = after (resume_cont k q r) s
  | ByCollaborator o =>
      exists failure m,
        l = Settle q failure /\ settle_collaborator q o failure = Some m /\ s' = after m s
  | Queued (TClearPersistence d h) =>
      exists queue threw rest,
        l = RunTask queue threw /\ next_task queue (tasks s) = Some (q, rest) /\
        s' = after (clearPersistence_task d h q threw) (set_tasks (fun _ => rest) s)
  end.
Proof.
  intros Hstep Hq.
  destruct (decide (target l s = Some q)) as [Ht|Ht];
    [right|left; by eapply step_other_cell].
  destruct l; simpl in Ht, Hstep; simplify_eq.
  - rewrite Hq in Hstep. destruct w; try done.
    case_decide; [subst|done]. destruct (awaited_result s aw) eqn:E; [|done].
    simplify_eq. eauto.
  - destruct (next_task queue (tasks s)) as [[t rest]|] eqn:E; [|done].
    simpl in Ht. simplify_eq. rewrite Hq in Hstep.
    destruct w as [| |[d h]]; try done. simplify_eq. eauto 10.
  - rewrite Hq in Hstep. destruct w; try done.
    destruct (settle_collaborator q o failure) eqn:E; [|done]. simplify_eq. eauto 10.
Qed.

(** ** The runtime's state under the steps *)

Lemma update_runtime_lookup c' f cs c :
  fc_state <$> update_runtime c' f cs !! c =
  if decide (c = c') then f <$> (fc_state <$> cs !! c) else fc_state <$> cs !! c.
Proof.
  unfold update_runtime. case_decide as Hc.
  - subst. destruct (cs !! c') as [cl|] eqn:E; [|by rewrite E].
    rewrite list_lookup_insert_eq by (by eapply lookup_lt_Some). done.
  - destruct (cs !! c') as [cl|] eqn:E; [|done].
    by rewrite list_lookup_insert_ne.
Qed.

Lemma step_clients l s s' :
  step l s = Some s' ->
  (exists extra, clients s' = clients s ++ extra) \/
  (exists c f, clients s' = update_runtime c f (clients s) /\ f Terminated = Terminated).
Proof.
  intros Hstep. destruct l; simpl in Hstep; simplify_eq.
  - left. apply getFirestoreClient_extends.
  - left. apply initializeFirestoreClient_extends.
  - left. apply removeFirestoreClient_extends.
  - left. apply clientOperation_extends.
  - left. apply clearPersistence_extends.
  - left. apply getDatastore_extends.
  - left. apply removeDatastore_extends.
  - repeat case_match; simplify_eq.
    match goal with |- context [resume_cont ?k ?p ?r] => destruct r as [val|err], k end;
      simpl; unfold after; unfold_resume; simpl; try destruct val; simpl;
      first [ left; exists []; by rewrite app_nil_r | right; by eexists _, _ ].
  - repeat case_match; simplify_eq. left. unfold after. unfold_resume.
    destruct threw; simpl; exists []; by rewrite app_nil_r.
  - repeat case_match; simplify_eq.
    match goal with H : settle_collaborator _ _ _ = Some _ |- _ =>
      unfold settle_collaborator in H; repeat case_match; simplify_eq end;
    unfold after; unfold_resume; simpl;
      first [ left; exists []; by rewrite app_nil_r | right; by eexists _, _ ].
  - left. exists []. by rewrite app_nil_r.
  - left. exists []. by rewrite app_nil_r.
  - left. exists []. by rewrite app_nil_r.
Qed.

(** A runtime object stays in the heap, and Terminated is absorbing. *)
Lemma step_runtime l s s' c st :
  step l s = Some s' -> runtime s c = Some st ->
  exists st', runtime s' c = Some st' /\ (st = Terminated -> st' = Terminated).
Proof.
  intros Hstep Hc. unfold runtime in *.
  destruct (step_clients _ _ _ Hstep) as [[extra ->]|(c' & f & -> & Hf)].
  - exists st. split; [|done].
    destruct (clients s !! c) as [cl|] eqn:E; [|done].
    by rewrite (lookup_app_l_Some _ _ _ _ E).
  - rewrite update_runtime_lookup. case_decide.
    + rewrite Hc. simpl. eexists; split; [done|]. by intros ->.
    + eauto.
Qed.

Lemma step_calls l s s' :
  step l s = Some s' -> exists extra, calls s' = calls s ++ extra.
Proof.
  intros Hstep. destruct l; simpl in Hstep; simplify_eq.
  - apply getFirestoreClient_extends.
  - apply initializeFirestoreClient_extends.
  - apply removeFirestoreClient_extends.
  - apply clientOperation_extends.
  - apply clearPersistence_extends.
  - apply getDatastore_extends.
  - apply removeDatastore_extends.
  - repeat case_match; simplify_eq.
    match goal with |- context [resume_cont ?k ?p ?r] => destruct r as [val|err], k end;
      simpl; unfold after; unfold_resume; simpl; try destruct val; simpl;
      first [ exists []; by rewrite app_nil_r | by eexists ].
  - repeat case_match; simplify_eq. unfold after. unfold_resume.
    destruct threw; simpl; by eexists.
  - repeat case_match; simplify_eq.
    match goal with H : settle_collaborator _ _ _ = Some _ |- _ =>
      unfold settle_collaborator in H; repeat case_match; simplify_eq end;
    unfold after; unfold_resume; simpl; exists []; by rewrite app_nil_r.
  - exists []. by rewrite app_nil_r.
  - exists []. by rewrite app_nil_r.
  - exists []. by rewrite app_nil_r.
Qed.

(** ** Single flight *)

Lemma getFirestoreClient_returns h s p s1 :
  getFirestoreClient h s = (Return (Some p), s1) ->
  firestoreClientInstances s1 !! h = Some p.
Proof.
  intros H. destruct (_terminated (objects s h)) eqn:Ht.
  - rewrite getFirestoreClient_terminated in H by done. by simplify_eq.
  - destruct (hasFirestoreClient h s) eqn:Hh.
    + rewrite getFirestoreClient_stored in H by done. by simplify_eq.
    + rewrite getFirestoreClient_fresh in H by done. simplify_eq.
      destruct (initializeFirestoreClient_return h MemoryComponentProvider not_durable s)
        as (_ & -> & _); [by rewrite Ht, Hh|].
      by rewrite lookup_insert_eq.
Qed.

Lemma getDatastore_returns h s p s1 :
  getDatastore h s = (Return (Some p), s1) ->
  datastoreInstances s1 !! h = Some p.
Proof.
  intros H. destruct (hasDatastore h s) eqn:Hh.
  - rewrite getDatastore_stored in H by done. by simplify_eq.
  - destruct (getDatastore_fresh h s Hh) as (Hr & Hm & _).
    rewrite H in Hr, Hm. simpl in *. simplify_eq. by rewrite Hm, lookup_insert_eq.
Qed.

(** C1.  Single flight: once [getFirestoreClient] has returned a promise for
    a handle, then after any steps of the program that contain no
    [removeFirestoreClient] for that handle, a second [getFirestoreClient]
    returns the very same stored promise and leaves the state as it was
    (nothing is constructed); the only other thing it can do is refuse a
    handle that was marked terminated in between, again without touching the
    state.  [getDatastore] of the lite SDK likewise returns its stored entry
    unchanged. *)
Theorem single_flight (h : handle) (s s' : State) (ls : list Label) :
  run ls s = Some s' ->
  (forall s0 p,
     getFirestoreClient h s0 = (Return (Some p), s) ->
     Forall (fun l => is_remove h l = false) ls ->
     getFirestoreClient h s' =
       if _terminated (objects s' h) then (Throw already_terminated, s')
       else (Return (Some p), s')) /\
  (forall s0 p,
     getDatastore h s0 = (Return (Some p), s) ->
     Forall (fun l => is_removeDatastore h l = false) ls ->
     getDatastore h s' = (Return (Some p), s')).
Proof.
  intros Hrun. split.
  - intros s0 p Hfirst Hno.
    apply getFirestoreClient_returns in Hfirst.
    pose proof (run_keeps_entry _ _ _ _ _ Hrun Hno Hfirst) as Hp.
    destruct (_terminated (objects s' h)) eqn:Ht.
    + by apply getFirestoreClient_terminated.
    + rewrite getFirestoreClient_stored; [by rewrite Hp|done|].
      by eapply hasFirestoreClient_Some.
  - intros s0 p Hfirst Hno.
    apply getDatastore_returns in Hfirst.
    pose proof (run_keeps_datastore_entry _ _ _ _ _ Hrun Hno Hfirst) as Hp.
    rewrite getDatastore_stored; [by rewrite Hp|]. by eapply hasDatastore_Some.
Qed.

(** Two handles are provisioned in both SDKs, handle 1 is removed and
    handle 0 is asked for again. *)
Lemma single_flight_witness :
  let s := after (getFirestoreClient 0) initial in
  let ls := [CallGetFirestoreClient 1; Settle 0 None; CallRemoveFirestoreClient 1] in
  let s' := default initial (run ls s) in
  run ls s = Some s' /\
  getFirestoreClient 0 initial = (Return (Some 1), s) /\
  getFirestoreClient 0 s' = (Return (Some 1), s') /\
  getDatastore 0 (after (getDatastore 0) s') =
    (Return (Some 6), after (getDatastore 0) s').
Proof.
  intros s ls s'.
  assert (Hrun : run ls s = Some s') by (vm_compute; reflexivity).
  assert (Hfirst : getFirestoreClient 0 initial = (Return (Some 1), s))
    by (vm_compute; reflexivity).
  assert (Hlite : getDatastore 0 s' = (Return (Some 6), after (getDatastore 0) s'))
    by (vm_compute; reflexivity).
  split; [exact Hrun|]. split; [exact Hfirst|]. split.
  - refine (proj1 (single_flight 0 s s' ls Hrun) initial 1 Hfirst _).
    repeat constructor.
  - refine (proj2 (single_flight 0 _ _ [] eq_refl) s' 6 Hlite _).
    constructor.
Defined.

(** ** Explicit initialization *)

Lemma initializeFirestoreClient_returns h cp ps s p s1 :
  initializeFirestoreClient h cp ps s = (Return p, s1) ->
  firestoreClientInstances s1 !! h = Some (S p).
Proof.
  intros H. destruct (_terminated (objects s h) || hasFirestoreClient h s) eqn:E.
  - rewrite initializeFirestoreClient_throw in H by done. by simplify_eq.
  - destruct (initializeFirestoreClient_return h cp ps s E) as (Hr & Hm & _).
    rewrite H in Hr, Hm. simpl in *. simplify_eq. by rewrite Hm, lookup_insert_eq.
Qed.

(** C2, as the code has it.  [initializeFirestoreClient] throws the
    "already started" FAILED_PRECONDITION error exactly when the handle is
    marked terminated or already has an entry in the registry; whenever it
    throws, the state is left as it was (the check comes before any other
    work); and after a call that succeeded, a second call fails with that
    error as long as no [removeFirestoreClient] for the handle ran in
    between. *)
Theorem initializeFirestoreClient_guard (h : handle) (cp : ComponentProvider)
    (ps : PersistenceSettings) (s : State) :
  (fst (initializeFirestoreClient h cp ps s) = Throw already_started <->
     _terminated (objects s h) = true \/ hasFirestoreClient h s = true) /\
  (forall e, fst (initializeFirestoreClient h cp ps s) = Throw e ->
     e = already_started /\ snd (initializeFirestoreClient h cp ps s) = s) /\
  (forall p s1 ls s2 cp' ps',
     initializeFirestoreClient h cp ps s = (Return p, s1) ->
     run ls s1 = Some s2 ->
     Forall (fun l => is_remove h l = false) ls ->
     initializeFirestoreClient h cp' ps' s2 = (Throw already_started, s2)).
Proof.
  destruct (_terminated (objects s h) || hasFirestoreClient h s) eqn:E.
  - rewrite initializeFirestoreClient_throw by done. simpl. split; [|split].
    + split; [intros _; by apply orb_true_iff|done].
    + intros e He. by simplify_eq.
    + intros. simplify_eq.
  - pose proof (initializeFirestoreClient_return h cp ps s E) as (Hr & _).
    rewrite Hr. split; [|split].
    + split; [done|]. intros H. apply orb_true_iff in H. congruence.
    + intros e He. simplify_eq.
    + intros p s1 ls s2 cp' ps' Hfirst Hrun Hno.
      apply initializeFirestoreClient_returns in Hfirst.
      pose proof (run_keeps_entry _ _ _ _ _ Hrun Hno Hfirst) as Hp.
      apply initializeFirestoreClient_throw.
      rewrite (hasFirestoreClient_Some _ _ _ Hp). apply orb_true_r.
Qed.

(** Persistence is enabled twice on handle 0, with the runtime's start
    completing in between. *)
Lemma initializeFirestoreClient_guard_witness :
  let ps := mkPersistenceSettings true (Some 41943040%Z) None in
  let s1 := after (initializeFirestoreClient 0 IndexedDbComponentProvider ps) initial in
  let ls := [Settle 0 None; Resume 1 (KThenReturn (VClient 0))] in
  let s2 := default initial (run ls s1) in
  initializeFirestoreClient 0 IndexedDbComponentProvider ps initial = (Return 0, s1) /\
  run ls s1 = Some s2 /\
  initializeFirestoreClient 0 MultiTabIndexedDbComponentProvider ps s2 =
    (Throw already_started, s2).
Proof.
  intros ps s1 ls s2.
  assert (Hfirst : initializeFirestoreClient 0 IndexedDbComponentProvider ps initial
                   = (Return 0, s1)) by (vm_compute; reflexivity).
  assert (Hrun : run ls s1 = Some s2) by (vm_compute; reflexivity).
  split; [exact Hfirst|]. split; [exact Hrun|].
  refine (proj2 (proj2 (initializeFirestoreClient_guard 0 IndexedDbComponentProvider ps initial))
            0 s1 ls s2 _ _ Hfirst Hrun _).
  repeat constructor.
Defined.

(** C2, as stated, fails: on a handle that is marked terminated and has no
    entry, [initializeFirestoreClient] throws the "already started" error
    although no entry exists. *)
Lemma initializeFirestoreClient_terminated_without_entry :
  hasFirestoreClient 0 terminated_handle = false /\
  _terminated (objects terminated_handle 0) = true /\
  initializeFirestoreClient 0 IndexedDbComponentProvider not_durable terminated_handle =
    (Throw already_started, terminated_handle) /\
  ~ (fst (initializeFirestoreClient 0 IndexedDbComponentProvider not_durable terminated_handle)
       = Throw already_started <->
     hasFirestoreClient 0 terminated_handle = true /\
     _terminated (objects terminated_handle 0) = false).
Proof.
  split; [by vm_compute|]. split; [by vm_compute|]. split; [by vm_compute|].
  intros [H _]. destruct H as [H _]; [by vm_compute|]. by vm_compute in H.
Qed.

(** ** Terminated handles *)

(** C7, as the code has it.  On a handle marked terminated,
    [getFirestoreClient], and with it [waitForPendingWrites],
    [enableNetwork] and [disableNetwork], throw the "already terminated"
    FAILED_PRECONDITION error at the call, leaving the state as it was, so
    no entry is created; [initializeFirestoreClient] on such a handle also
    throws at the call without touching the state, a FAILED_PRECONDITION
    error too, but the "already started" one. *)
Theorem terminated_handle_rejected (h : handle) (s : State) :
  _terminated (objects s h) = true ->
  getFirestoreClient h s = (Throw already_terminated, s) /\
  (forall op, clientOperation op h s = (Throw already_terminated, s)) /\
  (forall cp ps, initializeFirestoreClient h cp ps s = (Throw already_started, s)) /\
  code already_terminated = FAILED_PRECONDITION /\
  code already_started = FAILED_PRECONDITION.
Proof.
  intros Ht. pose proof (getFirestoreClient_terminated h s Ht) as Hg.
  split; [done|]. split; [|split; [|done]].
  - intros op. unfold clientOperation, bind. by rewrite Hg.
  - intros cp ps. apply initializeFirestoreClient_throw. by rewrite Ht.
Qed.

Lemma terminated_handle_rejected_witness :
  _terminated (objects terminated_handle 0) = true /\
  enableNetwork 0 terminated_handle = (Throw already_terminated, terminated_handle).
Proof.
  assert (H : _terminated (objects terminated_handle 0) = true) by (vm_compute; reflexivity).
  split; [exact H|].
  exact (proj1 (proj2 (terminated_handle_rejected 0 terminated_handle H)) EnableNetwork).
Defined.

(** C7, as stated, fails for [initializeFirestoreClient]: on a terminated
    handle it throws, but not the "already terminated" error. *)
Lemma initializeFirestoreClient_terminated_other_error :
  _terminated (objects terminated_handle 0) = true /\
  fst (initializeFirestoreClient 0 MemoryComponentProvider not_durable terminated_handle)
    = Throw already_started /\
  fst (initializeFirestoreClient 0 MemoryComponentProvider not_durable terminated_handle)
    <> Throw already_terminated.
Proof.
  split; [by vm_compute|]. split; [by vm_compute|]. by vm_compute.
Qed.

(** ** Provisioning on first use *)

(** What the first [getFirestoreClient] on a handle leaves behind. *)
Lemma getFirestoreClient_fresh_state (h : handle) (s : State) :
  _terminated (objects s h) = false ->
  hasFirestoreClient h s = false ->
  let p := length (promises s) in
  let c := length (clients s) in
  exists s' databaseInfo,
    getFirestoreClient h s = (Return (Some (S p)), s') /\
    firestoreClientInstances s' !! h = Some (S p) /\
    hasFirestoreClient h s' = true /\
    promises s' !! S p = Some (Pending (Suspended (AwPromise p) (KThenReturn (VClient c)))) /\
    promises s' !! p = Some (Pending (ByCollaborator (OStart c))) /\
    runtime s' c = Some Starting /\
    calls s' = calls s ++
      [EvNewFirestoreClient c (_credentials (objects s h)) (_queue (objects s h));
       EvStart c databaseInfo MemoryComponentProvider not_durable].
Proof.
  intros Ht Hh. simpl.
  destruct (initializeFirestoreClient_return h MemoryComponentProvider not_durable s)
    as (_ & Hm & _ & Hp & Hc & _ & _ & _ & He & _); [by rewrite Ht, Hh|].
  eexists _, _. split; [by apply getFirestoreClient_fresh|].
  assert (firestoreClientInstances
            (snd (initializeFirestoreClient h MemoryComponentProvider not_durable s)) !! h
          = Some (S (length (promises s)))) as Hentry by (by rewrite Hm, lookup_insert_eq).
  split; [done|]. split; [by eapply hasFirestoreClient_Some|].
  rewrite Hp. split; [|split; [|split]].
  - rewrite lookup_app_r by lia.
    by replace (S (length (promises s)) - length (promises s)) with 1 by lia.
  - rewrite lookup_app_r by lia. by rewrite Nat.sub_diag.
  - unfold runtime. by rewrite Hc, lookup_snoc.
  - exact He.
Qed.


(** C5.  On a handle that is not terminated and has no entry,
    [getFirestoreClient] returns at once with a promise that it has already
    stored in the registry: the entry is there when the call returns
    ([hasFirestoreClient] is true) while the stored promise and the start
    future it waits for are both still pending, and the runtime was started
    with [MemoryComponentProvider] and [{ durable: false }]. *)
Theorem getFirestoreClient_provisions (h : handle) (s : State) :
  _terminated (objects s h) = false ->
  hasFirestoreClient h s = false ->
  let p := length (promises s) in
  let c := length (clients s) in
  exists s' databaseInfo,
    getFirestoreClient h s = (Return (Some (S p)), s') /\
    firestoreClientInstances s' !! h = Some (S p) /\
    hasFirestoreClient h s' = true /\
    promises s' !! S p = Some (Pending (Suspended (AwPromise p) (KThenReturn (VClient c)))) /\
    promises s' !! p = Some (Pending (ByCollaborator (OStart c))) /\
    calls s' = calls s ++
      [EvNewFirestoreClient c (_credentials (objects s h)) (_queue (objects s h));
       EvStart c databaseInfo MemoryComponentProvider not_durable].
Proof.
  intros Ht Hh.
  destruct (getFirestoreClient_fresh_state h s Ht Hh)
    as (s' & di & Hget & Hentry & Hhas & Hstored & Hstart & _ & Hcalls).
  by exists s', di.
Qed.

Lemma getFirestoreClient_provisions_witness :
  hasFirestoreClient 0 (after (getFirestoreClient 0) initial) = true /\
  promises (after (getFirestoreClient 0) initial) !! 1 =
    Some (Pending (Suspended (AwPromise 0) (KThenReturn (VClient 0)))).
Proof.
  destruct (getFirestoreClient_provisions 0 initial eq_refl eq_refl)
    as (s' & di & Hg & _ & Hh & Hp & _).
  unfold after. rewrite Hg. split; [exact Hh|exact Hp].
Defined.

(** ** The DatabaseInfo handed to the runtime *)

(** C10.  Both provisioning paths build the [DatabaseInfo] from the handle:
    its database id and persistence key, the settings' host, or
    "firestore.googleapis.com" when the settings have none, the settings'
    ssl, or true when the settings have none, and forceLongPolling false.
    In the full SDK, [initializeFirestoreClient] on a handle that passes its
    guard returns after handing that [DatabaseInfo] to the runtime's
    [start], and so does [getFirestoreClient] on a handle without an entry;
    in the lite SDK, [getDatastore] on a handle without an entry hands it to
    [newConnection] and keeps it for the callback. *)
Theorem databaseInfo_defaults (h : handle) (s : State) :
  let settings := default Settings.empty (_settings (objects s h)) in
  let expected (databaseInfo : DatabaseInfo.t) :=
    DatabaseInfo.host databaseInfo =
      match Settings.host settings with
      | Some host => host
      | None => "firestore.googleapis.com"
      end /\
    DatabaseInfo.ssl databaseInfo =
      match Settings.ssl settings with Some ssl => ssl | None => true end /\
    DatabaseInfo.forceLongPolling databaseInfo = false /\
    DatabaseInfo.databaseId databaseInfo = _databaseId (objects s h) /\
    DatabaseInfo.persistenceKey databaseInfo = _persistenceKey (objects s h) in
  (_terminated (objects s h) = false ->
   hasFirestoreClient h s = false ->
   (forall cp ps, exists s' c credentials queue databaseInfo,
      initializeFirestoreClient h cp ps s = (Return (length (promises s)), s') /\
      calls s' = calls s ++
        [EvNewFirestoreClient c credentials queue; EvStart c databaseInfo cp ps] /\
      expected databaseInfo) /\
   (exists s' c credentials queue databaseInfo,
      getFirestoreClient h s = (Return (Some (S (length (promises s)))), s') /\
      calls s' = calls s ++
        [EvNewFirestoreClient c credentials queue;
         EvStart c databaseInfo MemoryComponentProvider not_durable] /\
      expected databaseInfo)) /\
  (forall cp ps p s',
     initializeFirestoreClient h cp ps s = (Return p, s') ->
     exists c credentials queue databaseInfo,
       calls s' = calls s ++
         [EvNewFirestoreClient c credentials queue; EvStart c databaseInfo cp ps] /\
       expected databaseInfo) /\
  (hasDatastore h s = false ->
   exists s' databaseInfo,
     getDatastore h s = (Return (Some (S (length (promises s)))), s') /\
     calls s' = calls s ++ [EvNewConnection databaseInfo] /\
     promises s' !! S (length (promises s)) =
       Some (Pending (Suspended (AwPromise (length (promises s)))
                        (KThenNewDatastore h databaseInfo))) /\
     expected databaseInfo).
Proof.
  cbv zeta.
  assert (Hexp : forall di,
    di = DatabaseInfo.mk (_databaseId (objects s h)) (_persistenceKey (objects s h))
           (default DEFAULT_HOST
              (Settings.host (default Settings.empty (_settings (objects s h)))))
           (default DEFAULT_SSL
              (Settings.ssl (default Settings.empty (_settings (objects s h))))) false ->
    DatabaseInfo.host di =
      match Settings.host (default Settings.empty (_settings (objects s h))) with
      | Some host => host
      | None => "firestore.googleapis.com"
      end /\
    DatabaseInfo.ssl di =
      match Settings.ssl (default Settings.empty (_settings (objects s h))) with
      | Some ssl => ssl
      | None => true
      end /\
    DatabaseInfo.forceLongPolling di = false /\
    DatabaseInfo.databaseId di = _databaseId (objects s h) /\
    DatabaseInfo.persistenceKey di = _persistenceKey (objects s h)).
  { intros di ->. simpl. unfold DEFAULT_HOST, DEFAULT_SSL.
    by destruct (Settings.host _), (Settings.ssl _). }
  split; [|split].
  - intros Ht Hh.
    assert (Hinit : forall cp ps, exists s' c credentials queue databaseInfo,
      initializeFirestoreClient h cp ps s = (Return (length (promises s)), s') /\
      calls s' = calls s ++
        [EvNewFirestoreClient c credentials queue; EvStart c databaseInfo cp ps] /\
      databaseInfo =
        DatabaseInfo.mk (_databaseId (objects s h)) (_persistenceKey (objects s h))
          (default DEFAULT_HOST
             (Settings.host (default Settings.empty (_settings (objects s h)))))
          (default DEFAULT_SSL
             (Settings.ssl (default Settings.empty (_settings (objects s h))))) false).
    { intros cp ps.
      destruct (initializeFirestoreClient_return h cp ps s)
        as (Hr & _ & _ & _ & _ & _ & _ & _ & He & _); [by rewrite Ht, Hh|].
      destruct (initializeFirestoreClient h cp ps s) as [r s'] eqn:E. simpl in *. subst r.
      by eexists s', _, _, _, _. }
    split.
    + intros cp ps. destruct (Hinit cp ps) as (s' & c & cr & q & di & Hcall & Hcalls & Hdi).
      exists s', c, cr, q, di. split; [done|]. split; [done|]. by apply Hexp.
    + destruct (Hinit MemoryComponentProvider not_durable)
        as (s' & c & cr & q & di & Hcall & Hcalls & Hdi).
      exists s', c, cr, q, di. split; [|split; [done|by apply Hexp]].
      rewrite getFirestoreClient_fresh by done. by rewrite Hcall.
  - intros cp ps p s' Hinit.
    destruct (_terminated (objects s h) || hasFirestoreClient h s) eqn:E.
    { rewrite initializeFirestoreClient_throw in Hinit by done. by simplify_eq. }
    destruct (initializeFirestoreClient_return h cp ps s E)
      as (_ & _ & _ & _ & _ & _ & _ & _ & He & _).
    rewrite Hinit in He. simpl in He. eexists _, _, _, _. split; [exact He|].
    by apply Hexp.
  - intros Hh. destruct (getDatastore_fresh h s Hh) as (Hr & _ & _ & Hp & _ & _ & He).
    destruct (getDatastore h s) as [r s'] eqn:E. simpl in *. subst r.
    eexists s', _. split; [done|]. split; [exact He|]. split; [|by apply Hexp].
    rewrite Hp. rewrite lookup_app_r by lia.
    by replace (S (length (promises s)) - length (promises s)) with 1 by lia.
Qed.

(** Handle 0 has settings with an emulator host and no ssl field; it is
    provisioned with IndexedDb persistence in the full SDK and asked for in
    the lite SDK. *)
Lemma databaseInfo_defaults_witness :
  let s := default initial
    (step (SetSettings 0 (Some (Settings.mk (Some "localhost:8080") None None))) initial) in
  let emulator :=
    DatabaseInfo.mk (mkDatabaseId "my-project" "(default)") "[DEFAULT]"
      "localhost:8080" true false in
  (exists s',
     initializeFirestoreClient 0 IndexedDbComponentProvider not_durable s = (Return 0, s') /\
     calls s' = [EvNewFirestoreClient 0 0 0;
                 EvStart 0 emulator IndexedDbComponentProvider not_durable]) /\
  (exists s', getDatastore 0 s = (Return (Some 1), s') /\
              calls s' = [EvNewConnection emulator]).
Proof.
  intros s emulator.
  assert (Ht : _terminated (objects s 0) = false) by (vm_compute; reflexivity).
  assert (Hh : hasFirestoreClient 0 s = false) by (vm_compute; reflexivity).
  assert (Hd : hasDatastore 0 s = false) by (vm_compute; reflexivity).
  assert (Heq : forall di : DatabaseInfo.t,
    DatabaseInfo.host di = "localhost:8080" /\ DatabaseInfo.ssl di = true /\
    DatabaseInfo.forceLongPolling di = false /\
    DatabaseInfo.databaseId di = mkDatabaseId "my-project" "(default)" /\
    DatabaseInfo.persistenceKey di = "[DEFAULT]" -> di = emulator).
  { intros [dbid key host ssl flp] (H1 & H2 & H3 & H4 & H5). simpl in *. by subst. }
  split.
  - destruct (proj1 (proj1 (databaseInfo_defaults 0 s) Ht Hh)
                IndexedDbComponentProvider not_durable)
      as (s' & c & cr & q & di & Hcall & Hcalls & Hexp).
    exists s'. split; [exact Hcall|].
    rewrite <- (Heq di Hexp). rewrite Hcalls.
    assert (Hc : c = 0 /\ cr = 0 /\ q = 0).
    { assert (Hcs : calls s' =
                    calls (snd (initializeFirestoreClient 0 IndexedDbComponentProvider
                                  not_durable s))) by (by rewrite Hcall).
      rewrite Hcalls in Hcs. vm_compute in Hcs. by injection Hcs as -> -> -> _. }
    destruct Hc as (-> & -> & ->). reflexivity.
  - destruct (proj2 (proj2 (databaseInfo_defaults 0 s)) Hd) as (s' & di & Hcall & Hcalls & _ & Hexp).
    exists s'. split; [exact Hcall|]. by rewrite Hcalls, (Heq di Hexp).
Defined.

(** ** Validation of the cache size *)

(** C6.  [initializeFirestore] rejects settings whose [cacheSizeBytes] is
    defined, is not [CACHE_SIZE_UNLIMITED] and is below
    [LruParams.MINIMUM_CACHE_SIZE_BYTES]: it throws INVALID_ARGUMENT and
    leaves the state as it was, so the handle is not configured and no
    collaborator has been called.  Settings without [cacheSizeBytes], with
    the unlimited sentinel, or with a value at or above the minimum pass the
    check and go on to [_configureClient]. *)
Theorem initializeFirestore_validates_cacheSize
    (MINIMUM_CACHE_SIZE_BYTES CACHE_SIZE_UNLIMITED : Z)
    (getImmediate : nat -> handle) (_configureClient : handle -> Settings.t -> M unit)
    (app : nat) (settings : Settings.t) (s : State) :
  let call :=
    initializeFirestore MINIMUM_CACHE_SIZE_BYTES CACHE_SIZE_UNLIMITED getImmediate
      _configureClient app settings in
  (forall n : Z,
     Settings.cacheSizeBytes settings = Some n ->
     n <> CACHE_SIZE_UNLIMITED ->
     (n < MINIMUM_CACHE_SIZE_BYTES)%Z ->
     call s =
       (Throw (mkFirestoreError INVALID_ARGUMENT
                 ("cacheSizeBytes must be at least " +:+ pretty MINIMUM_CACHE_SIZE_BYTES)),
        s)) /\
  (Settings.cacheSizeBytes settings = None \/
   Settings.cacheSizeBytes settings = Some CACHE_SIZE_UNLIMITED \/
   (exists n : Z, Settings.cacheSizeBytes settings = Some n /\
                  (MINIMUM_CACHE_SIZE_BYTES <= n)%Z) ->
   call s = (_configureClient (getImmediate app) settings ;;; ret (getImmediate app)) s).
Proof.
  simpl. unfold initializeFirestore, cacheSize_invalid. split.
  - intros n -> Hn Hlt.
    rewrite bool_decide_eq_true_2 by done. by rewrite bool_decide_eq_true_2 by done.
  - intros [->|[->|(n & -> & Hle)]].
    + done.
    + by rewrite bool_decide_eq_false_2 by (by intros H; apply H).
    + rewrite (bool_decide_eq_false_2 (n < _)%Z) by lia. by rewrite andb_false_r.
Qed.

(** One byte less than a minimum of one mebibyte, with -1 as the sentinel. *)
Lemma initializeFirestore_validates_cacheSize_witness :
  let configure (h : handle) (st : Settings.t) : M unit :=
    modify (set_objects (fun os => <[h := with_settings (os h) (Some st)]> os)) in
  let settings := Settings.mk None None (Some (1048576 - 1)%Z) in
  initializeFirestore 1048576 (-1) (fun app => app) configure 0 settings initial =
    (Throw (mkFirestoreError INVALID_ARGUMENT "cacheSizeBytes must be at least 1048576"),
     initial).
Proof.
  intros configure settings.
  refine (proj1 (initializeFirestore_validates_cacheSize 1048576 (-1) (fun app => app)
                   configure 0 settings initial) 1048575%Z eq_refl _ _); lia.
Defined.

(** ** Removal *)

Lemma resume_step r aw k res s :
  promises s !! r = Some (Pending (Suspended aw k)) ->
  awaited_result s aw = Some res ->
  step (Resume r k) s = Some (after (resume_cont k r res) s).
Proof. intros Hr Ha. simpl. rewrite Hr. rewrite decide_True by done. by rewrite Ha. Qed.

Lemma resume_blocked r p k w s :
  promises s !! r = Some (Pending (Suspended (AwPromise p) k)) ->
  promises s !! p = Some (Pending w) ->
  step (Resume r k) s = None.
Proof. intros Hr Hp. simpl. rewrite Hr. rewrite decide_True by done. simpl. by rewrite Hp. Qed.

Lemma run_two l1 l2 s s1 :
  step l1 s = Some s1 -> run [l1; l2] s = step l2 s1.
Proof. intros H. simpl. rewrite H. by destruct (step l2 s1). Qed.

Lemma run_cons l ls s s1 :
  step l s = Some s1 -> run (l :: ls) s = run ls s1.
Proof. intros H. simpl. by rewrite H. Qed.

Lemma removeFirestoreClient_settles_without_runtime h s aw outcome :
  aw = match firestoreClientInstances s !! h with
       | Some p => AwPromise p
       | None => AwValue VUndefined
       end ->
  awaited_result s aw = Some outcome ->
  match outcome with inl v => v = VUndefined | inr _ => True end ->
  run [CallRemoveFirestoreClient h; Resume (length (promises s)) (KRemoveFirestoreClient h)] s =
    Some (set_promises
            (fun ps => ps ++ [match outcome with
                              | inl _ => Fulfilled VUndefined
                              | inr e => Rejected e
                              end]) s).
Proof.
  intros -> Ha Ho.
  rewrite (run_two _ _ s (snd (removeFirestoreClient h s))) by done.
  rewrite removeFirestoreClient_eq. cbn [snd].
  erewrite (resume_step _ _ _ outcome); [| apply lookup_snoc |].
  - unfold after. destruct outcome as [v|e]; [subst v|]; simpl;
      unfold setPromise, modify, set_promises; simpl; by rewrite insert_snoc.
  - destruct (firestoreClientInstances s !! h) as [p|]; simpl in *; [|done].
    destruct (promises s !! p) as [st|] eqn:E; [|done].
    by rewrite (lookup_app_l_Some _ _ _ _ E).
Qed.

Lemma removeDatastore_settles_without_datastore h s aw outcome :
  aw = match datastoreInstances s !! h with
       | Some p => AwPromise p
       | None => AwValue VUndefined
       end ->
  awaited_result s aw = Some outcome ->
  match outcome with inl v => v = VUndefined | inr _ => True end ->
  run [CallRemoveDatastore h; Resume (length (promises s)) (KRemoveDatastore h)] s =
    Some (set_promises
            (fun ps => ps ++ [match outcome with
                              | inl _ => Fulfilled VUndefined
                              | inr e => Rejected e
                              end]) s).
Proof.
  intros -> Ha Ho.
  rewrite (run_two _ _ s (snd (removeDatastore h s))) by done.
  change (snd (removeDatastore h s)) with
    (set_promises (fun ps => ps ++
       [Pending (Suspended
          (match datastoreInstances s !! h with
           | Some p => AwPromise p
           | None => AwValue VUndefined
           end) (KRemoveDatastore h))]) s).
  erewrite (resume_step _ _ _ outcome); [| apply lookup_snoc |].
  - unfold after. destruct outcome as [v|e]; [subst v|]; simpl;
      unfold setPromise, modify, set_promises; simpl; by rewrite insert_snoc.
  - destruct (datastoreInstances s !! h) as [p|]; simpl in *; [|done].
    destruct (promises s !! p) as [st|] eqn:E; [|done].
    by rewrite (lookup_app_l_Some _ _ _ _ E).
Qed.

Lemma removeDatastore_eq h s :
  removeDatastore h s =
    (Return (length (promises s)),
     set_promises (fun ps => ps ++
       [Pending (Suspended
          (match datastoreInstances s !! h with
           | Some p => AwPromise p
           | None => AwValue VUndefined
           end) (KRemoveDatastore h))]) s).
Proof. reflexivity. Qed.

(** A removal that waits for a rejected promise is rejected with the same
    error by the rest of its function, which changes nothing else. *)
Lemma removal_rejected k h r p e s :
  k = KRemoveFirestoreClient h \/ k = KRemoveDatastore h ->
  promises s !! r = Some (Pending (Suspended (AwPromise p) k)) ->
  promises s !! p = Some (Rejected e) ->
  step (Resume r k) s = Some (set_promises (fun ps => <[r := Rejected e]> ps) s).
Proof.
  intros Hk Hr Hp. rewrite (resume_step r (AwPromise p) k (inr e)); [|done|].
  - by destruct Hk as [-> | ->].
  - simpl. by rewrite Hp.
Qed.

Lemma step_removal_waits l s s' k h r p :
  k = KRemoveFirestoreClient h \/ k = KRemoveDatastore h ->
  removal_waits k r p s -> step l s = Some s' -> removal_waits k r p s'.
Proof.
  intros Hk [Hr|[(e & Hp & Hr)|(v & Hp)]] Hstep.
  - destruct (step_cell _ _ _ _ _ Hstep Hr) as [?|(Hl & res & Ha & Hs')]; [by left|].
    simpl in Ha. destruct (promises s !! p) as [[w|v|e]|] eqn:Hp; simplify_eq.
    + right; right. exists v. by eapply step_settled_stable.
    + right; left. exists e. split; [by eapply step_settled_stable|].
      rewrite (removal_rejected k h r p e s Hk Hr Hp) in Hstep.
      injection Hstep as Hs'. rewrite <- Hs'.
      apply list_lookup_insert_eq. by eapply lookup_lt_Some.
  - right; left. exists e. split; by eapply step_settled_stable.
  - right; right. exists v. by eapply step_settled_stable.
Qed.

Lemma run_removal_waits ls s s' k h r p :
  k = KRemoveFirestoreClient h \/ k = KRemoveDatastore h ->
  removal_waits k r p s -> run ls s = Some s' -> removal_waits k r p s'.
Proof.
  intros Hk. revert s. induction ls as [|l ls IH]; intros s Hinv Hrun; simpl in Hrun.
  - by simplify_eq.
  - destruct (step l s) as [s1|] eqn:E; [|done].
    apply (IH s1); [by eapply step_removal_waits|done].
Qed.

(** What [removal_waits] says about the promise of the removal: it is the
    waiting cell for as long as the stored promise is pending, and once the
    stored promise is rejected it is still that cell or is rejected with
    the same error. *)
Lemma removal_waits_cases k r p s :
  removal_waits k r p s ->
  (forall w, promises s !! p = Some (Pending w) ->
     promises s !! r = Some (Pending (Suspended (AwPromise p) k))) /\
  (forall e, promises s !! p = Some (Rejected e) ->
     promises s !! r = Some (Pending (Suspended (AwPromise p) k)) \/
     promises s !! r = Some (Rejected e)).
Proof.
  intros [Hr|[(e & Hp & Hr)|(v & Hp)]]; split.
  - done.
  - by left.
  - intros w Hw. by simplify_eq.
  - intros e' He'. right. by simplify_eq.
  - intros w Hw. by simplify_eq.
  - intros e He. by simplify_eq.
Qed.

(** C3, as the code has it.  Called for a handle with an entry,
    [removeFirestoreClient] adds one promise to the heap, the one it
    returns, which waits for the stored promise, and changes nothing else.
    Through any steps of the program that follow the call, while the stored
    promise is pending the returned promise is still that waiting cell (the
    rest of the function cannot run); and once the stored promise is
    rejected (construction failed) the returned promise is still waiting or
    is rejected with the same error, which is what the rest of the function
    does then, changing nothing else: the entry stays and nothing is
    terminated.  With no entry for the handle (construction never started)
    the returned promise is fulfilled with [undefined] and nothing else in
    the state changes.  [removeDatastore] of the lite SDK behaves the same
    way. *)
Theorem remove_waits_for_stored_promise (h : handle) (s : State) :
  let r := length (promises s) in
  let waitsFull p := Pending (Suspended (AwPromise p) (KRemoveFirestoreClient h)) in
  let waitsLite p := Pending (Suspended (AwPromise p) (KRemoveDatastore h)) in
  let removeFull := [CallRemoveFirestoreClient h; Resume r (KRemoveFirestoreClient h)] in
  let removeLite := [CallRemoveDatastore h; Resume r (KRemoveDatastore h)] in
  let settled st := Some (set_promises (fun ps => ps ++ [st]) s) in
  (forall p,
     firestoreClientInstances s !! h = Some p ->
     removeFirestoreClient h s =
       (Return r, set_promises (fun ps => ps ++ [waitsFull p]) s) /\
     forall ls s2,
       run (CallRemoveFirestoreClient h :: ls) s = Some s2 ->
       (forall w, promises s2 !! p = Some (Pending w) ->
          promises s2 !! r = Some (waitsFull p) /\
          step (Resume r (KRemoveFirestoreClient h)) s2 = None) /\
       (forall e, promises s2 !! p = Some (Rejected e) ->
          (promises s2 !! r = Some (waitsFull p) /\
           step (Resume r (KRemoveFirestoreClient h)) s2 =
             Some (set_promises (fun ps => <[r := Rejected e]> ps) s2)) \/
          promises s2 !! r = Some (Rejected e))) /\
  (forall p,
     datastoreInstances s !! h = Some p ->
     removeDatastore h s =
       (Return r, set_promises (fun ps => ps ++ [waitsLite p]) s) /\
     forall ls s2,
       run (CallRemoveDatastore h :: ls) s = Some s2 ->
       (forall w, promises s2 !! p = Some (Pending w) ->
          promises s2 !! r = Some (waitsLite p) /\
          step (Resume r (KRemoveDatastore h)) s2 = None) /\
       (forall e, promises s2 !! p = Some (Rejected e) ->
          (promises s2 !! r = Some (waitsLite p) /\
           step (Resume r (KRemoveDatastore h)) s2 =
             Some (set_promises (fun ps => <[r := Rejected e]> ps) s2)) \/
          promises s2 !! r = Some (Rejected e))) /\
  (forall s' p k w,
     promises s' !! r = Some (Pending (Suspended (AwPromise p) k)) ->
     promises s' !! p = Some (Pending w) ->
     step (Resume r k) s' = None) /\
  (forall p w,
     firestoreClientInstances s !! h = Some p -> promises s !! p = Some (Pending w) ->
     run removeFull s = None) /\
  (firestoreClientInstances s !! h = None ->
     run removeFull s = settled (Fulfilled VUndefined)) /\
  (forall p e,
     firestoreClientInstances s !! h = Some p -> promises s !! p = Some (Rejected e) ->
     run removeFull s = settled (Rejected e)) /\
  (datastoreInstances s !! h = None ->
     run removeLite s = settled (Fulfilled VUndefined)) /\
  (forall p e,
     datastoreInstances s !! h = Some p -> promises s !! p = Some (Rejected e) ->
     run removeLite s = settled (Rejected e)).
Proof.
  cbv zeta. split; [|split; [|split; [|split; [|split; [|split; [|split]]]]]].
  - intros p Hm. split; [by rewrite removeFirestoreClient_eq, Hm|].
    intros ls s2 Hrun.
    rewrite (run_cons _ _ _ (snd (removeFirestoreClient h s))) in Hrun by done.
    rewrite removeFirestoreClient_eq, Hm in Hrun. cbn [snd] in Hrun.
    assert (Hinv : removal_waits (KRemoveFirestoreClient h) (length (promises s)) p s2).
    { eapply run_removal_waits; [by left| |exact Hrun]. left. apply lookup_snoc. }
    destruct (removal_waits_cases _ _ _ _ Hinv) as [Hw He]. split.
    + intros w Hp. split; [by eapply Hw|]. eapply resume_blocked; [by eapply Hw|done].
    + intros e Hp. destruct (He e Hp) as [Hr|Hr]; [left|by right].
      split; [done|]. by apply (removal_rejected _ h _ p); [left| |].
  - intros p Hm. split; [by rewrite removeDatastore_eq, Hm|].
    intros ls s2 Hrun.
    rewrite (run_cons _ _ _ (snd (removeDatastore h s))) in Hrun by done.
    rewrite removeDatastore_eq, Hm in Hrun. cbn [snd] in Hrun.
    assert (Hinv : removal_waits (KRemoveDatastore h) (length (promises s)) p s2).
    { eapply run_removal_waits; [by right| |exact Hrun]. left. apply lookup_snoc. }
    destruct (removal_waits_cases _ _ _ _ Hinv) as [Hw He]. split.
    + intros w Hp. split; [by eapply Hw|]. eapply resume_blocked; [by eapply Hw|done].
    + intros e Hp. destruct (He e Hp) as [Hr|Hr]; [left|by right].
      split; [done|]. by apply (removal_rejected _ h _ p); [right| |].
  - intros s' p k w. apply resume_blocked.
  - intros p w Hm Hp.
    rewrite (run_two _ _ s (snd (removeFirestoreClient h s))) by done.
    rewrite removeFirestoreClient_eq. cbn [snd]. rewrite Hm.
    erewrite resume_blocked; [done|apply lookup_snoc|].
    simpl. by apply lookup_app_l_Some.
  - intros Hm.
    by rewrite (removeFirestoreClient_settles_without_runtime h s _ (inl VUndefined))
      by (by rewrite ?Hm).
  - intros p e Hm Hp.
    by rewrite (removeFirestoreClient_settles_without_runtime h s _ (inr e))
      by (rewrite ?Hm; simpl; by rewrite ?Hp).
  - intros Hm.
    by rewrite (removeDatastore_settles_without_datastore h s _ (inl VUndefined))
      by (by rewrite ?Hm).
  - intros p e Hm Hp.
    by rewrite (removeDatastore_settles_without_datastore h s _ (inr e))
      by (rewrite ?Hm; simpl; by rewrite ?Hp).
Qed.

(** A removal that waits: [removeFirestoreClient] is called for handle 0
    while its runtime is starting, so that its promise 2 waits for the
    stored promise 1; then the start fails, and the removal is rejected with
    the start error.  Also the removal of a handle that was never
    provisioned, and of one whose runtime had failed to start before the
    call. *)
Lemma remove_waits_for_stored_promise_witness :
  let starting := default initial (run [CallGetFirestoreClient 0] initial) in
  let called := default initial (run [CallRemoveFirestoreClient 0] starting) in
  let fails := [Settle 0 (Some transport_error); Resume 1 (KThenReturn (VClient 0))] in
  let failed := default initial (run (CallRemoveFirestoreClient 0 :: fails) starting) in
  let s := default initial (run provision_failed initial) in
  (promises called !! 1 =
     Some (Pending (Suspended (AwPromise 0) (KThenReturn (VClient 0)))) /\
   promises called !! 2 =
     Some (Pending (Suspended (AwPromise 1) (KRemoveFirestoreClient 0))) /\
   step (Resume 2 (KRemoveFirestoreClient 0)) called = None) /\
  (promises failed !! 1 = Some (Rejected transport_error) /\
   step (Resume 2 (KRemoveFirestoreClient 0)) failed =
     Some (set_promises (fun ps => <[2 := Rejected transport_error]> ps) failed)) /\
  run (remove_0 0) initial = Some (set_promises (fun ps => ps ++ [Fulfilled VUndefined]) initial) /\
  run (remove_0 2) s = Some (set_promises (fun ps => ps ++ [Rejected transport_error]) s).
Proof.
  intros starting called fails failed s.
  assert (Hentry : firestoreClientInstances starting !! 0 = Some 1) by (vm_compute; reflexivity).
  assert (Hcalled : run (CallRemoveFirestoreClient 0 :: []) starting = Some called)
    by (vm_compute; reflexivity).
  assert (Hp1 : promises called !! 1 =
                Some (Pending (Suspended (AwPromise 0) (KThenReturn (VClient 0)))))
    by (vm_compute; reflexivity).
  assert (Hfailed : run (CallRemoveFirestoreClient 0 :: fails) starting = Some failed)
    by (vm_compute; reflexivity).
  assert (Hp2 : promises failed !! 1 = Some (Rejected transport_error))
    by (vm_compute; reflexivity).
  assert (Hr2 : promises failed !! 2 <> Some (Rejected transport_error))
    by (vm_compute; discriminate).
  assert (Hm : firestoreClientInstances s !! 0 = Some 1) by (vm_compute; reflexivity).
  assert (Hp : promises s !! 1 = Some (Rejected transport_error)) by (vm_compute; reflexivity).
  pose proof (proj2 (proj1 (remove_waits_for_stored_promise 0 starting) 1 Hentry)) as Hwaits.
  split; [|split; [|split]].
  - destruct (proj1 (Hwaits [] called Hcalled) _ Hp1) as [Hr Hblocked].
    split; [exact Hp1|]. split; [exact Hr|exact Hblocked].
  - destruct (proj2 (Hwaits fails failed Hfailed) _ Hp2) as [[_ Hstep]|Hr]; [|by destruct Hr2].
    split; [exact Hp2|exact Hstep].
  - exact (proj1 (proj2 (proj2 (proj2 (proj2 (remove_waits_for_stored_promise 0 initial)))))
             eq_refl).
  - exact (proj1 (proj2 (proj2 (proj2 (proj2 (proj2
             (remove_waits_for_stored_promise 0 s)))))) 1 transport_error Hm Hp).
Defined.

(** C3, as stated, fails: when the runtime of handle 0 failed to start, so
    that no runtime was ever produced, [removeFirestoreClient] does not
    resolve successfully; its promise is rejected with the start error. *)
Lemma remove_after_failed_start_rejects :
  let s := default initial (run provision_failed initial) in
  run provision_failed initial = Some s /\
  firestoreClientInstances s !! 0 = Some 1 /\
  promises s !! 1 = Some (Rejected transport_error) /\
  fst (removeFirestoreClient 0 s) = Return 2 /\
  exists s',
    run (remove_0 2) s = Some s' /\
    promises s' !! 2 = Some (Rejected transport_error) /\
    promises s' !! 2 <> Some (Fulfilled VUndefined).
Proof.
  intros s. split; [by vm_compute|]. split; [by vm_compute|].
  split; [by vm_compute|]. split; [by vm_compute|].
  exists (default initial (run (remove_0 2) s)).
  split; [by vm_compute|]. split; [by vm_compute|]. by vm_compute.
Qed.

(** ** A failed start *)

Lemma settle_step p o failure m s :
  promises s !! p = Some (Pending (ByCollaborator o)) ->
  settle_collaborator p o failure = Some m ->
  step (Settle p failure) s = Some (after m s).
Proof. intros Hp Hm. simpl. by rewrite Hp, Hm. Qed.

(** The start of a freshly provisioned runtime fails: the stored promise
    ends up rejected with the start error, and the entry is still there. *)
Lemma failed_start_rejects_stored_promise h s e :
  _terminated (objects s h) = false ->
  hasFirestoreClient h s = false ->
  let p := length (promises s) in
  let c := length (clients s) in
  exists s',
    run [CallGetFirestoreClient h; Settle p (Some e); Resume (S p) (KThenReturn (VClient c))] s
      = Some s' /\
    firestoreClientInstances s' !! h = Some (S p) /\
    promises s' !! S p = Some (Rejected e).
Proof.
  intros Ht Hh. cbv zeta.
  destruct (getFirestoreClient_fresh_state h s Ht Hh)
    as (s1 & di & Hget & Hentry & _ & Hstored & Hstart & _).
  cbv zeta in *.
  set (p := length (promises s)) in *. set (c := length (clients s)) in *.
  assert (Hs1 : step (CallGetFirestoreClient h) s = Some s1)
    by (simpl; unfold after; by rewrite Hget).
  rewrite (run_cons _ _ _ _ Hs1).
  set (m := set_runtime c (fun st => match st with Starting => Terminated | _ => st end) ;;;
            setPromise p (Rejected e)).
  assert (Hs2 : step (Settle p (Some e)) s1 = Some (after m s1))
    by (by apply (settle_step p (OStart c))).
  rewrite (run_cons _ _ _ _ Hs2).
  assert (Hp2 : promises (after m s1) = <[p := Rejected e]> (promises s1)) by reflexivity.
  assert (Hm2 : firestoreClientInstances (after m s1) = firestoreClientInstances s1)
    by reflexivity.
  assert (Hlt : p < length (promises s1)) by (by eapply lookup_lt_Some).
  assert (Hs3 : step (Resume (S p) (KThenReturn (VClient c))) (after m s1) =
                Some (after (resume_cont (KThenReturn (VClient c)) (S p) (inr e)) (after m s1))).
  { apply (resume_step _ (AwPromise p)).
    - rewrite Hp2. by rewrite list_lookup_insert_ne by lia.
    - unfold awaited_result. rewrite Hp2. by rewrite list_lookup_insert_eq by done. }
  rewrite (run_cons _ _ _ _ Hs3). eexists. split; [reflexivity|].
  split.
  - exact Hentry.
  - change (promises (after (resume_cont (KThenReturn (VClient c)) (S p) (inr e)) (after m s1)))
      with (<[S p := Rejected e]> (promises (after m s1))).
    apply list_lookup_insert_eq. rewrite Hp2, length_insert. by eapply lookup_lt_Some.
Qed.

(** C9.  A failed start poisons the entry.  When the start of a freshly
    provisioned runtime fails, the stored promise becomes rejected while the
    entry stays in the registry.  From then on, through any steps of the
    program that contain no [removeFirestoreClient] for the handle, the
    entry stays and its promise stays rejected with the same error:
    [hasFirestoreClient] is true, [getFirestoreClient] returns that same
    rejected promise without constructing anything, and
    [initializeFirestoreClient] throws the "already started" error. *)
Theorem failed_start_poisons_entry (h : handle) (s : State) :
  (_terminated (objects s h) = false ->
   hasFirestoreClient h s = false ->
   forall e, exists s',
     run [CallGetFirestoreClient h; Settle (length (promises s)) (Some e);
          Resume (S (length (promises s))) (KThenReturn (VClient (length (clients s))))] s
       = Some s' /\
     firestoreClientInstances s' !! h = Some (S (length (promises s))) /\
     promises s' !! S (length (promises s)) = Some (Rejected e)) /\
  (forall p e ls s',
     firestoreClientInstances s !! h = Some p ->
     promises s !! p = Some (Rejected e) ->
     run ls s = Some s' ->
     Forall (fun l => is_remove h l = false) ls ->
     hasFirestoreClient h s' = true /\
     firestoreClientInstances s' !! h = Some p /\
     promises s' !! p = Some (Rejected e) /\
     (_terminated (objects s' h) = false ->
      getFirestoreClient h s' = (Return (Some p), s')) /\
     (forall cp ps, initializeFirestoreClient h cp ps s' = (Throw already_started, s'))).
Proof.
  split.
  - intros Ht Hh e. by apply failed_start_rejects_stored_promise.
  - intros p e ls s' Hm Hp Hrun Hno.
    pose proof (run_keeps_entry _ _ _ _ _ Hrun Hno Hm) as Hm'.
    pose proof (run_settled_stable _ _ _ _ _ Hrun Hp eq_refl) as Hp'.
    pose proof (hasFirestoreClient_Some _ _ _ Hm') as Hh.
    split; [done|]. split; [done|]. split; [done|]. split.
    + intros Ht. rewrite getFirestoreClient_stored by done. by rewrite Hm'.
    + intros cp ps. apply initializeFirestoreClient_throw. rewrite Hh. apply orb_true_r.
Qed.

(** After the failed start of handle 0: another handle is provisioned, the
    network is asked for on handle 0, and handle 0 is asked for again. *)
Lemma failed_start_poisons_entry_witness :
  let s := default initial (run provision_failed initial) in
  let ls := [CallGetFirestoreClient 1; CallClientOperation EnableNetwork 0] in
  let s' := default initial (run ls s) in
  run ls s = Some s' /\
  getFirestoreClient 0 s' = (Return (Some 1), s') /\
  promises s' !! 1 = Some (Rejected transport_error) /\
  initializeFirestoreClient 0 IndexedDbComponentProvider not_durable s' =
    (Throw already_started, s').
Proof.
  intros s ls s'.
  assert (Hm : firestoreClientInstances s !! 0 = Some 1) by (vm_compute; reflexivity).
  assert (Hp : promises s !! 1 = Some (Rejected transport_error)) by (vm_compute; reflexivity).
  assert (Hrun : run ls s = Some s') by (vm_compute; reflexivity).
  assert (Hno : Forall (fun l => is_remove 0 l = false) ls) by (repeat constructor).
  assert (Ht : _terminated (objects s' 0) = false) by (vm_compute; reflexivity).
  destruct (proj2 (failed_start_poisons_entry 0 s) 1 transport_error ls s' Hm Hp Hrun Hno)
    as (_ & _ & Hp' & Hget & Hinit).
  split; [exact Hrun|]. split; [exact (Hget Ht)|]. split; [exact Hp'|]. apply Hinit.
Defined.

(** ** Removal of a running runtime *)

Lemma runtime_terminated_stable l s s' c :
  step l s = Some s' -> runtime s c = Some Terminated -> runtime s' c = Some Terminated.
Proof.
  intros Hstep Hc. destruct (step_runtime _ _ _ _ _ Hstep Hc) as (st' & -> & Hst).
  by rewrite Hst.
Qed.

Lemma runtime_stays l s s' c :
  step l s = Some s' -> is_Some (runtime s c) -> is_Some (runtime s' c).
Proof.
  intros Hstep [st Hc]. destruct (step_runtime _ _ _ _ _ Hstep Hc) as (st' & -> & _). eauto.
Qed.

Lemma step_terminating l s s' r t c :
  terminating r t c s -> step l s = Some s' -> terminating r t c s'.
Proof.
  intros [Hr Ht] Hstep. split.
  - destruct Hr as [Hr|[Hr Hc]].
    + destruct (step_cell _ _ _ _ _ Hstep Hr) as [?|(-> & res & Ha & ->)]; [by left|].
      right. destruct Ht as [[Ht _]|[Ht Hc]]; simpl in Ha; rewrite Ht in Ha; [done|].
      simplify_eq. split; [|done].
      apply list_lookup_insert_eq. by eapply lookup_lt_Some.
    + right. split; [by eapply step_settled_stable|by eapply runtime_terminated_stable].
  - destruct Ht as [[Ht Hc]|[Ht Hc]].
    + destruct (step_cell _ _ _ _ _ Hstep Ht) as [?|(failure & m & -> & Hm & ->)].
      { left. split; [done|by eapply runtime_stays]. }
      right. destruct failure; simpl in Hm; [done|]. simplify_eq. split.
      * apply list_lookup_insert_eq. by eapply lookup_lt_Some.
      * destruct Hc as [st Hc]. unfold runtime in *. simpl.
        rewrite update_runtime_lookup, decide_True by done. rewrite Hc. done.
    + right. split; [by eapply step_settled_stable|by eapply runtime_terminated_stable].
Qed.

Lemma run_terminating ls s s' r t c :
  terminating r t c s -> run ls s = Some s' -> terminating r t c s'.
Proof.
  revert s. induction ls as [|l ls IH]; intros s Hinv Hrun; simpl in Hrun.
  - by simplify_eq.
  - destruct (step l s) as [s1|] eqn:E; [|done].
    apply (IH s1); [by eapply step_terminating|done].
Qed.

(** The rest of [removeFirestoreClient] once the stored promise delivered a
    runtime: delete the entry, call [terminate()], return its future. *)
Lemma removeFirestoreClient_resume_client h r p c s :
  promises s !! r = Some (Pending (Suspended (AwPromise p) (KRemoveFirestoreClient h))) ->
  promises s !! p = Some (Fulfilled (VClient c)) ->
  let t := length (promises s) in
  exists s1,
    step (Resume r (KRemoveFirestoreClient h)) s = Some s1 /\
    firestoreClientInstances s1 = delete h (firestoreClientInstances s) /\
    calls s1 = calls s ++ [EvTerminate c] /\
    promises s1 = <[r := Pending (Suspended (AwPromise t) KReturnPromise)]>
                    (promises s ++ [Pending (ByCollaborator (OTerminate c))]) /\
    clients s1 =
      update_runtime c (fun st => match st with Terminated => Terminated | _ => Terminating end)
        (clients s).
Proof.
  intros Hr Hp. eexists. split.
  - apply (resume_step _ _ _ (inl (VClient c)) _ Hr). simpl. by rewrite Hp.
  - done.
Qed.

Lemma removeDatastore_resume_datastore h r p d s :
  promises s !! r = Some (Pending (Suspended (AwPromise p) (KRemoveDatastore h))) ->
  promises s !! p = Some (Fulfilled (VDatastore d)) ->
  let t := length (promises s) in
  exists s1,
    step (Resume r (KRemoveDatastore h)) s = Some s1 /\
    datastoreInstances s1 = delete h (datastoreInstances s) /\
    calls s1 = calls s ++ [EvTerminateDatastore d] /\
    promises s1 = <[r := Pending (Suspended (AwPromise t) KReturnPromise)]>
                    (promises s ++ [Pending (ByCollaborator (OTerminateDatastore d))]).
Proof.
  intros Hr Hp. eexists. split.
  - apply (resume_step _ _ _ (inl (VDatastore d)) _ Hr). simpl. by rewrite Hp.
  - done.
Qed.

(** The same step, seen from the promise of the removal: the entry is gone
    and the removal waits for the future of [terminate()]. *)
Lemma removeFirestoreClient_resume_terminating h r p c s :
  promises s !! r = Some (Pending (Suspended (AwPromise p) (KRemoveFirestoreClient h))) ->
  promises s !! p = Some (Fulfilled (VClient c)) ->
  is_Some (runtime s c) ->
  exists s1,
    step (Resume r (KRemoveFirestoreClient h)) s = Some s1 /\
    firestoreClientInstances s1 !! h = None /\
    terminating r (length (promises s)) c s1.
Proof.
  intros Hr Hp Hc.
  destruct (removeFirestoreClient_resume_client h r p c s Hr Hp)
    as (s1 & Hstep & Hm & He & Hps & Hcs).
  cbv zeta in Hps.
  assert (Hlt : r < length (promises s)) by (by eapply lookup_lt_Some).
  exists s1. split; [done|]. split; [rewrite Hm; apply lookup_delete_eq|].
  split; left.
  - rewrite Hps. apply list_lookup_insert_eq. rewrite length_snoc. lia.
  - split.
    + rewrite Hps. rewrite list_lookup_insert_ne by lia. apply lookup_snoc.
    + destruct Hc as [st Hc]. unfold runtime in *. rewrite Hcs, update_runtime_lookup.
      rewrite decide_True by done. rewrite Hc. simpl. eauto.
Qed.

Lemma step_delivers l s s' p c st :
  step l s = Some s' -> promises s !! p = Some st -> delivers c st ->
  exists st', promises s' !! p = Some st' /\ delivers c st'.
Proof.
  intros Hstep Hp [(p0 & ->)|[-> | (e & ->)]].
  - destruct (step_cell _ _ _ _ _ Hstep Hp) as [Hp'|(Hl & res & Ha & Hs')].
    + eexists. split; [done|]. left. eauto.
    + assert (Hlt : p < length (promises s)) by (by eapply lookup_lt_Some).
      subst s'. destruct res as [v|e].
      * exists (Fulfilled (VClient c)). split; [by apply list_lookup_insert_eq|].
        right. by left.
      * exists (Rejected e). split; [by apply list_lookup_insert_eq|].
        right. right. eauto.
  - eexists. split; [by eapply step_settled_stable|]. right. by left.
  - eexists. split; [by eapply step_settled_stable|]. right. right. eauto.
Qed.

Lemma step_removing l s s' h r p c :
  removing h r p c s -> step l s = Some s' -> removing h r p c s'.
Proof.
  intros [(Hr & (st & Hp & Hd) & Hc)|[(t & Ht)|(e & Hp & Hr)]] Hstep.
  - destruct (step_cell _ _ _ _ _ Hstep Hr) as [Hr'|(Hl & res & Ha & Hs')].
    + left. split; [done|]. split; [by eapply step_delivers|by eapply runtime_stays].
    + simpl in Ha. rewrite Hp in Ha. subst l.
      destruct Hd as [(p0 & ->)|[-> | (e & ->)]]; [done| |].
      * right. left. exists (length (promises s)).
        destruct (removeFirestoreClient_resume_terminating h r p c s Hr Hp Hc)
          as (s1 & Hstep1 & _ & Hterm).
        rewrite Hstep in Hstep1. by simplify_eq.
      * right. right. exists e. split; [by eapply step_settled_stable|].
        rewrite (removal_rejected _ h r p e s (or_introl eq_refl) Hr Hp) in Hstep.
        injection Hstep as Hs2. rewrite <- Hs2.
        apply list_lookup_insert_eq. by eapply lookup_lt_Some.
  - right. left. exists t. by eapply step_terminating.
  - right. right. exists e. split; by eapply step_settled_stable.
Qed.

Lemma run_removing ls s s' h r p c :
  removing h r p c s -> run ls s = Some s' -> removing h r p c s'.
Proof.
  revert s. induction ls as [|l ls IH]; intros s Hinv Hrun; simpl in Hrun.
  - by simplify_eq.
  - destruct (step l s) as [s1|] eqn:E; [|done].
    apply (IH s1); [by eapply step_removing|done].
Qed.

Lemma step_waiting_or_removed l s s' h r p c :
  removing h r p c s -> waiting_or_removed h r p s ->
  is_provision h l = false -> step l s = Some s' ->
  waiting_or_removed h r p s'.
Proof.
  intros Hrem [Hr|[(e & Hr)|Hn]] Hno Hstep.
  - destruct (step_cell _ _ _ _ _ Hstep Hr) as [Hr'|(Hl & res & Ha & Hs')]; [by left|].
    subst l. right.
    destruct Hrem as [(_ & (st & Hp & Hd) & Hc)|[(t & [Ht _])|(e & _ & He)]].
    + simpl in Ha. rewrite Hp in Ha.
      destruct Hd as [(p0 & ->)|[-> | (e & ->)]]; [done| |].
      * right.
        destruct (removeFirestoreClient_resume_terminating h r p c s Hr Hp Hc)
          as (s1 & Hstep1 & Hn1 & _).
        rewrite Hstep in Hstep1. by simplify_eq.
      * left. exists e.
        rewrite (removal_rejected _ h r p e s (or_introl eq_refl) Hr Hp) in Hstep.
        injection Hstep as Hs2. rewrite <- Hs2.
        apply list_lookup_insert_eq. by eapply lookup_lt_Some.
    + destruct Ht as [Ht|[Ht _]]; rewrite Hr in Ht; by simplify_eq.
    + rewrite Hr in He. by simplify_eq.
  - right. left. exists e. by eapply step_settled_stable.
  - right. right. by eapply step_keeps_no_entry.
Qed.

Lemma run_waiting_or_removed ls s s' h r p c :
  removing h r p c s -> waiting_or_removed h r p s ->
  Forall (fun l => is_provision h l = false) ls -> run ls s = Some s' ->
  waiting_or_removed h r p s'.
Proof.
  revert s. induction ls as [|l ls IH]; intros s Hrem Hinv Hno Hrun; simpl in Hrun.
  - by simplify_eq.
  - destruct (step l s) as [s1|] eqn:E; [|done].
    inversion Hno; subst.
    apply (IH s1); [by eapply step_removing|by eapply step_waiting_or_removed|done|done].
Qed.

(** The rest of either removal calls its terminating method in the state
    from which the entry has already been deleted. *)
Lemma removeFirestoreClient_after_await_client terminate h r c s :
  removeFirestoreClient_after_await terminate h r (inl (VClient c)) s =
    match terminate c (set_firestoreClientInstances (fun m => delete h m) s) with
    | (Return t, s2) => setPromise r (Pending (Suspended (AwPromise t) KReturnPromise)) s2
    | (Throw e, s2) => (Throw e, s2)
    end.
Proof. reflexivity. Qed.

Lemma removeDatastore_after_await_datastore terminate h r d s :
  removeDatastore_after_await terminate h r (inl (VDatastore d)) s =
    match terminate d (set_datastoreInstances (fun m => delete h m) s) with
    | (Return t, s2) => setPromise r (Pending (Suspended (AwPromise t) KReturnPromise)) s2
    | (Throw e, s2) => (Throw e, s2)
    end.
Proof. reflexivity. Qed.

(** C4, as the code has it.  Once the stored promise has delivered a
    runtime, the rest of [removeFirestoreClient] deletes the entry first
    ([hasFirestoreClient] is false from then on, until a provisioning call
    for the handle), then calls [terminate()] and returns its future, which
    is still pending at that point.  The promise of the removal settles only
    by taking over the outcome of that future: whenever it is settled, it is
    fulfilled and the runtime is Terminated; and it does get settled once
    the runtime completes termination.  [removeDatastore] of the lite SDK
    also deletes its entry before it calls [terminateDatastore].

    The order is part of the statement: the rest of the function runs
    [terminate] in the state from which the entry has been deleted, so that
    two implementations of [terminate] that agree on the states without an
    entry for the handle cannot be told apart; likewise for
    [terminateDatastore].

    The removal may be called while the runtime is still starting.  From a
    state in which the entry of the handle is the promise [p] of a runtime
    [c] that is starting or running, and through any steps that follow the
    call: while [p] is pending the promise of the removal waits for it; if
    the promise of the removal is fulfilled, then with [undefined], the
    runtime is Terminated and, unless the handle was provisioned again, it
    has no entry; if it is rejected, the start failed with that error. *)
Theorem remove_deletes_then_terminates (h : handle) (r p : pid) (s : State) :
  (forall c,
     promises s !! r = Some (Pending (Suspended (AwPromise p) (KRemoveFirestoreClient h))) ->
     promises s !! p = Some (Fulfilled (VClient c)) ->
     is_Some (runtime s c) ->
     let t := length (promises s) in
     exists s1,
       step (Resume r (KRemoveFirestoreClient h)) s = Some s1 /\
       hasFirestoreClient h s1 = false /\
       calls s1 = calls s ++ [EvTerminate c] /\
       promises s1 !! t = Some (Pending (ByCollaborator (OTerminate c))) /\
       promises s1 !! r = Some (Pending (Suspended (AwPromise t) KReturnPromise)) /\
       (forall ls s2,
          run ls s1 = Some s2 ->
          (forall st, promises s2 !! r = Some st -> is_settled st = true ->
                      st = Fulfilled VUndefined /\ runtime s2 c = Some Terminated) /\
          (Forall (fun l => is_provision h l = false) ls -> hasFirestoreClient h s2 = false)) /\
       (exists s3,
          run [Settle t None; Resume r KReturnPromise] s1 = Some s3 /\
          promises s3 !! r = Some (Fulfilled VUndefined))) /\
  (forall d,
     promises s !! r = Some (Pending (Suspended (AwPromise p) (KRemoveDatastore h))) ->
     promises s !! p = Some (Fulfilled (VDatastore d)) ->
     exists s1,
       step (Resume r (KRemoveDatastore h)) s = Some s1 /\
       hasDatastore h s1 = false /\
       calls s1 = calls s ++ [EvTerminateDatastore d] /\
       promises s1 !! length (promises s) =
         Some (Pending (ByCollaborator (OTerminateDatastore d)))) /\
  (resume_cont (KRemoveFirestoreClient h) =
     removeFirestoreClient_after_await FirestoreClient_terminate h /\
   (forall terminate c,
      removeFirestoreClient_after_await terminate h r (inl (VClient c)) s =
        match terminate c (set_firestoreClientInstances (fun m => delete h m) s) with
        | (Return t, s2) =>
            setPromise r (Pending (Suspended (AwPromise t) KReturnPromise)) s2
        | (Throw e, s2) => (Throw e, s2)
        end) /\
   (forall terminate1 terminate2,
      (forall c s0, firestoreClientInstances s0 !! h = None ->
                    terminate1 c s0 = terminate2 c s0) ->
      forall awaited,
        removeFirestoreClient_after_await terminate1 h r awaited s =
        removeFirestoreClient_after_await terminate2 h r awaited s)) /\
  (resume_cont (KRemoveDatastore h) =
     removeDatastore_after_await terminateDatastore h /\
   (forall terminate d,
      removeDatastore_after_await terminate h r (inl (VDatastore d)) s =
        match terminate d (set_datastoreInstances (fun m => delete h m) s) with
        | (Return t, s2) =>
            setPromise r (Pending (Suspended (AwPromise t) KReturnPromise)) s2
        | (Throw e, s2) => (Throw e, s2)
        end) /\
   (forall terminate1 terminate2,
      (forall d s0, datastoreInstances s0 !! h = None ->
                    terminate1 d s0 = terminate2 d s0) ->
      forall awaited,
        removeDatastore_after_await terminate1 h r awaited s =
        removeDatastore_after_await terminate2 h r awaited s)) /\
  (forall c st ls s2,
     firestoreClientInstances s !! h = Some p ->
     promises s !! p = Some st ->
     (st = Fulfilled (VClient c) \/
      exists p0, st = Pending (Suspended (AwPromise p0) (KThenReturn (VClient c)))) ->
     is_Some (runtime s c) ->
     run (CallRemoveFirestoreClient h :: ls) s = Some s2 ->
     let r0 := length (promises s) in
     (forall w, promises s2 !! p = Some (Pending w) ->
        promises s2 !! r0 =
          Some (Pending (Suspended (AwPromise p) (KRemoveFirestoreClient h))) /\
        (Forall (fun l => is_remove h l = false) ls ->
         firestoreClientInstances s2 !! h = Some p)) /\
     (forall v, promises s2 !! r0 = Some (Fulfilled v) ->
        v = VUndefined /\ runtime s2 c = Some Terminated /\
        (Forall (fun l => is_provision h l = false) ls ->
         hasFirestoreClient h s2 = false)) /\
     (forall e, promises s2 !! r0 = Some (Rejected e) ->
        promises s2 !! p = Some (Rejected e))).
Proof.
  split; [|split; [|split; [|split; [|]]]].
  - intros c Hr Hp Hc. cbv zeta.
    destruct (removeFirestoreClient_resume_client h r p c s Hr Hp)
      as (s1 & Hstep & Hm & He & Hps & Hcs).
    cbv zeta in Hps.
    set (t := length (promises s)) in *.
    assert (Hlt : r < t) by (by eapply lookup_lt_Some).
    assert (Hr1 : promises s1 !! r = Some (Pending (Suspended (AwPromise t) KReturnPromise))).
    { rewrite Hps. apply list_lookup_insert_eq. rewrite length_snoc. fold t. lia. }
    assert (Ht1 : promises s1 !! t = Some (Pending (ByCollaborator (OTerminate c)))).
    { rewrite Hps. rewrite list_lookup_insert_ne by lia. apply lookup_snoc. }
    assert (Hn1 : firestoreClientInstances s1 !! h = None)
      by (rewrite Hm; apply lookup_delete_eq).
    assert (Hc1 : is_Some (runtime s1 c)).
    { destruct Hc as [st Hc]. unfold runtime in *. rewrite Hcs, update_runtime_lookup.
      rewrite decide_True by done. rewrite Hc. simpl. eauto. }
    assert (Hinv : terminating r t c s1) by (split; left; done).
    exists s1. split; [done|]. split; [by apply hasFirestoreClient_false|].
    split; [done|]. split; [done|]. split; [done|]. split.
    + intros ls s2 Hrun. split.
      * intros st Hst Hset.
        destruct (run_terminating _ _ _ _ _ _ Hinv Hrun) as [[Hr2|[Hr2 Hc2]] _];
          rewrite Hr2 in Hst; by simplify_eq.
      * intros Hno. apply hasFirestoreClient_false. by eapply run_keeps_no_entry.
    + set (m := set_runtime c (fun _ => Terminated) ;;; setPromise t (Fulfilled VUndefined)).
      assert (Hs2 : step (Settle t None) s1 = Some (after m s1))
        by (by apply (settle_step t (OTerminate c))).
      assert (Hp2 : promises (after m s1) = <[t := Fulfilled VUndefined]> (promises s1))
        by reflexivity.
      assert (Hs3 : step (Resume r KReturnPromise) (after m s1) =
                    Some (after (resume_cont KReturnPromise r (inl VUndefined)) (after m s1))).
      { apply (resume_step _ (AwPromise t)).
        - rewrite Hp2. by rewrite list_lookup_insert_ne by lia.
        - unfold awaited_result. rewrite Hp2.
          rewrite list_lookup_insert_eq; [done|]. by eapply lookup_lt_Some. }
      eexists. split; [by rewrite (run_two _ _ _ _ Hs2)|].
      change (promises (after (resume_cont KReturnPromise r (inl VUndefined)) (after m s1)))
        with (<[r := Fulfilled VUndefined]> (promises (after m s1))).
      apply list_lookup_insert_eq. rewrite Hp2, length_insert. by eapply lookup_lt_Some.
  - intros d Hr Hp.
    destruct (removeDatastore_resume_datastore h r p d s Hr Hp)
      as (s1 & Hstep & Hm & He & Hps).
    cbv zeta in Hps.
    assert (Hlt : r < length (promises s)) by (by eapply lookup_lt_Some).
    exists s1. split; [done|]. split; [|split; [done|]].
    + apply hasDatastore_false. rewrite Hm. apply lookup_delete_eq.
    + rewrite Hps. rewrite list_lookup_insert_ne by lia. apply lookup_snoc.
  - split; [done|]. split.
    + intros terminate c. apply removeFirestoreClient_after_await_client.
    + intros t1 t2 Hagree [v|e]; [|done].
      unfold removeFirestoreClient_after_await.
      destruct (truthy v); [|done].
      destruct v as [|c|d|n]; try done.
      unfold bind, modify. rewrite Hagree; [done|]. apply lookup_delete_eq.
  - split; [done|]. split.
    + intros terminate d. apply removeDatastore_after_await_datastore.
    + intros t1 t2 Hagree [v|e]; [|done].
      unfold removeDatastore_after_await.
      destruct (truthy v); [|done].
      destruct v as [|c|d|n]; try done.
      unfold bind, modify. rewrite Hagree; [done|]. apply lookup_delete_eq.
  - intros c st ls s2 Hm Hp Hst Hc Hrun. cbv zeta.
    rewrite (run_cons _ _ _ (snd (removeFirestoreClient h s))) in Hrun by done.
    rewrite removeFirestoreClient_eq, Hm in Hrun. cbn [snd] in Hrun.
    set (s1 := set_promises (fun ps => ps ++
                 [Pending (Suspended (AwPromise p) (KRemoveFirestoreClient h))]) s) in *.
    assert (Hr1 : promises s1 !! length (promises s) =
                  Some (Pending (Suspended (AwPromise p) (KRemoveFirestoreClient h))))
      by apply lookup_snoc.
    assert (Hrem1 : removing h (length (promises s)) p c s1).
    { left. split; [done|]. split; [|done].
      exists st. split; [by apply lookup_snoc_old|].
      destruct Hst as [->|(p0 & ->)]; [right; by left|left; eauto]. }
    pose proof (run_removing _ _ _ _ _ _ _ Hrem1 Hrun) as Hrem.
    assert (Hwaits : removal_waits (KRemoveFirestoreClient h) (length (promises s)) p s2).
    { eapply run_removal_waits; [by left| |exact Hrun]. by left. }
    split; [|split].
    + intros w Hw. split; [by eapply (proj1 (removal_waits_cases _ _ _ _ Hwaits))|].
      intros Hno. revert Hno Hw. clear -Hrun Hm Hr1.
      assert (Hm1 : firestoreClientInstances s1 !! h = Some p) by done.
      assert (Hlt : length (promises s) < length (promises s1))
        by (by eapply lookup_lt_Some).
      clearbody s1. clear Hm. revert s1 Hrun Hr1 Hm1 Hlt.
      induction ls as [|l ls IH]; intros s1 Hrun Hr1 Hm1 Hlt Hno Hw; simpl in Hrun.
      { by simplify_eq. }
      destruct (step l s1) as [s1'|] eqn:E; [|done].
      inversion Hno; subst.
      eapply (IH s1'); try done.
      * destruct (step_cell _ _ _ _ _ E Hr1) as [?|(-> & _)]; [done|].
        simpl in *. by rewrite bool_decide_eq_false in *.
      * by eapply step_keeps_entry.
      * destruct (step_cell _ _ _ _ _ E Hr1) as [?|(-> & _)]; [by eapply lookup_lt_Some|].
        simpl in *. by rewrite bool_decide_eq_false in *.
    + intros v Hv.
      destruct Hrem as [(Hr & _)|[(t & [Ht _])|(e & _ & He)]].
      * rewrite Hr in Hv. by simplify_eq.
      * destruct Ht as [Ht|[Ht Hterm]]; rewrite Ht in Hv; simplify_eq.
        split; [done|]. split; [done|]. intros Hno. apply hasFirestoreClient_false.
        assert (Hw : waiting_or_removed h (length (promises s)) p s2).
        { eapply run_waiting_or_removed; [exact Hrem1|by left|exact Hno|exact Hrun]. }
        destruct Hw as [Hw|[(e & Hw)|Hw]]; [| |done]; rewrite Ht in Hw; by simplify_eq.
      * rewrite He in Hv. by simplify_eq.
    + intros e He.
      destruct Hrem as [(Hr & _)|[(t & [Ht _])|(e' & Hp' & He')]].
      * rewrite Hr in He. by simplify_eq.
      * destruct Ht as [Ht|[Ht _]]; rewrite Ht in He; by simplify_eq.
      * rewrite He' in He. by simplify_eq.
Qed.

(** Handle 0 is running and [removeFirestoreClient] has been called for it.
    Then: [removeFirestoreClient] is called for handle 0 while its runtime
    is still starting; the start succeeds, the rest of the removal runs and
    the runtime completes termination. *)
Lemma remove_deletes_then_terminates_witness :
  let s := default initial (run (provision_ok ++ [CallRemoveFirestoreClient 0]) initial) in
  let starting := default initial (run [CallGetFirestoreClient 0] initial) in
  let called := default initial (run [CallRemoveFirestoreClient 0] starting) in
  let rest := [Settle 0 None; Resume 1 (KThenReturn (VClient 0));
               Resume 2 (KRemoveFirestoreClient 0); Settle 3 None; Resume 2 KReturnPromise] in
  let removed := default initial (run (CallRemoveFirestoreClient 0 :: rest) starting) in
  (exists s1 s3,
     step (Resume 2 (KRemoveFirestoreClient 0)) s = Some s1 /\
     hasFirestoreClient 0 s1 = false /\
     promises s1 !! 3 = Some (Pending (ByCollaborator (OTerminate 0))) /\
     run [Settle 3 None; Resume 2 KReturnPromise] s1 = Some s3 /\
     promises s3 !! 2 = Some (Fulfilled VUndefined) /\
     runtime s3 0 = Some Terminated) /\
  (runtime starting 0 = Some Starting /\
   promises called !! 2 =
     Some (Pending (Suspended (AwPromise 1) (KRemoveFirestoreClient 0))) /\
   firestoreClientInstances called !! 0 = Some 1) /\
  (promises removed !! 2 = Some (Fulfilled VUndefined) /\
   runtime removed 0 = Some Terminated /\
   hasFirestoreClient 0 removed = false).
Proof.
  intros s starting called rest removed.
  assert (Hr : promises s !! 2 =
               Some (Pending (Suspended (AwPromise 1) (KRemoveFirestoreClient 0))))
    by (vm_compute; reflexivity).
  assert (Hp : promises s !! 1 = Some (Fulfilled (VClient 0))) by (vm_compute; reflexivity).
  assert (Hc : is_Some (runtime s 0)) by (exists Running; vm_compute; reflexivity).
  assert (Hm0 : firestoreClientInstances starting !! 0 = Some 1) by (vm_compute; reflexivity).
  assert (Hp0 : promises starting !! 1 =
                Some (Pending (Suspended (AwPromise 0) (KThenReturn (VClient 0)))))
    by (vm_compute; reflexivity).
  assert (Hc0 : runtime starting 0 = Some Starting) by (vm_compute; reflexivity).
  assert (Hcalled : run (CallRemoveFirestoreClient 0 :: []) starting = Some called)
    by (vm_compute; reflexivity).
  assert (Hp1 : promises called !! 1 =
                Some (Pending (Suspended (AwPromise 0) (KThenReturn (VClient 0)))))
    by (vm_compute; reflexivity).
  assert (Hremoved : run (CallRemoveFirestoreClient 0 :: rest) starting = Some removed)
    by (vm_compute; reflexivity).
  assert (Hr2 : promises removed !! 2 = Some (Fulfilled VUndefined))
    by (vm_compute; reflexivity).
  assert (Hno : Forall (fun l => is_provision 0 l = false) rest) by (repeat constructor).
  pose proof (fun ls s2 =>
    proj2 (proj2 (proj2 (proj2 (remove_deletes_then_terminates 0 2 1 starting))))
      0 _ ls s2 Hm0 Hp0 (or_intror (ex_intro _ 0 eq_refl)) (ex_intro _ _ Hc0)) as Hlink.
  cbv zeta in Hlink.
  assert (Hlen : length (promises starting) = 2) by (vm_compute; reflexivity).
  rewrite Hlen in Hlink.
  split; [|split].
  - destruct (proj1 (remove_deletes_then_terminates 0 2 1 s) 0 Hr Hp Hc)
      as (s1 & Hstep & Hh & _ & Ht & _ & Hlater & (s3 & Hrun & Hr3)).
    exists s1, s3. split; [exact Hstep|]. split; [exact Hh|]. split; [exact Ht|].
    split; [exact Hrun|]. split; [exact Hr3|].
    exact (proj2 (proj1 (Hlater _ s3 Hrun) _ Hr3 eq_refl)).
  - destruct (proj1 (Hlink [] called Hcalled) _ Hp1) as [Hw Hentry].
    split; [exact Hc0|]. split; [exact Hw|]. exact (Hentry (Forall_nil_2 _)).
  - destruct (proj1 (proj2 (Hlink rest removed Hremoved)) _ Hr2) as (_ & Hterm & Hgone).
    split; [exact Hr2|]. split; [exact Hterm|exact (Hgone Hno)].
Defined.

(** C4, as stated, fails: after the rest of [removeFirestoreClient] has run
    for the running handle 0, the entry is gone although termination has not
    completed: the future of [terminate()] is pending, the runtime is only
    Terminating, and the promise of the removal is not settled. *)
Lemma entry_deleted_before_termination_completes :
  let s := default initial (run provision_ok initial) in
  let s' := default initial (run (remove_0 2) s) in
  run provision_ok initial = Some s /\
  runtime s 0 = Some Running /\
  hasFirestoreClient 0 s = true /\
  run (remove_0 2) s = Some s' /\
  hasFirestoreClient 0 s' = false /\
  promises s' !! 3 = Some (Pending (ByCollaborator (OTerminate 0))) /\
  promises s' !! 2 = Some (Pending (Suspended (AwPromise 3) KReturnPromise)) /\
  runtime s' 0 = Some Terminating /\
  runtime s' 0 <> Some Terminated.
Proof.
  intros s s'.
  split; [by vm_compute|]. split; [by vm_compute|]. split; [by vm_compute|].
  split; [by vm_compute|]. split; [by vm_compute|]. split; [by vm_compute|].
  split; [by vm_compute|]. split; by vm_compute.
Qed.

(** ** Clearing persistence *)

Lemma step_calls_elem l s s' ev :
  step l s = Some s' -> ev ∈ calls s -> ev ∈ calls s'.
Proof.
  intros Hstep Hev. destruct (step_calls _ _ _ Hstep) as [extra ->].
  apply elem_of_app. by left.
Qed.

Lemma passes_on_settled st st' : passes_on st st' -> is_settled st = true /\ is_settled st' = true.
Proof. destruct st; simpl; [done|by intros ->..]. Qed.

Lemma step_clearing l s s' delegate this deferred :
  clearing delegate this deferred s -> step l s = Some s' ->
  clearing delegate this deferred s'.
Proof.
  intros [Hq|[(dbid & key & e & Hev & Hd)|(dbid & key & dp & st & Hev & Hdp & Hd)]] Hstep.
  - destruct (step_cell _ _ _ _ _ Hstep Hq)
      as [?|(queue & threw & rest & -> & Hnext & ->)]; [by left|].
    right. assert (Hlt : deferred < length (promises s)) by (by eapply lookup_lt_Some).
    unfold after, clearPersistence_task, record, newPromise, setPromise, getObject, bind,
      gets, modify, ret.
    destruct threw as [e|]; simpl.
    + left. eexists _, _, e. split.
      * apply elem_of_app. right. apply list_elem_of_singleton. reflexivity.
      * by apply list_lookup_insert_eq.
    + right. eexists _, _, (length (promises s)), _. split; [|split].
      * apply elem_of_app. right. apply list_elem_of_singleton. reflexivity.
      * rewrite list_lookup_insert_ne by lia. apply lookup_snoc.
      * left. split; [|by left].
        apply list_lookup_insert_eq. rewrite length_snoc. lia.
  - right. left. exists dbid, key, e.
    split; [by eapply step_calls_elem|by eapply step_settled_stable].
  - right. right.
    destruct Hd as [[Hd Hst]|(st' & Hd & Hpass)].
    + destruct (step_cell _ _ _ _ _ Hstep Hd) as [Hd'|(-> & res & Ha & ->)].
      * (* the closure still waits; the delegate's promise may settle *)
        destruct Hst as [->|Hst].
        -- destruct (step_cell _ _ _ _ _ Hstep Hdp) as [Hdp'|(failure & m & -> & Hm & ->)].
           { eexists dbid, key, dp, _. split; [by eapply step_calls_elem|].
             split; [done|]. left. split; [done|by left]. }
           assert (Hlt : dp < length (promises s)) by (by eapply lookup_lt_Some).
           destruct failure as [e|]; simpl in Hm; simplify_eq.
           ++ exists dbid, key, dp, (Rejected e).
              split; [by eapply (step_calls_elem (Settle dp (Some e)) s); [simpl; rewrite Hdp|]|].
              split; [by apply list_lookup_insert_eq|]. left. split; [done|by right].
           ++ exists dbid, key, dp, (Fulfilled VUndefined).
              split; [by eapply (step_calls_elem (Settle dp None) s); [simpl; rewrite Hdp|]|].
              split; [by apply list_lookup_insert_eq|]. left. split; [done|by right].
        -- exists dbid, key, dp, st. split; [by eapply step_calls_elem|].
           split; [by eapply step_settled_stable|]. left. split; [done|by right].
      * (* the closure goes on after its await *)
        assert (Hlt : deferred < length (promises s)) by (by eapply lookup_lt_Some).
        assert (Hne : deferred <> dp).
        { intros ->. simpl in Ha. rewrite Hd in Ha. done. }
        exists dbid, key, dp, st. split.
        { eapply (step_calls_elem (Resume deferred KClearPersistenceDone) s); [|done].
          by apply (resume_step _ (AwPromise dp)). }
        simpl in Ha. rewrite Hdp in Ha.
        destruct st as [w|v|e]; simplify_eq; simpl.
        -- split; [by rewrite list_lookup_insert_ne|]. right. eexists. split; [|done].
           by apply list_lookup_insert_eq.
        -- split; [by rewrite list_lookup_insert_ne|]. right. eexists. split; [|done].
           by apply list_lookup_insert_eq.
    + destruct (passes_on_settled _ _ Hpass) as [Hs1 Hs2].
      exists dbid, key, dp, st. split; [by eapply step_calls_elem|].
      split; [by eapply step_settled_stable|]. right. exists st'.
      split; [by eapply step_settled_stable|done].
Qed.

Lemma run_clearing ls s s' delegate this deferred :
  clearing delegate this deferred s -> run ls s = Some s' ->
  clearing delegate this deferred s'.
Proof.
  revert s. induction ls as [|l ls IH]; intros s Hinv Hrun; simpl in Hrun.
  - by simplify_eq.
  - destruct (step l s) as [s1|] eqn:E; [|done].
    apply (IH s1); [by eapply step_clearing|done].
Qed.

Lemma next_task_snoc queue ts t :
  next_task queue ts = None -> next_task queue (ts ++ [(queue, t)]) = Some (t, ts).
Proof.
  induction ts as [|[q t'] ts IH]; simpl; intros H.
  - by rewrite decide_True.
  - case_decide; [done|]. destruct (next_task queue ts) as [[? ?]|]; [done|].
    by rewrite IH.
Qed.

Lemma runtask_step queue threw t rest d h s :
  next_task queue (tasks s) = Some (t, rest) ->
  promises s !! t = Some (Pending (Queued (TClearPersistence d h))) ->
  step (RunTask queue threw) s =
    Some (after (clearPersistence_task d h t threw) (set_tasks (fun _ => rest) s)).
Proof. intros Hn Ht. simpl. by rewrite Hn, Ht. Qed.

Lemma clearPersistence_enqueues this delegate s :
  hasFirestoreClient this s = false ->
  _clearPersistence this delegate s =
    (Return (length (promises s)),
     set_tasks (fun ts => ts ++ [(_queue (objects s this), length (promises s))])
       (set_calls (fun es => es ++
          [EvEnqueueAndForgetEvenAfterShutdown (_queue (objects s this)) (length (promises s))])
          (set_promises (fun ps => ps ++ [Pending (Queued (TClearPersistence delegate this))])
             s))).
Proof.
  intros Hh. unfold _clearPersistence, bind, gets. simpl. by rewrite Hh.
Qed.

(** C8.  [_clearPersistence] is guarded by [hasFirestoreClient].  With an
    entry for the handle it throws the FAILED_PRECONDITION error at the call
    and leaves the state as it was: nothing is enqueued and the delegate is
    not invoked.  Without an entry it returns a pending promise and puts the
    clearing task on the handle's queue with
    [enqueueAndForgetEvenAfterShutdown], whatever the shutdown state of the
    queue.  In every later state in which the returned promise is settled,
    it is settled with the outcome of the delegate: rejected with what the
    delegate threw, or fulfilled or rejected as the promise the delegate
    returned.  And it does get settled: when the task is the next one on its
    queue, running it invokes the delegate with the handle's database id and
    persistence key, and once the delegate's promise settles the returned
    promise settles the same way. *)
Theorem clearPersistence_guarded (this : handle) (delegate : Delegate) (s : State) :
  (hasFirestoreClient this s = true ->
   _clearPersistence this delegate s = (Throw clear_precondition, s)) /\
  (hasFirestoreClient this s = false ->
   let deferred := length (promises s) in
   let queue := _queue (objects s this) in
   exists s1,
     _clearPersistence this delegate s = (Return deferred, s1) /\
     tasks s1 = tasks s ++ [(queue, deferred)] /\
     calls s1 = calls s ++ [EvEnqueueAndForgetEvenAfterShutdown queue deferred] /\
     promises s1 !! deferred = Some (Pending (Queued (TClearPersistence delegate this))) /\
     (forall ls s2 st,
        run ls s1 = Some s2 ->
        promises s2 !! deferred = Some st -> is_settled st = true ->
        (exists databaseId persistenceKey e,
           EvDelegate delegate databaseId persistenceKey (inr e) ∈ calls s2 /\
           st = Rejected e) \/
        (exists databaseId persistenceKey returned st0,
           EvDelegate delegate databaseId persistenceKey (inl returned) ∈ calls s2 /\
           promises s2 !! returned = Some st0 /\ passes_on st0 st)) /\
     (next_task queue (tasks s) = None ->
      (forall failure, exists s4,
         run [RunTask queue None; Settle (S deferred) failure;
              Resume deferred KClearPersistenceDone] s1 = Some s4 /\
         EvDelegate delegate (_databaseId (objects s this)) (_persistenceKey (objects s this))
           (inl (S deferred)) ∈ calls s4 /\
         promises s4 !! deferred =
           Some (match failure with None => Fulfilled VUndefined | Some e => Rejected e end)) /\
      (forall e, exists s2,
         step (RunTask queue (Some e)) s1 = Some s2 /\
         promises s2 !! deferred = Some (Rejected e)))).
Proof.
  split.
  - intros Hh. unfold _clearPersistence, bind, gets. simpl. by rewrite Hh.
  - intros Hh. cbv zeta. rewrite (clearPersistence_enqueues this delegate s Hh).
    set (deferred := length (promises s)). set (queue := _queue (objects s this)).
    set (s1 := set_tasks _ _).
    assert (Hd1 : promises s1 !! deferred =
                  Some (Pending (Queued (TClearPersistence delegate this))))
      by apply lookup_snoc.
    assert (Hlen1 : length (promises s1) = S deferred) by apply length_snoc.
    exists s1. split; [done|]. split; [done|]. split; [done|]. split; [done|]. split.
    + intros ls s2 st Hrun Hst Hset.
      assert (Hinv : clearing delegate this deferred s1) by (by left).
      destruct (run_clearing _ _ _ _ _ _ Hinv Hrun)
        as [Hq|[(dbid & key & e & Hev & Hd)|(dbid & key & dp & st0 & Hev & Hdp & Hd)]].
      * rewrite Hq in Hst. by simplify_eq.
      * left. rewrite Hd in Hst. simplify_eq. eauto.
      * right. destruct Hd as [[Hd _]|(st' & Hd & Hpass)]; rewrite Hd in Hst; simplify_eq.
        eauto 10.
    + intros Hnext.
      assert (Hnext1 : next_task queue (tasks s1) = Some (deferred, tasks s))
        by (by apply next_task_snoc).
      split.
      * intros failure.
        pose proof (runtask_step queue None _ _ _ _ s1 Hnext1 Hd1) as Hs2.
        set (s2 := after _ _) in Hs2.
        assert (Hp2 : promises s2 =
                  <[deferred := Pending (Suspended (AwPromise (S deferred)) KClearPersistenceDone)]>
                    (promises s1 ++ [Pending (ByCollaborator (ODelegate delegate))])).
        { subst s2. unfold after, clearPersistence_task, record, newPromise, setPromise,
            getObject, bind, gets, modify, ret. simpl. by rewrite length_snoc. }
        assert (Hc2 : EvDelegate delegate (_databaseId (objects s this))
                        (_persistenceKey (objects s this)) (inl (S deferred)) ∈ calls s2).
        { subst s2. unfold after, clearPersistence_task, record, newPromise, setPromise,
            getObject, bind, gets, modify, ret. simpl. rewrite length_snoc.
          apply elem_of_app. right. apply list_elem_of_singleton. reflexivity. }
        assert (Hdp2 : promises s2 !! S deferred =
                       Some (Pending (ByCollaborator (ODelegate delegate)))).
        { rewrite Hp2, list_lookup_insert_ne by lia. rewrite <- Hlen1. apply lookup_snoc. }
        assert (Hd2 : promises s2 !! deferred =
                      Some (Pending (Suspended (AwPromise (S deferred)) KClearPersistenceDone))).
        { rewrite Hp2. apply list_lookup_insert_eq. rewrite length_snoc. lia. }
        set (outcome := match failure with None => Fulfilled VUndefined | Some e => Rejected e end).
        assert (exists s3, step (Settle (S deferred) failure) s2 = Some s3 /\
                  promises s3 = <[S deferred := outcome]> (promises s2) /\
                  calls s3 = calls s2) as (s3 & Hs3 & Hp3 & Hc3).
        { destruct failure as [e|]; (eexists; split;
            [by apply (settle_step _ (ODelegate delegate))|done]). }
        assert (Hlt2 : S deferred < length (promises s2))
          by (by eapply lookup_lt_Some).
        assert (Hs4 : step (Resume deferred KClearPersistenceDone) s3 =
                      Some (after (resume_cont KClearPersistenceDone deferred
                                     (match failure with
                                      | None => inl VUndefined
                                      | Some e => inr e
                                      end)) s3)).
        { apply (resume_step _ (AwPromise (S deferred))).
          - rewrite Hp3. by rewrite list_lookup_insert_ne by lia.
          - unfold awaited_result. rewrite Hp3, list_lookup_insert_eq by done.
            subst outcome. by destruct failure. }
        eexists. split; [|split].
        -- rewrite (run_cons _ _ _ _ Hs2). rewrite (run_two _ _ _ _ Hs3). exact Hs4.
        -- eapply step_calls_elem; [exact Hs4|]. by rewrite Hc3.
        -- assert (deferred < length (promises s3))
             by (rewrite Hp3, length_insert; lia).
           destruct failure; by apply list_lookup_insert_eq.
      * intros e. eexists. split; [by apply (runtask_step queue (Some e) _ _ _ _ s1 Hnext1 Hd1)|].
        unfold after, clearPersistence_task, record, setPromise, getObject, bind, gets,
          modify, ret. simpl.
        apply list_lookup_insert_eq. rewrite length_snoc. fold deferred. lia.
Qed.

(** Handle 0 has no runtime and persistence is cleared while its queue is
    shutting down; the delegate fails. *)
Lemma clearPersistence_guarded_witness :
  let s := default initial (step (Shutdown 0) initial) in
  let s1 := after (clearIndexedDbPersistence 0) s in
  exists s4,
    run [RunTask 0 None; Settle 1 (Some transport_error); Resume 0 KClearPersistenceDone] s1
      = Some s4 /\
    promises s4 !! 0 = Some (Rejected transport_error).
Proof.
  intros s s1.
  assert (Hh : hasFirestoreClient 0 s = false) by (vm_compute; reflexivity).
  destruct (proj2 (clearPersistence_guarded 0 indexedDbClearPersistence s) Hh)
    as (s1' & Hcall & _ & _ & _ & _ & Hruns).
  destruct (proj1 (Hruns eq_refl) (Some transport_error)) as (s4 & Hrun & _ & Hd).
  assert (Hs1 : s1' = s1) by (unfold s1, after, clearIndexedDbPersistence; by rewrite Hcall).
  subst s1'. exists s4. split; [exact Hrun|exact Hd].
Defined.

(** * Further properties of the code *)

(** ** [_getSettings] *)

(** X1.  [_getSettings] fills in [{}] once and is idempotent from then on:
    the handle has a settings object after the call, a handle that already
    had one is left as it was, other handles are not touched, and asking
    again returns the same settings without changing the state. *)
Theorem getSettings_idempotent (h : handle) (s : State) :
  let settings := default Settings.empty (_settings (objects s h)) in
  let s' := snd (_getSettings h s) in
  fst (_getSettings h s) = Return settings /\
  _settings (objects s' h) = Some settings /\
  (forall h', h' <> h -> objects s' h' = objects s h') /\
  (is_Some (_settings (objects s h)) -> s' = s) /\
  _getSettings h s' = (Return settings, s').
Proof.
  cbv zeta. unfold _getSettings, bind, getObject, gets, modify, ret. simpl.
  destruct (_settings (objects s h)) as [st|] eqn:E; simpl.
  - rewrite E. repeat split; try done.
  - rewrite fn_lookup_insert. simpl. split; [done|]. split; [done|]. split; [|split].
    + intros h' Hne. by rewrite fn_lookup_insert_ne.
    + by intros [? ?].
    + done.
Qed.

Lemma getSettings_idempotent_witness :
  let s := default initial
    (step (SetSettings 0 (Some (Settings.mk (Some "localhost:8080") (Some false) None)))
       initial) in
  snd (_getSettings 0 s) = s.
Proof.
  intros s.
  refine (proj1 (proj2 (proj2 (proj2 (getSettings_idempotent 0 s)))) _).
  eexists. vm_compute. reflexivity.
Defined.

(** ** What the registries return *)

(** X2.  The non-null assertions on [Map.get] hold.  [getFirestoreClient]
    either throws the "already terminated" error (exactly on a handle marked
    terminated) or returns a promise, never [undefined], and that promise is
    the one the registry holds for the handle when the call returns.
    [getDatastore] never throws, not even on a handle marked terminated, and
    also returns the promise its registry holds. *)
Theorem registries_return_stored_promise (h : handle) (s : State) :
  ((_terminated (objects s h) = true /\
    getFirestoreClient h s = (Throw already_terminated, s)) \/
   (_terminated (objects s h) = false /\
    exists p, fst (getFirestoreClient h s) = Return (Some p) /\
              firestoreClientInstances (snd (getFirestoreClient h s)) !! h = Some p)) /\
  (exists p, fst (getDatastore h s) = Return (Some p) /\
             datastoreInstances (snd (getDatastore h s)) !! h = Some p).
Proof.
  split.
  - destruct (_terminated (objects s h)) eqn:Ht.
    + left. split; [done|]. by apply getFirestoreClient_terminated.
    + right. split; [done|]. destruct (hasFirestoreClient h s) eqn:Hh.
      * rewrite getFirestoreClient_stored by done. simpl.
        apply hasFirestoreClient_true in Hh as [p Hp]. exists p. by rewrite Hp.
      * exists (S (length (promises s))).
        rewrite (getFirestoreClient_fresh h s Ht Hh). simpl. split; [done|].
        destruct (initializeFirestoreClient_return h MemoryComponentProvider not_durable s)
          as (_ & -> & _); [by rewrite Ht, Hh|].
        apply lookup_insert_eq.
  - destruct (hasDatastore h s) eqn:Hh.
    + rewrite getDatastore_stored by done. simpl.
      unfold hasDatastore in Hh. apply bool_decide_eq_true in Hh as [p Hp].
      exists p. by rewrite Hp.
    + destruct (getDatastore_fresh h s Hh) as (Hr & Hm & _).
      exists (S (length (promises s))). split; [done|]. by rewrite Hm, lookup_insert_eq.
Qed.

(** ** Handles do not interfere *)

(** X3.  The entry of a handle in the full registry changes only through a
    provisioning call or a removal for that very handle: every other step of
    the program, for another handle, of the lite SDK, of the event loop or
    of a collaborator, leaves it as it is, present or absent. *)
Theorem entry_changes_only_for_its_handle (l : Label) (s s' : State) (h : handle) :
  step l s = Some s' ->
  is_provision h l = false ->
  is_remove h l = false ->
  firestoreClientInstances s' !! h = firestoreClientInstances s !! h.
Proof.
  intros Hstep Hp Hr.
  destruct (step_fc_map _ _ _ Hstep) as [->|[(h' & p' & Hp' & _ & ->)|(h' & Hr' & ->)]].
  - done.
  - rewrite lookup_insert_ne; [done|]. intros ->. congruence.
  - rewrite lookup_delete_ne; [done|]. intros ->. congruence.
Qed.

Lemma entry_changes_only_for_its_handle_witness :
  let s := after (getFirestoreClient 0) initial in
  let s' := after (getFirestoreClient 1) s in
  firestoreClientInstances s' !! 0 = firestoreClientInstances s !! 0.
Proof.
  intros s s'.
  exact (entry_changes_only_for_its_handle (CallGetFirestoreClient 1) s s' 0
           eq_refl eq_refl eq_refl).
Defined.

(** X4.  The entry of a handle in the lite registry changes only through
    [getDatastore] or a removal of the datastore for that very handle; in
    particular no call of the full SDK touches the lite registry. *)
Theorem datastore_entry_changes_only_for_its_handle (l : Label) (s s' : State) (h : handle) :
  step l s = Some s' ->
  l <> CallGetDatastore h ->
  is_removeDatastore h l = false ->
  datastoreInstances s' !! h = datastoreInstances s !! h.
Proof.
  intros Hstep Hg Hr. destruct l; simpl in Hstep, Hr; simplify_eq.
  - by rewrite getFirestoreClient_ds_map.
  - by rewrite initializeFirestoreClient_ds_map.
  - done.
  - by rewrite clientOperation_ds_map.
  - unfold after, _clearPersistence, bind, gets. simpl.
    by destruct (hasFirestoreClient firestore s).
  - destruct (getDatastore_ds_map firestore s) as [->|[_ ->]]; [done|].
    rewrite lookup_insert_ne; [done|]. intros ->. done.
  - done.
  - destruct (promises s !! p) as [[[|aw k'|]| |]|]; try done.
    case_decide; [subst k'|done].
    destruct (awaited_result s aw) as [r|]; [|done]. simplify_eq.
    destruct (resume_cont_ds_map k p r s) as [->|(h0 & -> & ->)]; [done|].
    rewrite lookup_delete_ne; [done|]. intros ->. simpl in Hr.
    by rewrite bool_decide_eq_true_2 in Hr.
  - repeat case_match; simplify_eq. unfold after. unfold_resume. by destruct threw.
  - repeat case_match; simplify_eq.
    match goal with H : settle_collaborator _ _ _ = Some _ |- _ =>
      unfold settle_collaborator in H; repeat case_match; simplify_eq end;
    unfold after; unfold_resume; done.
  - done.
  - done.
  - done.
Qed.

Lemma datastore_entry_changes_only_for_its_handle_witness :
  let s := after (getDatastore 0) initial in
  let s' := after (removeFirestoreClient 0) s in
  datastoreInstances s' !! 0 = datastoreInstances s !! 0.
Proof.
  intros s s'.
  refine (datastore_entry_changes_only_for_its_handle (CallRemoveFirestoreClient 0) s s' 0
            eq_refl _ eq_refl).
  discriminate.
Defined.

(** ** What the full registry holds *)


Lemma stored_promise_mono s s' st :
  length (clients s) <= length (clients s') -> stored_promise s st -> stored_promise s' st.
Proof.
  intros Hle [(p & c & -> & Hc)|[(c & -> & Hc)|(e & ->)]].
  - left. exists p, c. split; [done|lia].
  - right; left. exists c. split; [done|lia].
  - right; right. by exists e.
Qed.






(** ** Client operations *)

Lemma resume_then_client_op r q c op s :
  promises s !! r = Some (Pending (Suspended (AwPromise q) (KThenClientOp op))) ->
  promises s !! q = Some (Fulfilled (VClient c)) ->
  step (Resume r (KThenClientOp op)) s =
    Some (set_promises
            (fun ps => <[r := Pending (Suspended (AwPromise (length (promises s)))
                                         KReturnPromise)]>
                         (ps ++ [Pending (ByCollaborator (OClientOp c op))]))
            (set_calls (fun es => es ++ [EvClientOp c op]) s)).
Proof.
  intros Hr Hq. rewrite (resume_step _ _ _ (inl (VClient c)) _ Hr); [done|].
  simpl. by rewrite Hq.
Qed.

(** X6.  [waitForPendingWrites], [enableNetwork] and [disableNetwork] follow
    the stored promise.  On a handle with an entry the call only creates its
    own promise, waiting for the stored one.  While the stored promise is
    pending the callback cannot run.  Once the stored promise has delivered a
    runtime, the callback calls the operation on that runtime, once, and its
    promise then settles as the future of that operation does.  If the
    stored promise is rejected, the operation's promise is rejected with the
    same error and the runtime is never called. *)
Theorem client_operation_follows_stored_promise (op : ClientOp) (h : handle) (r q : pid)
    (s : State) :
  (_terminated (objects s h) = false ->
   firestoreClientInstances s !! h = Some q ->
   clientOperation op h s =
     (Return (length (promises s)),
      set_promises
        (fun ps => ps ++ [Pending (Suspended (AwPromise q) (KThenClientOp op))]) s)) /\
  (promises s !! r = Some (Pending (Suspended (AwPromise q) (KThenClientOp op))) ->
   (forall w, promises s !! q = Some (Pending w) ->
      step (Resume r (KThenClientOp op)) s = None) /\
   (forall e, promises s !! q = Some (Rejected e) ->
      step (Resume r (KThenClientOp op)) s =
        Some (set_promises (fun ps => <[r := Rejected e]> ps) s)) /\
   (forall c, promises s !! q = Some (Fulfilled (VClient c)) ->
      exists s1,
        step (Resume r (KThenClientOp op)) s = Some s1 /\
        calls s1 = calls s ++ [EvClientOp c op] /\
        firestoreClientInstances s1 = firestoreClientInstances s /\
        clients s1 = clients s /\
        forall failure, exists s3,
          run [Settle (length (promises s)) failure; Resume r KReturnPromise] s1 = Some s3 /\
          calls s3 = calls s1 /\
          promises s3 !! r =
            Some (match failure with
                  | None => Fulfilled VUndefined
                  | Some e => Rejected e
                  end))).
Proof.
  split.
  - intros Ht Hq. unfold clientOperation, bind.
    rewrite getFirestoreClient_stored by (done || by eapply hasFirestoreClient_Some).
    by rewrite Hq.
  - intros Hr. split; [|split].
    + intros w Hq. by eapply resume_blocked.
    + intros e Hq. rewrite (resume_step _ _ _ (inr e) _ Hr); [done|]. simpl. by rewrite Hq.
    + intros c Hq. eexists. split; [by apply (resume_then_client_op r q)|].
      split; [done|]. split; [done|]. split; [done|].
      set (s1 := set_promises _ _). set (t := length (promises s)).
      assert (Hlt : r < t) by (by eapply lookup_lt_Some).
      assert (Hr1 : promises s1 !! r = Some (Pending (Suspended (AwPromise t) KReturnPromise))).
      { simpl. apply list_lookup_insert_eq. rewrite length_snoc. fold t. lia. }
      assert (Ht1 : promises s1 !! t = Some (Pending (ByCollaborator (OClientOp c op)))).
      { simpl. rewrite list_lookup_insert_ne by lia. apply lookup_snoc. }
      intros failure.
      set (outcome := match failure with None => Fulfilled VUndefined | Some e => Rejected e end).
      assert (exists s2, step (Settle t failure) s1 = Some s2 /\
                promises s2 = <[t := outcome]> (promises s1) /\ calls s2 = calls s1)
        as (s2 & Hs2 & Hp2 & Hc2).
      { destruct failure as [e|]; (eexists; split;
          [by apply (settle_step _ (OClientOp c op))|done]). }
      assert (Hlt1 : t < length (promises s1)) by (by eapply lookup_lt_Some).
      assert (Hs3 : step (Resume r KReturnPromise) s2 =
                    Some (after (resume_cont KReturnPromise r
                                   (match failure with
                                    | None => inl VUndefined
                                    | Some e => inr e
                                    end)) s2)).
      { apply (resume_step _ (AwPromise t)).
        - rewrite Hp2. by rewrite list_lookup_insert_ne by lia.
        - unfold awaited_result. rewrite Hp2, list_lookup_insert_eq by done.
          subst outcome. by destruct failure. }
      eexists. split; [by rewrite (run_two _ _ _ _ Hs2)|]. split.
      * destruct failure; simpl; by rewrite Hc2.
      * assert (r < length (promises s2)) by (rewrite Hp2, length_insert; lia).
        destruct failure; by apply list_lookup_insert_eq.
Qed.

(** The network is enabled on the running handle 0, and the runtime reports
    a failure. *)
Lemma client_operation_follows_stored_promise_witness :
  let s := default initial (run (provision_ok ++ [CallClientOperation EnableNetwork 0]) initial) in
  exists s1 s3,
    step (Resume 2 (KThenClientOp EnableNetwork)) s = Some s1 /\
    calls s1 = calls s ++ [EvClientOp 0 EnableNetwork] /\
    run [Settle 3 (Some transport_error); Resume 2 KReturnPromise] s1 = Some s3 /\
    promises s3 !! 2 = Some (Rejected transport_error).
Proof.
  intros s.
  assert (Hr : promises s !! 2 =
               Some (Pending (Suspended (AwPromise 1) (KThenClientOp EnableNetwork))))
    by (vm_compute; reflexivity).
  assert (Hq : promises s !! 1 = Some (Fulfilled (VClient 0))) by (vm_compute; reflexivity).
  destruct (proj2 (proj2 (proj2 (client_operation_follows_stored_promise
                                   EnableNetwork 0 2 1 s) Hr)) 0 Hq)
    as (s1 & Hstep & Hcalls & _ & _ & Hlater).
  destruct (Hlater (Some transport_error)) as (s3 & Hrun & _ & Hr3).
  exists s1, s3. split; [exact Hstep|]. split; [exact Hcalls|].
  split; [exact Hrun|exact Hr3].
Defined.

(** ** The datastore of the lite SDK *)

Lemma getDatastore_fresh_objects h s :
  hasDatastore h s = false ->
  objects (snd (getDatastore h s)) = objects (snd (_getSettings h s)).
Proof.
  intros H.
  unfold getDatastore, _getSettings, newConnection, suspend, newPromise, record, getObject,
    bind, gets, modify, ret.
  simpl. rewrite H. simpl.
  by destruct (_settings (objects s h)).
Qed.

(** [getDatastore] on a handle without an entry, then the connection future
    settles, then the [.then] callback runs. *)
Lemma getDatastore_then_settles h s failure :
  hasDatastore h s = false ->
  let o := objects s h in
  let settings := default Settings.empty (_settings o) in
  let p := length (promises s) in
  let databaseInfo :=
    DatabaseInfo.mk (_databaseId o) (_persistenceKey o)
      (default DEFAULT_HOST (Settings.host settings))
      (default DEFAULT_SSL (Settings.ssl settings)) false in
  exists s',
    run [CallGetDatastore h; Settle p failure;
         Resume (S p) (KThenNewDatastore h databaseInfo)] s = Some s' /\
    datastoreInstances s' !! h = Some (S p) /\
    match failure with
    | Some e =>
        promises s' !! S p = Some (Rejected e) /\
        datastores s' = datastores s
    | None =>
        promises s' !! S p = Some (Fulfilled (VDatastore (length (datastores s)))) /\
        datastores s' =
          datastores s ++ [mkDatastore (VConnection p) (_credentials o) (_databaseId o)]
    end.
Proof.
  intros Hh. cbv zeta.
  destruct (getDatastore_fresh h s Hh) as (_ & Hm & _ & Hps & _ & Hds & _).
  pose proof (getDatastore_fresh_objects h s Hh) as Ho.
  destruct (getSettings_state h s) as (_ & _ & _ & _ & _ & _ & _ & _ & Hobj).
  cbv zeta in *.
  set (p := length (promises s)) in *.
  set (di := DatabaseInfo.mk _ _ _ _ _) in *.
  set (s1 := snd (getDatastore h s)) in *.
  assert (Hcred : _credentials (objects s1 h) = _credentials (objects s h)).
  { rewrite Ho, Hobj. rewrite decide_True by done. done. }
  assert (Hs1 : step (CallGetDatastore h) s = Some s1) by done.
  assert (Hconn : promises s1 !! p = Some (Pending (ByCollaborator ONewConnection))).
  { rewrite Hps. rewrite lookup_app_r by (subst p; lia). by rewrite Nat.sub_diag. }
  assert (Hthen : promises s1 !! S p =
                  Some (Pending (Suspended (AwPromise p) (KThenNewDatastore h di)))).
  { rewrite Hps. rewrite lookup_app_r by (subst p; lia).
    by replace (S p - length (promises s)) with 1 by (subst p; lia). }
  assert (Hlt : p < length (promises s1)) by (by eapply lookup_lt_Some).
  assert (Hlt' : S p < length (promises s1)) by (by eapply lookup_lt_Some).
  rewrite (run_cons _ _ _ _ Hs1).
  set (outcome := match failure with
                  | None => Fulfilled (VConnection p)
                  | Some e => Rejected e
                  end).
  assert (exists s2, step (Settle p failure) s1 = Some s2 /\
            promises s2 = <[p := outcome]> (promises s1) /\
            datastoreInstances s2 = datastoreInstances s1 /\
            datastores s2 = datastores s1 /\ objects s2 = objects s1)
    as (s2 & Hs2 & Hp2 & Hm2 & Hd2 & Ho2).
  { destruct failure as [e|]; (eexists; split;
      [by apply (settle_step _ ONewConnection)|done]). }
  rewrite (run_two _ _ _ _ Hs2).
  assert (Hs3 : step (Resume (S p) (KThenNewDatastore h di)) s2 =
                Some (after (resume_cont (KThenNewDatastore h di) (S p)
                               (match failure with
                                | None => inl (VConnection p)
                                | Some e => inr e
                                end)) s2)).
  { apply (resume_step _ (AwPromise p)).
    - rewrite Hp2. by rewrite list_lookup_insert_ne by lia.
    - unfold awaited_result. rewrite Hp2, list_lookup_insert_eq by done.
      subst outcome. by destruct failure. }
  eexists. split; [exact Hs3|].
  assert (Hlt2 : S p < length (promises s2)) by (rewrite Hp2, length_insert; lia).
  destruct failure as [e|]; simpl;
    unfold after, getDatastore_then, newDatastore, setPromise, getObject, bind, gets, modify;
    simpl.
  - rewrite Hm2, Hm, lookup_insert_eq. split; [done|]. split.
    + by apply list_lookup_insert_eq.
    + by rewrite Hd2, Hds.
  - rewrite Hm2, Hm, lookup_insert_eq. split; [done|]. split.
    + rewrite Hd2, Hds. by apply list_lookup_insert_eq.
    + by rewrite Hd2, Hds, Ho2, Hcred.
Qed.

(** X7.  A datastore is built from the opened connection.  On a handle
    without an entry, [getDatastore] opens a connection; once that succeeds
    and the callback has run, the stored promise is fulfilled with a new
    datastore made of that connection, the handle's credentials and a
    serializer for the handle's database id, and the entry holds that
    promise. *)
Theorem datastore_built_from_connection (h : handle) (s : State) :
  hasDatastore h s = false ->
  let o := objects s h in
  let settings := default Settings.empty (_settings o) in
  let p := length (promises s) in
  let databaseInfo :=
    DatabaseInfo.mk (_databaseId o) (_persistenceKey o)
      (default DEFAULT_HOST (Settings.host settings))
      (default DEFAULT_SSL (Settings.ssl settings)) false in
  exists s',
    run [CallGetDatastore h; Settle p None;
         Resume (S p) (KThenNewDatastore h databaseInfo)] s = Some s' /\
    datastoreInstances s' !! h = Some (S p) /\
    promises s' !! S p = Some (Fulfilled (VDatastore (length (datastores s)))) /\
    datastores s' !! length (datastores s) =
      Some (mkDatastore (VConnection p) (_credentials o) (_databaseId o)).
Proof.
  intros Hh. cbv zeta.
  destruct (getDatastore_then_settles h s None Hh) as (s' & Hrun & Hm & Hp & Hd).
  exists s'. split; [done|]. split; [done|]. split; [done|].
  rewrite Hd. apply lookup_snoc.
Qed.

Lemma datastore_built_from_connection_witness :
  exists s' d,
    run [CallGetDatastore 0; Settle 0 None;
         Resume 1 (KThenNewDatastore 0
                     (DatabaseInfo.mk (mkDatabaseId "my-project" "(default)") "[DEFAULT]"
                        "firestore.googleapis.com" true false))] initial = Some s' /\
    promises s' !! 1 = Some (Fulfilled (VDatastore d)) /\
    ds_connection <$> datastores s' !! d = Some (VConnection 0).
Proof.
  destruct (datastore_built_from_connection 0 initial eq_refl) as (s' & Hrun & _ & Hp & Hd).
  exists s', 0. split; [exact Hrun|]. split; [exact Hp|].
  change (length (datastores initial)) with 0 in Hd. rewrite Hd. reflexivity.
Defined.

(** X8.  A failed connection poisons the lite entry.  When the connection of
    a freshly provisioned handle fails, the stored promise is rejected with
    that error, no datastore is built and the entry stays.  From then on,
    through any steps with no [removeDatastore] for the handle,
    [getDatastore] keeps returning that rejected promise without opening a
    new connection. *)
Theorem failed_connection_poisons_datastore_entry (h : handle) (s : State) :
  (hasDatastore h s = false ->
   let o := objects s h in
   let settings := default Settings.empty (_settings o) in
   let p := length (promises s) in
   let databaseInfo :=
     DatabaseInfo.mk (_databaseId o) (_persistenceKey o)
       (default DEFAULT_HOST (Settings.host settings))
       (default DEFAULT_SSL (Settings.ssl settings)) false in
   forall e, exists s',
     run [CallGetDatastore h; Settle p (Some e);
          Resume (S p) (KThenNewDatastore h databaseInfo)] s = Some s' /\
     datastoreInstances s' !! h = Some (S p) /\
     promises s' !! S p = Some (Rejected e) /\
     datastores s' = datastores s) /\
  (forall p e ls s',
     datastoreInstances s !! h = Some p ->
     promises s !! p = Some (Rejected e) ->
     run ls s = Some s' ->
     Forall (fun l => is_removeDatastore h l = false) ls ->
     getDatastore h s' = (Return (Some p), s') /\
     promises s' !! p = Some (Rejected e)).
Proof.
  split.
  - intros Hh. cbv zeta. intros e.
    destruct (getDatastore_then_settles h s (Some e) Hh) as (s' & Hrun & Hm & Hp & Hd).
    by exists s'.
  - intros p e ls s' Hm Hp Hrun Hno.
    pose proof (run_keeps_datastore_entry _ _ _ _ _ Hrun Hno Hm) as Hm'.
    split; [|by eapply run_settled_stable].
    rewrite getDatastore_stored by (by eapply hasDatastore_Some). by rewrite Hm'.
Qed.

Lemma failed_connection_poisons_datastore_entry_witness :
  exists s',
    run [CallGetDatastore 0; Settle 0 (Some transport_error);
         Resume 1 (KThenNewDatastore 0
                     (DatabaseInfo.mk (mkDatabaseId "my-project" "(default)") "[DEFAULT]"
                        "firestore.googleapis.com" true false))] initial = Some s' /\
    promises s' !! 1 = Some (Rejected transport_error) /\
    getDatastore 0 s' = (Return (Some 1), s').
Proof.
  destruct (proj1 (failed_connection_poisons_datastore_entry 0 initial) eq_refl transport_error)
    as (s' & Hrun & Hm & Hp & _).
  exists s'. split; [exact Hrun|]. split; [exact Hp|].
  refine (proj1 (proj2 (failed_connection_poisons_datastore_entry 0 s') 1 transport_error
                   [] s' Hm Hp eq_refl _)).
  constructor.
Defined.

(** ** Enabling persistence *)

Lemma getSettings_defined_unchanged h s :
  is_Some (_settings (objects s h)) -> snd (_getSettings h s) = s.
Proof.
  intros [st Hst]. unfold _getSettings, bind, getObject, gets, ret. simpl. by rewrite Hst.
Qed.

Lemma getSettings_keeps_guard h s :
  _terminated (objects (snd (_getSettings h s)) h) = _terminated (objects s h) /\
  hasFirestoreClient h (snd (_getSettings h s)) = hasFirestoreClient h s /\
  _credentials (objects (snd (_getSettings h s)) h) = _credentials (objects s h) /\
  _queue (objects (snd (_getSettings h s)) h) = _queue (objects s h).
Proof.
  destruct (getSettings_state h s) as (Hm & _ & _ & _ & _ & _ & _ & _ & Hobj).
  rewrite Hobj, decide_True by done. unfold hasFirestoreClient. by rewrite Hm.
Qed.

Lemma enableIndexedDbPersistence_eq D h s :
  enableIndexedDbPersistence D h s =
    initializeFirestoreClient h IndexedDbComponentProvider
      (mkPersistenceSettings true
         (Some (or_default
                  (Settings.cacheSizeBytes (default Settings.empty (_settings (objects s h))))
                  D))
         None)
      (snd (_getSettings h s)).
Proof.
  unfold enableIndexedDbPersistence, bind. pose proof (getSettings_value h s) as Hv.
  destruct (_getSettings h s) as [r s0]. simpl in *. by subst r.
Qed.

Lemma enableMultiTabIndexedDbPersistence_eq D h s :
  enableMultiTabIndexedDbPersistence D h s =
    (initialized <-
       initializeFirestoreClient h MultiTabIndexedDbComponentProvider
         (mkPersistenceSettings true
            (Some (or_default
                     (Settings.cacheSizeBytes (default Settings.empty (_settings (objects s h))))
                     D))
            (Some true)) ;;
     suspend (AwPromise initialized) (KThenReturn VUndefined)) (snd (_getSettings h s)).
Proof.
  unfold enableMultiTabIndexedDbPersistence, bind at 1.
  pose proof (getSettings_value h s) as Hv.
  destruct (_getSettings h s) as [r s0]. simpl in *. by subst r.
Qed.

(** X9.  [enableIndexedDbPersistence] on a handle that is not terminated and
    has no entry starts a runtime with [IndexedDbComponentProvider] and
    [durable: true]; the cache size handed over is the configured one, or
    the default when the settings have none or have 0.  It returns the start
    future, still pending, and installs the entry, so that a later
    [getFirestoreClient] returns the stored promise and starts nothing. *)
Theorem enableIndexedDbPersistence_starts_durable_runtime
    (DEFAULT_CACHE_SIZE_BYTES : Z) (h : handle) (s : State) :
  _terminated (objects s h) = false ->
  hasFirestoreClient h s = false ->
  let settings := default Settings.empty (_settings (objects s h)) in
  let p := length (promises s) in
  let c := length (clients s) in
  exists s' databaseInfo cacheSizeBytes,
    enableIndexedDbPersistence DEFAULT_CACHE_SIZE_BYTES h s = (Return p, s') /\
    promises s' !! p = Some (Pending (ByCollaborator (OStart c))) /\
    firestoreClientInstances s' !! h = Some (S p) /\
    calls s' = calls s ++
      [EvNewFirestoreClient c (_credentials (objects s h)) (_queue (objects s h));
       EvStart c databaseInfo IndexedDbComponentProvider
         (mkPersistenceSettings true (Some cacheSizeBytes) None)] /\
    (Settings.cacheSizeBytes settings = None \/ Settings.cacheSizeBytes settings = Some 0%Z ->
     cacheSizeBytes = DEFAULT_CACHE_SIZE_BYTES) /\
    (forall n, Settings.cacheSizeBytes settings = Some n -> n <> 0%Z -> cacheSizeBytes = n) /\
    getFirestoreClient h s' = (Return (Some (S p)), s').
Proof.
  intros Ht Hh. cbv zeta. rewrite enableIndexedDbPersistence_eq.
  destruct (getSettings_keeps_guard h s) as (Ht0 & Hh0 & Hcr & Hq).
  destruct (getSettings_state h s) as (_ & _ & Hp0 & Hc0 & _ & _ & _ & He0 & _).
  set (s0 := snd (_getSettings h s)) in *.
  set (ps := mkPersistenceSettings _ _ _).
  destruct (initializeFirestoreClient_return h IndexedDbComponentProvider ps s0)
    as (Hr & Hm & _ & Hps & _ & _ & _ & _ & He & Ho); [by rewrite Ht0, Hh0, Ht, Hh|].
  destruct (initializeFirestoreClient h IndexedDbComponentProvider ps s0) as [r s'] eqn:E.
  simpl in *. subst r.
  assert (Hentry : firestoreClientInstances s' !! h = Some (S (length (promises s))))
    by (by rewrite Hm, lookup_insert_eq, Hp0).
  eexists s', _, _. split; [by rewrite Hp0|]. split; [|split; [done|split; [|split; [|split]]]].
  - rewrite Hps, Hp0. rewrite lookup_app_r by lia. by rewrite Nat.sub_diag, Hc0.
  - rewrite He, He0, Hc0, Hcr, Hq. reflexivity.
  - intros [->| ->]; reflexivity.
  - intros n -> Hn. simpl. by rewrite bool_decide_eq_false_2.
  - rewrite getFirestoreClient_stored; [by rewrite Hentry| |by eapply hasFirestoreClient_Some].
    rewrite Ho. destruct (getSettings_keeps_guard h s0) as (-> & _). by rewrite Ht0.
Qed.

(** Handle 0 has a cache size of 0 configured. *)
Lemma enableIndexedDbPersistence_starts_durable_runtime_witness :
  let s := default initial
    (step (SetSettings 0 (Some (Settings.mk None None (Some 0%Z)))) initial) in
  exists s' databaseInfo,
    enableIndexedDbPersistence 41943040 0 s = (Return 0, s') /\
    calls s' =
      [EvNewFirestoreClient 0 0 0;
       EvStart 0 databaseInfo IndexedDbComponentProvider
         (mkPersistenceSettings true (Some 41943040%Z) None)].
Proof.
  intros s.
  destruct (enableIndexedDbPersistence_starts_durable_runtime 41943040 0 s eq_refl eq_refl)
    as (s' & di & cache & Hcall & _ & _ & Hcalls & Hdefault & _).
  exists s', di. split; [exact Hcall|].
  rewrite <- (Hdefault (or_intror eq_refl)). exact Hcalls.
Defined.

(** X10.  [enableIndexedDbPersistence] and
    [enableMultiTabIndexedDbPersistence] on a handle that is marked
    terminated or already has an entry throw the "already started" error.
    Nothing is started and the registry, the promises and the runtimes are
    as before; but the call has already asked for the settings, so a handle
    without a settings object now has the empty one (a handle with settings
    is left exactly as it was).  In particular persistence cannot be enabled
    once the handle has an entry, for as long as it is not removed. *)
Theorem enabling_persistence_refused (DEFAULT_CACHE_SIZE_BYTES : Z) (h : handle) (s : State) :
  let single := enableIndexedDbPersistence DEFAULT_CACHE_SIZE_BYTES h in
  let multi := enableMultiTabIndexedDbPersistence DEFAULT_CACHE_SIZE_BYTES h in
  (_terminated (objects s h) = true \/ hasFirestoreClient h s = true ->
   fst (single s) = Throw already_started /\
   fst (multi s) = Throw already_started /\
   snd (multi s) = snd (single s) /\
   firestoreClientInstances (snd (single s)) = firestoreClientInstances s /\
   promises (snd (single s)) = promises s /\
   clients (snd (single s)) = clients s /\
   calls (snd (single s)) = calls s /\
   (is_Some (_settings (objects s h)) -> snd (single s) = s) /\
   (_settings (objects s h) = None ->
    _settings (objects (snd (single s)) h) = Some Settings.empty)) /\
  (forall p ls s',
     firestoreClientInstances s !! h = Some p ->
     run ls s = Some s' ->
     Forall (fun l => is_remove h l = false) ls ->
     fst (single s') = Throw already_started /\ fst (multi s') = Throw already_started).
Proof.
  cbv zeta.
  assert (Hthrow : forall s0,
    _terminated (objects s0 h) = true \/ hasFirestoreClient h s0 = true ->
    enableIndexedDbPersistence DEFAULT_CACHE_SIZE_BYTES h s0 =
      (Throw already_started, snd (_getSettings h s0)) /\
    enableMultiTabIndexedDbPersistence DEFAULT_CACHE_SIZE_BYTES h s0 =
      (Throw already_started, snd (_getSettings h s0))).
  { intros s0 Hg. destruct (getSettings_keeps_guard h s0) as (Ht0 & Hh0 & _).
    assert (_terminated (objects (snd (_getSettings h s0)) h)
            || hasFirestoreClient h (snd (_getSettings h s0)) = true) as Hguard.
    { rewrite Ht0, Hh0. apply orb_true_iff. done. }
    rewrite enableIndexedDbPersistence_eq, enableMultiTabIndexedDbPersistence_eq.
    unfold bind. by rewrite !initializeFirestoreClient_throw. }
  split.
  - intros Hg. destruct (Hthrow s Hg) as [-> ->]. simpl.
    destruct (getSettings_state h s) as (Hm & _ & Hp & Hc & _ & _ & _ & He & Hobj).
    split; [done|]. split; [done|]. split; [done|]. split; [done|]. split; [done|].
    split; [done|]. split; [done|]. split.
    + intros Hs. by apply getSettings_defined_unchanged.
    + intros Hn. rewrite Hobj, decide_True by done. simpl. by rewrite Hn.
  - intros p ls s' Hm Hrun Hno.
    pose proof (run_keeps_entry _ _ _ _ _ Hrun Hno Hm) as Hm'.
    destruct (Hthrow s' (or_intror (hasFirestoreClient_Some _ _ _ Hm'))) as [-> ->].
    done.
Qed.

Lemma enabling_persistence_refused_witness :
  let s := after (getFirestoreClient 0) initial in
  fst (enableIndexedDbPersistence 41943040 0 s) = Throw already_started /\
  _settings (objects (snd (enableIndexedDbPersistence 41943040 0 terminated_handle)) 0)
    = Some Settings.empty.
Proof.
  intros s. split.
  - assert (Hh : hasFirestoreClient 0 s = true) by (vm_compute; reflexivity).
    exact (proj1 (proj1 (enabling_persistence_refused 41943040 0 s) (or_intror Hh))).
  - refine (proj2 (proj2 (proj2 (proj2 (proj2 (proj2 (proj2 (proj2
      (proj1 (enabling_persistence_refused 41943040 0 terminated_handle)
         (or_introl eq_refl))))))))) eq_refl).
Defined.

(** X11.  [enableMultiTabIndexedDbPersistence] on a handle that is not
    terminated and has no entry starts a runtime with
    [MultiTabIndexedDbComponentProvider], [durable: true] and
    [synchronizeTabs: true].  It does not return the start future but a
    promise of its own, distinct from the one stored in the registry, which
    is fulfilled with [undefined] once the start has succeeded and rejected
    with the start error once it has failed. *)
Theorem enableMultiTab_returns_derived_promise
    (DEFAULT_CACHE_SIZE_BYTES : Z) (h : handle) (s : State) :
  _terminated (objects s h) = false ->
  hasFirestoreClient h s = false ->
  let p := length (promises s) in
  let c := length (clients s) in
  exists s' databaseInfo cacheSizeBytes,
    enableMultiTabIndexedDbPersistence DEFAULT_CACHE_SIZE_BYTES h s = (Return (S (S p)), s') /\
    firestoreClientInstances s' !! h = Some (S p) /\
    promises s' !! S (S p) = Some (Pending (Suspended (AwPromise p) (KThenReturn VUndefined))) /\
    calls s' = calls s ++
      [EvNewFirestoreClient c (_credentials (objects s h)) (_queue (objects s h));
       EvStart c databaseInfo MultiTabIndexedDbComponentProvider
         (mkPersistenceSettings true (Some cacheSizeBytes) (Some true))] /\
    forall failure, exists s'',
      run [Settle p failure; Resume (S (S p)) (KThenReturn VUndefined)] s' = Some s'' /\
      promises s'' !! S (S p) =
        Some (match failure with
              | None => Fulfilled VUndefined
              | Some e => Rejected e
              end).
Proof.
  intros Ht Hh. cbv zeta. rewrite enableMultiTabIndexedDbPersistence_eq.
  destruct (getSettings_keeps_guard h s) as (Ht0 & Hh0 & Hcr & Hq).
  destruct (getSettings_state h s) as (_ & _ & Hp0 & Hc0 & _ & _ & _ & He0 & _).
  set (s0 := snd (_getSettings h s)) in *.
  set (ps := mkPersistenceSettings _ _ _).
  destruct (initializeFirestoreClient_return h MultiTabIndexedDbComponentProvider ps s0)
    as (Hr & Hm & _ & Hps & _ & _ & _ & _ & He & _); [by rewrite Ht0, Hh0, Ht, Hh|].
  unfold bind.
  destruct (initializeFirestoreClient h MultiTabIndexedDbComponentProvider ps s0)
    as [r s1] eqn:E.
  simpl in Hr, Hm, Hps, He. subst r. rewrite Hp0, Hc0 in *.
  set (p := length (promises s)) in *. set (c := length (clients s)) in *.
  unfold suspend, newPromise.
  set (s' := set_promises _ s1).
  assert (Hlen1 : length (promises s1) = S (S p)).
  { rewrite Hps, length_app. simpl. subst p. lia. }
  assert (Hps' : promises s' =
            promises s ++ [Pending (ByCollaborator (OStart c));
                           Pending (Suspended (AwPromise p) (KThenReturn (VClient c)));
                           Pending (Suspended (AwPromise p) (KThenReturn VUndefined))]).
  { subst s'. simpl. by rewrite Hps, <- app_assoc. }
  assert (Hstart : promises s' !! p = Some (Pending (ByCollaborator (OStart c)))).
  { rewrite Hps'. rewrite lookup_app_r by (subst p; lia). by rewrite Nat.sub_diag. }
  assert (Hown : promises s' !! S (S p) =
                 Some (Pending (Suspended (AwPromise p) (KThenReturn VUndefined)))).
  { rewrite Hps'. rewrite lookup_app_r by (subst p; lia).
    by replace (S (S p) - length (promises s)) with 2 by (subst p; lia). }
  exists s'. eexists _, _. split; [by rewrite Hlen1|].
  split; [subst s'; simpl; by rewrite Hm, lookup_insert_eq|].
  split; [done|]. split; [subst s'; simpl; rewrite He, He0, Hcr, Hq; reflexivity|].
  intros failure.
  set (outcome := match failure with None => Fulfilled VUndefined | Some e => Rejected e end).
  assert (exists s2, step (Settle p failure) s' = Some s2 /\
            promises s2 = <[p := outcome]> (promises s'))
    as (s2 & Hs2 & Hp2).
  { destruct failure as [e|]; (eexists; split;
      [by apply (settle_step _ (OStart c))|done]). }
  assert (Hltp : p < length (promises s')) by (by eapply lookup_lt_Some).
  assert (Hlto : S (S p) < length (promises s')) by (by eapply lookup_lt_Some).
  assert (Hs3 : step (Resume (S (S p)) (KThenReturn VUndefined)) s2 =
                Some (after (resume_cont (KThenReturn VUndefined) (S (S p))
                               (match failure with
                                | None => inl VUndefined
                                | Some e => inr e
                                end)) s2)).
  { apply (resume_step _ (AwPromise p)).
    - rewrite Hp2. by rewrite list_lookup_insert_ne by lia.
    - unfold awaited_result. rewrite Hp2, list_lookup_insert_eq by done.
      subst outcome. by destruct failure. }
  eexists. split; [by rewrite (run_two _ _ _ _ Hs2)|].
  assert (S (S p) < length (promises s2)) by (rewrite Hp2, length_insert; lia).
  destruct failure; by apply list_lookup_insert_eq.
Qed.

Lemma enableMultiTab_returns_derived_promise_witness :
  exists s' s'',
    enableMultiTabIndexedDbPersistence 41943040 0 initial = (Return 2, s') /\
    firestoreClientInstances s' !! 0 = Some 1 /\
    run [Settle 0 (Some transport_error); Resume 2 (KThenReturn VUndefined)] s' = Some s'' /\
    promises s'' !! 2 = Some (Rejected transport_error).
Proof.
  destruct (enableMultiTab_returns_derived_promise 41943040 0 initial eq_refl eq_refl)
    as (s' & di & cache & Hcall & Hentry & _ & _ & Hlater).
  destruct (Hlater (Some transport_error)) as (s'' & Hrun & Hp).
  exists s', s''. split; [exact Hcall|]. split; [exact Hentry|].
  split; [exact Hrun|exact Hp].
Defined.

(** ** Removal, again *)

(** X12.  Two removals in flight terminate the runtime twice.  When
    [removeFirestoreClient] is called twice for a handle whose stored
    promise has delivered a runtime, before the rest of either call has run,
    both calls wait for the same stored promise; the first to go on deletes
    the entry and calls [terminate()], and the second, although the entry is
    gone by then, calls [terminate()] on the same runtime again. *)
Theorem concurrent_removals_terminate_twice (h : handle) (p c : nat) (s : State) :
  firestoreClientInstances s !! h = Some p ->
  promises s !! p = Some (Fulfilled (VClient c)) ->
  let r := length (promises s) in
  exists s',
    run [CallRemoveFirestoreClient h; CallRemoveFirestoreClient h;
         Resume r (KRemoveFirestoreClient h); Resume (S r) (KRemoveFirestoreClient h)] s
      = Some s' /\
    calls s' = calls s ++ [EvTerminate c; EvTerminate c] /\
    firestoreClientInstances s' !! h = None.
Proof.
  intros Hm Hp. cbv zeta.
  assert (Hlt : p < length (promises s)) by (by eapply lookup_lt_Some).
  set (cell := Pending (Suspended (AwPromise p) (KRemoveFirestoreClient h))).
  set (s1 := set_promises (fun ps => ps ++ [cell]) s).
  set (s2 := set_promises (fun ps => ps ++ [cell]) s1).
  assert (Hs1 : step (CallRemoveFirestoreClient h) s = Some s1).
  { simpl. unfold after. rewrite removeFirestoreClient_eq. simpl. by rewrite Hm. }
  assert (Hs2 : step (CallRemoveFirestoreClient h) s1 = Some s2).
  { simpl. unfold after. rewrite removeFirestoreClient_eq. simpl. by rewrite Hm. }
  assert (Hr1 : promises s2 !! length (promises s) = Some cell).
  { simpl. apply lookup_app_l_Some, lookup_snoc. }
  assert (Hr2 : promises s2 !! S (length (promises s)) = Some cell).
  { simpl. rewrite <- (length_snoc (promises s) cell). apply lookup_snoc. }
  assert (Hp2 : promises s2 !! p = Some (Fulfilled (VClient c))).
  { simpl. by do 2 apply lookup_app_l_Some. }
  destruct (removeFirestoreClient_resume_client h _ p c s2 Hr1 Hp2)
    as (s3 & Hs3 & Hm3 & Hc3 & Hps3 & _).
  assert (Hr2' : promises s3 !! S (length (promises s)) = Some cell).
  { rewrite Hps3. rewrite list_lookup_insert_ne by lia. by apply lookup_app_l_Some. }
  assert (Hp3 : promises s3 !! p = Some (Fulfilled (VClient c))).
  { rewrite Hps3. rewrite list_lookup_insert_ne by lia. by apply lookup_app_l_Some. }
  destruct (removeFirestoreClient_resume_client h _ p c s3 Hr2' Hp3)
    as (s4 & Hs4 & Hm4 & Hc4 & _).
  exists s4. split; [|split].
  - rewrite (run_cons _ _ _ _ Hs1), (run_cons _ _ _ _ Hs2). by rewrite (run_two _ _ _ _ Hs3).
  - rewrite Hc4, Hc3. simpl. by rewrite <- app_assoc.
  - rewrite Hm4. apply lookup_delete_eq.
Qed.

Lemma concurrent_removals_terminate_twice_witness :
  let s := default initial (run provision_ok initial) in
  exists s',
    run [CallRemoveFirestoreClient 0; CallRemoveFirestoreClient 0;
         Resume 2 (KRemoveFirestoreClient 0); Resume 3 (KRemoveFirestoreClient 0)] s
      = Some s' /\
    calls s' = calls s ++ [EvTerminate 0; EvTerminate 0].
Proof.
  intros s.
  assert (Hm : firestoreClientInstances s !! 0 = Some 1) by (vm_compute; reflexivity).
  assert (Hp : promises s !! 1 = Some (Fulfilled (VClient 0))) by (vm_compute; reflexivity).
  destruct (concurrent_removals_terminate_twice 0 1 0 s Hm Hp) as (s' & Hrun & Hcalls & _).
  exists s'. split; [exact Hrun|exact Hcalls].
Defined.

(** X13.  The guard of [_clearPersistence] looks at the registry entry, not
    at the runtime.  While the entry exists clearing is refused; as soon as
    the rest of [removeFirestoreClient] has deleted the entry clearing is
    accepted, although the future of [terminate()] is still pending. *)
Theorem clearing_allowed_once_entry_deleted (h : handle) (r p c : nat) (delegate : Delegate)
    (s : State) :
  is_Some (firestoreClientInstances s !! h) ->
  promises s !! r = Some (Pending (Suspended (AwPromise p) (KRemoveFirestoreClient h))) ->
  promises s !! p = Some (Fulfilled (VClient c)) ->
  _clearPersistence h delegate s = (Throw clear_precondition, s) /\
  exists s1,
    step (Resume r (KRemoveFirestoreClient h)) s = Some s1 /\
    promises s1 !! length (promises s) = Some (Pending (ByCollaborator (OTerminate c))) /\
    fst (_clearPersistence h delegate s1) = Return (length (promises s1)) /\
    tasks (snd (_clearPersistence h delegate s1)) =
      tasks s ++ [(_queue (objects s h), length (promises s1))].
Proof.
  intros Hentry Hr Hp. split.
  - unfold _clearPersistence, bind, gets. simpl.
    by rewrite (proj2 (hasFirestoreClient_true h s) Hentry).
  - destruct (removeFirestoreClient_resume_client h r p c s Hr Hp)
      as (s1 & Hs1 & Hm1 & _ & Hps1 & _).
    assert (Hlt : r < length (promises s)) by (by eapply lookup_lt_Some).
    assert (Hh1 : hasFirestoreClient h s1 = false).
    { apply hasFirestoreClient_false. rewrite Hm1. apply lookup_delete_eq. }
    exists s1. split; [done|]. split.
    + rewrite Hps1. rewrite list_lookup_insert_ne by lia. apply lookup_snoc.
    + rewrite (clearPersistence_enqueues h delegate s1 Hh1). simpl. split; [done|].
      assert (Hsame : tasks s1 = tasks s /\ objects s1 = objects s).
      { rewrite (resume_step _ _ _ (inl (VClient c)) _ Hr) in Hs1
          by (simpl; by rewrite Hp).
        by simplify_eq. }
      destruct Hsame as [-> ->]. done.
Qed.

Lemma clearing_allowed_once_entry_deleted_witness :
  let s := default initial (run (provision_ok ++ [CallRemoveFirestoreClient 0]) initial) in
  exists s1,
    step (Resume 2 (KRemoveFirestoreClient 0)) s = Some s1 /\
    promises s1 !! 3 = Some (Pending (ByCollaborator (OTerminate 0))) /\
    fst (clearIndexedDbPersistence 0 s1) = Return 4.
Proof.
  intros s.
  assert (He : is_Some (firestoreClientInstances s !! 0)) by (exists 1; vm_compute; reflexivity).
  assert (Hr : promises s !! 2 =
               Some (Pending (Suspended (AwPromise 1) (KRemoveFirestoreClient 0))))
    by (vm_compute; reflexivity).
  assert (Hp : promises s !! 1 = Some (Fulfilled (VClient 0))) by (vm_compute; reflexivity).
  destruct (proj2 (clearing_allowed_once_entry_deleted 0 2 1 0 indexedDbClearPersistence s
                     He Hr Hp)) as (s1 & Hstep & Ht & Hclear & _).
  exists s1. split; [exact Hstep|]. split; [exact Ht|].
  assert (Hlen : length (promises s1) = 4).
  { assert (Hs1 : Some s1 = step (Resume 2 (KRemoveFirestoreClient 0)) s) by (by rewrite Hstep).
    vm_compute in Hs1. injection Hs1 as ->. reflexivity. }
  rewrite <- Hlen. exact Hclear.
Defined.

(** ** The analytics settings *)



(** ** Provisioning again after a removal *)

(** X15.  Nothing in the registry keeps a removed handle from being
    provisioned again.  Once the rest of [removeFirestoreClient] has deleted
    the entry of a handle that is not marked terminated, [getFirestoreClient]
    constructs and starts a second runtime, different from the first, and
    stores a new promise, while the future of [terminate()] on the first
    runtime is still pending. *)
Theorem provisioning_again_during_termination (h : handle) (r p c : nat) (s : State) :
  promises s !! r = Some (Pending (Suspended (AwPromise p) (KRemoveFirestoreClient h))) ->
  promises s !! p = Some (Fulfilled (VClient c)) ->
  is_Some (clients s !! c) ->
  _terminated (objects s h) = false ->
  exists s1 s2 c' databaseInfo,
    step (Resume r (KRemoveFirestoreClient h)) s = Some s1 /\
    getFirestoreClient h s1 = (Return (Some (S (length (promises s1)))), s2) /\
    c' <> c /\
    calls s2 = calls s ++
      [EvTerminate c;
       EvNewFirestoreClient c' (_credentials (objects s h)) (_queue (objects s h));
       EvStart c' databaseInfo MemoryComponentProvider not_durable] /\
    promises s2 !! length (promises s) = Some (Pending (ByCollaborator (OTerminate c))) /\
    firestoreClientInstances s2 !! h = Some (S (length (promises s1))).
Proof.
  intros Hr Hp Hc Ht.
  destruct (removeFirestoreClient_resume_client h r p c s Hr Hp)
    as (s1 & Hs1 & Hm1 & Hc1 & Hps1 & Hcs1).
  assert (Hlt : r < length (promises s)) by (by eapply lookup_lt_Some).
  assert (Hobj : objects s1 = objects s).
  { rewrite (resume_step _ _ _ (inl (VClient c)) _ Hr) in Hs1 by (simpl; by rewrite Hp).
    by simplify_eq. }
  assert (Hh1 : hasFirestoreClient h s1 = false).
  { apply hasFirestoreClient_false. rewrite Hm1. apply lookup_delete_eq. }
  assert (Ht1 : _terminated (objects s1 h) = false) by (by rewrite Hobj).
  destruct (getFirestoreClient_fresh_state h s1 Ht1 Hh1)
    as (s2 & di & Hget & Hentry & _ & _ & _ & _ & Hcalls).
  assert (Hlen : length (clients s1) = length (clients s)).
  { rewrite Hcs1. unfold update_runtime.
    destruct (clients s !! c); [by rewrite length_insert|done]. }
  exists s1, s2, (length (clients s1)), di.
  split; [done|]. split; [done|]. split; [|split; [|split; [|done]]].
  - rewrite Hlen. apply lookup_lt_is_Some in Hc. lia.
  - rewrite Hcalls, Hc1, Hobj, <- app_assoc. done.
  - assert (Hterm : promises s1 !! length (promises s) =
                    Some (Pending (ByCollaborator (OTerminate c)))).
    { rewrite Hps1. rewrite list_lookup_insert_ne by lia. apply lookup_snoc. }
    pose proof (getFirestoreClient_extends h s1) as Hext.
    unfold after in Hext. rewrite Hget in Hext. by eapply extends_promises.
Qed.

Lemma provisioning_again_during_termination_witness :
  let s := default initial (run (provision_ok ++ [CallRemoveFirestoreClient 0]) initial) in
  exists s1 s2,
    step (Resume 2 (KRemoveFirestoreClient 0)) s = Some s1 /\
    getFirestoreClient 0 s1 = (Return (Some (S (length (promises s1)))), s2) /\
    promises s2 !! 3 = Some (Pending (ByCollaborator (OTerminate 0))).
Proof.
  intros s.
  assert (Hr : promises s !! 2 =
               Some (Pending (Suspended (AwPromise 1) (KRemoveFirestoreClient 0))))
    by (vm_compute; reflexivity).
  assert (Hp : promises s !! 1 = Some (Fulfilled (VClient 0))) by (vm_compute; reflexivity).
  assert (Hc : is_Some (clients s !! 0)) by (eexists; vm_compute; reflexivity).
  assert (Ht : _terminated (objects s 0) = false) by (vm_compute; reflexivity).
  destruct (provisioning_again_during_termination 0 2 1 0 s Hr Hp Hc Ht)
    as (s1 & s2 & c' & di & Hstep & Hget & _ & _ & Hterm & _).
  exists s1, s2. split; [exact Hstep|]. split; [exact Hget|].
  assert (Hlen : length (promises s) = 3) by (vm_compute; reflexivity).
  rewrite Hlen in Hterm. exact Hterm.
Defined.
